(** * libavformat/cached_file.c: the "cf:" buffered file protocol

    A shallow embedding of the nine callbacks of [ff_cached_file_protocol]
    over an explicit model of the C library and of the file system they
    call into, and the properties of the specification settled on it.

    Layout:
    - machine integers and the casts the source writes;
    - what the FFmpeg headers provide (not part of this source file);
    - the environment: files, descriptors, stdio streams, the heap, errno,
      a log of the library calls made, and an oracle that decides which
      library call fails;
    - the C library calls used by the source;
    - the source functions, line by line;
    - the properties. *)

From Stdlib Require Import ZArith Lia.
From Stdlib.Strings Require Import Byte.
From stdpp Require Import base gmap strings list.

Open Scope Z_scope.

(** ** Machine integers *)

Definition INT_MAX : Z := 2 ^ 31 - 1.

(** Two's complement wrap-around of [x] to a signed integer of [bits] bits. *)
Definition wrap_signed (bits x : Z) : Z :=
  (x + 2 ^ (bits - 1)) mod 2 ^ bits - 2 ^ (bits - 1).

(** [(int)x], [(int64_t)x], [(off_t)x] and [(size_t)x] on an LP64 platform. *)
Definition to_int (x : Z) : Z := wrap_signed 32 x.
Definition to_int64 (x : Z) : Z := wrap_signed 64 x.
Definition to_off_t (x : Z) : Z := wrap_signed 64 x.
Definition to_size_t (x : Z) : Z := x mod 2 ^ 64.

(** ** Platform constants (<stdio.h>, <sys/stat.h>, <errno.h> of Linux) *)

Definition NULL : Z := 0.
Definition EOF : Z := -1.
Definition BUFSIZ : Z := 8192.
Definition SEEK_SET : Z := 0.
Definition SEEK_CUR : Z := 1.
Definition SEEK_END : Z := 2.
Definition S_IRUSR : Z := 256.  (* 0400 *)
Definition S_IWUSR : Z := 128.  (* 0200 *)

Definition ENOENT : positive := 2%positive.
Definition EIO : positive := 5%positive.
Definition EBADF : positive := 9%positive.
Definition ENOMEM : positive := 12%positive.
Definition EACCES : positive := 13%positive.
Definition EINVAL : positive := 22%positive.
Definition ENOSYS : Z := 38.

(** ** What the FFmpeg headers provide

    [AVIO_FLAG_READ], [AVIO_FLAG_WRITE] and [AVSEEK_SIZE] are declared in
    libavformat/avio.h and the macro [AVERROR] in libavutil/error.h; neither
    header is part of this source file.  They are taken as parameters,
    together with the facts about them that the properties below rely on:
    the two access flags are distinct non-empty bit sets, and [AVERROR] maps
    a (positive) errno value to a negative code. *)

Class AvHeaders := {
  AVIO_FLAG_READ : Z;
  AVIO_FLAG_WRITE : Z;
  AVSEEK_SIZE : Z;
  AVERROR : Z → Z;
  AVIO_FLAG_READ_nonzero : AVIO_FLAG_READ ≠ 0;
  AVIO_FLAG_WRITE_nonzero : AVIO_FLAG_WRITE ≠ 0;
  AVIO_FLAG_disjoint : Z.land AVIO_FLAG_READ AVIO_FLAG_WRITE = 0;
  AVERROR_negative : ∀ e, 0 < e → AVERROR e < 0
}.

(** [AVIO_FLAG_READ_WRITE] is [(AVIO_FLAG_READ|AVIO_FLAG_WRITE)]. *)
Definition AVIO_FLAG_READ_WRITE `{AvHeaders} : Z :=
  Z.lor AVIO_FLAG_READ AVIO_FLAG_WRITE.

(** Modelled from the spec: the values these names have in avio.h and
    error.h, which are not part of this source file, for running the model on
    concrete inputs.  "a negative code carrying the platform error value":
    [AVERROR(e)] is [-e]; the access mask is a "bitmask of {readable,
    writable}": bits 0 and 1; the size query is a [whence] value apart from
    the three positional ones. *)
#[refine] Instance ffmpeg_headers : AvHeaders := {|
  AVIO_FLAG_READ := 1;
  AVIO_FLAG_WRITE := 2;
  AVSEEK_SIZE := 65536;
  AVERROR := λ e, - e
|}.
Proof. all: first [ discriminate | reflexivity | intros; lia ]. Defined.

(** ** The environment *)

(** Buffering modes of [setvbuf]. *)
Inductive bufmode := IOFBF | IOLBF | IONBF.

(** A regular file: permission bits, the bytes the kernel holds for it (what
    [read] and [fstat] see) and the bytes that reached stable storage (what
    survives a crash).  [fsync] copies the former to the latter. *)
Record inode := mkInode {
  i_mode : Z;
  i_data : list byte;
  i_disk : list byte
}.

(** The fields of [struct stat] used by the source. *)
Record stat_t := mkStat { st_mode : Z; st_size : Z }.

(** A stdio stream ([FILE]).  Bytes accepted by [fwrite] wait in [s_pending]
    until they are handed to the kernel at offset [s_off]; the position
    [ftello] reports is [s_off] plus the number of pending bytes.  [s_vbuf] is
    the buffer supplied by [setvbuf] ([NULL] when the library uses its own),
    [s_cap] the buffer capacity. *)
Record stream := mkStream {
  s_fd : Z;
  s_rd : bool;
  s_wr : bool;
  s_off : nat;
  s_pending : list byte;
  s_vbuf : Z;
  s_bufmode : bufmode;
  s_cap : Z;
  s_err : bool;
  s_eof : bool
}.

(** The library calls the source makes, as they are logged. *)
Inductive event :=
| EvFopen (path mode : string)
| EvSetvbuf (fp vbuf : Z) (m : bufmode) (size : Z)
| EvFileno (fp : Z)
| EvFread (fp size nmemb : Z)
| EvFwrite (fp size nmemb : Z)
| EvFflush (fp : Z)
| EvFsync (fd : Z)
| EvFclose (fp : Z)
| EvFstat (fd : Z)
| EvStat (path : string)
| EvFseeko (fp off whence : Z)
| EvFtello (fp : Z)
| EvMalloc (size : Z)
| EvFree (p : Z)
| EvLog (msg : string).

(** A failure of a library call: the errno value it leaves, and for a
    transfer the number of bytes that went through before the failure. *)
Record fault := mkFault { fl_errno : positive; fl_done : nat }.

(** The state of the environment.  [w_fault n ev] tells whether the call
    [ev], made as the [n]-th library call of the run, fails: it stands for
    everything the program cannot control (device errors, a full disk,
    memory pressure). *)
Record World := mkWorld {
  w_fs : gmap string inode;
  w_fds : gmap Z string;
  w_streams : gmap Z stream;
  w_heap : gmap Z Z;
  w_badfree : list Z;
  w_errno : Z;
  w_trace : list event;
  w_fault : nat → event → option fault
}.

Definition with_fs (x : gmap string inode) (w : World) : World :=
  mkWorld x (w_fds w) (w_streams w) (w_heap w) (w_badfree w) (w_errno w)
          (w_trace w) (w_fault w).
Definition with_fds (x : gmap Z string) (w : World) : World :=
  mkWorld (w_fs w) x (w_streams w) (w_heap w) (w_badfree w) (w_errno w)
          (w_trace w) (w_fault w).
Definition with_streams (x : gmap Z stream) (w : World) : World :=
  mkWorld (w_fs w) (w_fds w) x (w_heap w) (w_badfree w) (w_errno w)
          (w_trace w) (w_fault w).
Definition with_heap (x : gmap Z Z) (w : World) : World :=
  mkWorld (w_fs w) (w_fds w) (w_streams w) x (w_badfree w) (w_errno w)
          (w_trace w) (w_fault w).
Definition with_badfree (x : list Z) (w : World) : World :=
  mkWorld (w_fs w) (w_fds w) (w_streams w) (w_heap w) x (w_errno w)
          (w_trace w) (w_fault w).
Definition with_errno (x : Z) (w : World) : World :=
  mkWorld (w_fs w) (w_fds w) (w_streams w) (w_heap w) (w_badfree w) x
          (w_trace w) (w_fault w).
Definition with_trace (x : list event) (w : World) : World :=
  mkWorld (w_fs w) (w_fds w) (w_streams w) (w_heap w) (w_badfree w)
          (w_errno w) x (w_fault w).

(** ** Computations in the environment *)

Definition M (A : Type) : Type := World → A * World.

#[global] Instance M_ret : MRet M := λ A a w, (a, w).
#[global] Instance M_bind : MBind M :=
  λ A B k m w, let (a, w') := m w in k a w'.

Definition gets {A} (g : World → A) : M A := λ w, (g w, w).
Definition modify (g : World → World) : M unit := λ w, (tt, g w).

(** Log a call that cannot fail. *)
Definition emit (ev : event) : M unit :=
  modify (λ w, with_trace (w_trace w ++ [ev]) w).

(** Log a call and ask the oracle whether it fails. *)
Definition call (ev : event) : M (option fault) :=
  flt ← gets (λ w, w_fault w (length (w_trace w)) ev);
  _ ← emit ev;
  mret flt.

(** Leave [e] in errno and return [r]. *)
Definition fail {A} (e : positive) (r : A) : M A :=
  _ ← modify (with_errno (Z.pos e));
  mret r.

Definition put_stream (fp : Z) (st : stream) : M unit :=
  modify (λ w, with_streams (<[fp := st]> (w_streams w)) w).

(** ** The C library and the operating system

    Each function logs its call, asks the oracle whether it fails, and
    otherwise acts on the environment as ISO C and POSIX describe it for a
    regular file.  Only what the source uses is modelled: the three [fopen]
    modes it passes, the owner's permission bits, and one file per path. *)

(** Bytes [bs] stored at offset [off] of a file, zero-filling a gap; storing
    no byte changes nothing. *)
Definition write_at (data : list byte) (off : nat) (bs : list byte) : list byte :=
  match bs with
  | [] => data
  | _ => take off data ++ replicate (off - length data)%nat x00 ++ bs
           ++ drop (off + length bs)%nat data
  end.

Definition file_of_fd (fd : Z) (w : World) : option (string * inode) :=
  match w_fds w !! fd with
  | Some path =>
      match w_fs w !! path with
      | Some ino => Some (path, ino)
      | None => None
      end
  | None => None
  end.

(** Hand the pending bytes of [st] to the kernel. *)
Definition commit_pending (st : stream) (w : World) : World :=
  match file_of_fd (s_fd st) w with
  | Some (path, ino) =>
      with_fs (<[path := mkInode (i_mode ino)
                           (write_at (i_data ino) (s_off st) (s_pending st))
                           (i_disk ino)]> (w_fs w)) w
  | None => w
  end.

(** The stream once its pending bytes are handed over. *)
Definition flushed (st : stream) : stream :=
  mkStream (s_fd st) (s_rd st) (s_wr st)
           (s_off st + length (s_pending st))%nat []
           (s_vbuf st) (s_bufmode st) (s_cap st) (s_err st) (s_eof st).

Definition set_err (st : stream) : stream :=
  mkStream (s_fd st) (s_rd st) (s_wr st) (s_off st) (s_pending st)
           (s_vbuf st) (s_bufmode st) (s_cap st) true (s_eof st).

Definition set_pending (bs : list byte) (st : stream) : stream :=
  mkStream (s_fd st) (s_rd st) (s_wr st) (s_off st) bs
           (s_vbuf st) (s_bufmode st) (s_cap st) (s_err st) (s_eof st).

Definition set_pos (off : nat) (eof : bool) (st : stream) : stream :=
  mkStream (s_fd st) (s_rd st) (s_wr st) off (s_pending st)
           (s_vbuf st) (s_bufmode st) (s_cap st) (s_err st) eof.

Definition set_vbuf (vbuf : Z) (m : bufmode) (cap : Z) (st : stream) : stream :=
  mkStream (s_fd st) (s_rd st) (s_wr st) (s_off st) (s_pending st)
           vbuf m cap (s_err st) (s_eof st).

(** The position [ftello] reports. *)
Definition stream_pos (st : stream) : Z :=
  Z.of_nat (s_off st + length (s_pending st)).

(** The modes the source passes to [fopen]: readable, writable, and whether
    the file is created or truncated. *)
Definition open_mode (mode : string) : option (bool * bool * bool) :=
  if String.eqb mode "rb" then Some (true, false, false)
  else if String.eqb mode "wb" then Some (false, true, true)
  else if String.eqb mode "w+b" then Some (true, true, true)
  else None.

Definition permitted (rd wr : bool) (mode : Z) : bool :=
  (negb rd || negb (Z.land mode S_IRUSR =? 0))
  && (negb wr || negb (Z.land mode S_IWUSR =? 0)).

(** A new descriptor and a new stream on [path], fully buffered with a
    buffer of the library's own, as ISO C prescribes for a stream that does
    not refer to an interactive device. *)
Definition install (path : string) (ino : inode) (rd wr : bool) : M Z :=
  _ ← modify (λ w, with_fs (<[path := ino]> (w_fs w)) w);
  fd ← gets (λ w, fresh (dom (w_fds w)));
  _ ← modify (λ w, with_fds (<[fd := path]> (w_fds w)) w);
  fp ← gets (λ w, fresh ({[NULL]} ∪ dom (w_streams w)));
  _ ← put_stream fp (mkStream fd rd wr 0 [] NULL IOFBF BUFSIZ false false);
  mret fp.

Definition fopen (path mode : string) : M Z :=
  flt ← call (EvFopen path mode);
  match flt with
  | Some fl => fail (fl_errno fl) NULL
  | None =>
      match open_mode mode with
      | None => fail EINVAL NULL
      | Some (rd, wr, trunc) =>
          fs ← gets w_fs;
          match fs !! path with
          | None =>
              if trunc then install path (mkInode 420 [] []) rd wr
              else fail ENOENT NULL
          | Some ino =>
              if permitted rd wr (i_mode ino) then
                install path
                  (if trunc then mkInode (i_mode ino) [] (i_disk ino) else ino)
                  rd wr
              else fail EACCES NULL
          end
      end
  end.

(** [setvbuf] on a valid stream with a valid mode involves no system call and
    does not fail. *)
Definition setvbuf (fp vbuf : Z) (m : bufmode) (size : Z) : M Z :=
  _ ← emit (EvSetvbuf fp vbuf m size);
  ost ← gets (λ w, w_streams w !! fp);
  match ost with
  | None => fail EBADF EOF
  | Some st =>
      _ ← put_stream fp
            (match m with
             | IONBF => set_vbuf NULL IONBF 0 st
             | _ => if vbuf =? NULL then set_vbuf NULL m (s_cap st) st
                    else set_vbuf vbuf m size st
             end);
      mret 0
  end.

Definition fileno (fp : Z) : M Z :=
  _ ← emit (EvFileno fp);
  ost ← gets (λ w, w_streams w !! fp);
  match ost with
  | Some st => mret (s_fd st)
  | None => fail EBADF (-1)
  end.

(** [fread(ptr, size, nmemb, stream)]: the number of items read and the bytes
    stored at [ptr]. *)
Definition fread (size nmemb fp : Z) : M (Z * list byte) :=
  flt ← call (EvFread fp size nmemb);
  ost ← gets (λ w, w_streams w !! fp);
  match ost with
  | None => fail EBADF (0, [])
  | Some st =>
      if s_rd st then
        _ ← modify (commit_pending st);
        data ← gets (λ w, match file_of_fd (s_fd st) w with
                          | Some (_, ino) => i_data ino
                          | None => []
                          end);
        let st1 := flushed st in
        let want := Z.to_nat (size * nmemb) in
        match flt with
        | Some fl =>
            let got := take (fl_done fl `min` want)%nat (drop (s_off st1) data) in
            _ ← put_stream fp
                  (set_err (set_pos (s_off st1 + length got)%nat (s_eof st1) st1));
            fail (fl_errno fl) (Z.of_nat (length got) / size, got)
        | None =>
            let got := take want (drop (s_off st1) data) in
            _ ← put_stream fp
                  (set_pos (s_off st1 + length got)%nat
                           (length got <? want)%nat st1);
            mret (Z.of_nat (length got) / size, got)
        end
      else
        _ ← put_stream fp (set_err st);
        fail EBADF (0, [])
  end.

(** [fwrite(ptr, size, nmemb, stream)], [buf] being the bytes at [ptr]: the
    number of items written. *)
Definition fwrite (buf : list byte) (size nmemb fp : Z) : M Z :=
  flt ← call (EvFwrite fp size nmemb);
  ost ← gets (λ w, w_streams w !! fp);
  match ost with
  | None => fail EBADF 0
  | Some st =>
      if s_wr st then
        let want := take (Z.to_nat (size * nmemb)) buf in
        match flt with
        | Some fl =>
            let acc := take (fl_done fl) want in
            _ ← put_stream fp (set_err (set_pending (s_pending st ++ acc) st));
            fail (fl_errno fl) (Z.of_nat (length acc) / size)
        | None =>
            let st1 := set_pending (s_pending st ++ want) st in
            _ ← (if (s_cap st1 <=? Z.of_nat (length (s_pending st1)))
                 then _ ← modify (commit_pending st1);
                      put_stream fp (flushed st1)
                 else put_stream fp st1);
            mret (Z.of_nat (length want) / size)
        end
      else
        _ ← put_stream fp (set_err st);
        fail EBADF 0
  end.

(** The stream as a flush that fails after [k] of its pending bytes reached
    the kernel sees it: the GNU C library empties the buffer whether or not
    the write went through, so the bytes after the first [k] are lost. *)
Definition cut_pending (k : nat) (st : stream) : stream :=
  set_pending (take k (s_pending st)) st.

(** [fflush]: the pending bytes are handed to the kernel.  When the call
    fails, [fl_done] of them got through and the others are discarded. *)
Definition fflush (fp : Z) : M Z :=
  flt ← call (EvFflush fp);
  ost ← gets (λ w, w_streams w !! fp);
  match ost with
  | None => fail EBADF EOF
  | Some st =>
      match flt with
      | Some fl =>
          let st0 := cut_pending (fl_done fl) st in
          _ ← modify (commit_pending st0);
          _ ← put_stream fp (set_err (flushed st0));
          fail (fl_errno fl) EOF
      | None =>
          _ ← modify (commit_pending st);
          _ ← put_stream fp (flushed st);
          mret 0
      end
  end.

(** [fsync]: what the kernel holds for the file reaches stable storage. *)
Definition fsync (fd : Z) : M Z :=
  flt ← call (EvFsync fd);
  ofile ← gets (file_of_fd fd);
  match flt, ofile with
  | Some fl, _ => fail (fl_errno fl) (-1)
  | None, None => fail EBADF (-1)
  | None, Some (path, ino) =>
      _ ← modify (λ w, with_fs (<[path := mkInode (i_mode ino) (i_data ino)
                                                  (i_data ino)]> (w_fs w)) w);
      mret 0
  end.

(** [fclose]: the stream and its descriptor are gone whether or not the call
    succeeds; a buffer supplied through [setvbuf] stays the caller's. *)
Definition fclose (fp : Z) : M Z :=
  flt ← call (EvFclose fp);
  ost ← gets (λ w, w_streams w !! fp);
  match ost with
  | None => fail EBADF EOF
  | Some st =>
      _ ← (match flt with
           | Some _ => mret tt
           | None => modify (commit_pending st)
           end);
      _ ← modify (λ w, with_fds (delete (s_fd st) (w_fds w)) w);
      _ ← modify (λ w, with_streams (delete fp (w_streams w)) w);
      match flt with
      | Some fl => fail (fl_errno fl) EOF
      | None => mret 0
      end
  end.

Definition stat_of (ino : inode) : stat_t :=
  mkStat (i_mode ino) (Z.of_nat (length (i_data ino))).

(** [fstat(fd, &st)] and [stat(path, &st)]: the return value and [st]. *)
Definition fstat (fd : Z) : M (Z * stat_t) :=
  flt ← call (EvFstat fd);
  ofile ← gets (file_of_fd fd);
  match flt, ofile with
  | Some fl, _ => fail (fl_errno fl) (-1, mkStat 0 0)
  | None, None => fail EBADF (-1, mkStat 0 0)
  | None, Some (_, ino) => mret (0, stat_of ino)
  end.

Definition stat (path : string) : M (Z * stat_t) :=
  flt ← call (EvStat path);
  oino ← gets (λ w, w_fs w !! path);
  match flt, oino with
  | Some fl, _ => fail (fl_errno fl) (-1, mkStat 0 0)
  | None, None => fail ENOENT (-1, mkStat 0 0)
  | None, Some ino => mret (0, stat_of ino)
  end.

(** [fseeko]: a [whence] that is none of the three is refused before
    anything is done.  Otherwise the stream is flushed and the descriptor
    moved; when the call fails, [fl_done] of the pending bytes got through
    and the others are discarded, as for [fflush].  A target before the start
    of the file is refused by the kernel, after the flush. *)
Definition fseeko (fp off whence : Z) : M Z :=
  flt ← call (EvFseeko fp off whence);
  ost ← gets (λ w, w_streams w !! fp);
  match ost with
  | None => fail EBADF (-1)
  | Some st =>
      if (whence =? SEEK_SET) || (whence =? SEEK_CUR) || (whence =? SEEK_END)
      then
        match flt with
        | Some fl =>
            let st0 := cut_pending (fl_done fl) st in
            _ ← modify (commit_pending st0);
            _ ← put_stream fp (set_err (flushed st0));
            fail (fl_errno fl) (-1)
        | None =>
            _ ← modify (commit_pending st);
            size ← gets (λ w, match file_of_fd (s_fd st) w with
                              | Some (_, ino) => Z.of_nat (length (i_data ino))
                              | None => 0
                              end);
            let st1 := flushed st in
            let base := if whence =? SEEK_SET then 0
                        else if whence =? SEEK_CUR then Z.of_nat (s_off st1)
                        else size in
            if base + off <? 0 then _ ← put_stream fp st1; fail EINVAL (-1)
            else _ ← put_stream fp (set_pos (Z.to_nat (base + off)) false st1);
                 mret 0
        end
      else fail EINVAL (-1)
  end.

Definition ftello (fp : Z) : M Z :=
  flt ← call (EvFtello fp);
  ost ← gets (λ w, w_streams w !! fp);
  match flt, ost with
  | Some fl, _ => fail (fl_errno fl) (-1)
  | None, None => fail EBADF (-1)
  | None, Some st => mret (stream_pos st)
  end.

(** [errno] *)
Definition errno : M Z := gets w_errno.

(** ** FFmpeg helpers called by the source *)

Fixpoint strip_prefix (pfx str : string) : option string :=
  match pfx, str with
  | EmptyString, _ => Some str
  | String a pfx', String b str' =>
      if Ascii.eqb a b then strip_prefix pfx' str' else None
  | String _ _, EmptyString => None
  end.

(** Modelled from the spec: [av_strstart] is defined in libavutil/avstring.c,
    which is not part of this source file.  "the scheme token is stripped
    before use": when [str] starts with [pfx] the result is non-zero and the
    pointer passed as third argument is set to the rest of [str]; otherwise
    the result is 0 and the pointer keeps its value, which at both call sites
    is [str] itself. *)
Definition av_strstart (str pfx : string) : Z * string :=
  match strip_prefix pfx str with
  | Some rest => (1, rest)
  | None => (0, str)
  end.

(** Modelled from the spec: [av_malloc] is defined in libavutil/mem.c, which
    is not part of this source file.  "allocate a buffer of that size": a
    block of [size] bytes at an address that is neither [NULL] nor in use, or
    [NULL] when the allocation fails. *)
Definition av_malloc (size : Z) : M Z :=
  flt ← call (EvMalloc size);
  match flt with
  | Some fl => fail (fl_errno fl) NULL
  | None =>
      p ← gets (λ w, fresh ({[NULL]} ∪ dom (w_heap w)));
      _ ← modify (λ w, with_heap (<[p := size]> (w_heap w)) w);
      mret p
  end.

(** Modelled from the spec: [av_free] is defined in libavutil/mem.c, which is
    not part of this source file.  "frees the owned buffer": the block at [p]
    is released; [NULL] is accepted and ignored; releasing an address that
    holds no block (a double free) is recorded in [w_badfree]. *)
Definition av_free (p : Z) : M unit :=
  _ ← emit (EvFree p);
  if p =? NULL then mret tt
  else
    blk ← gets (λ w, w_heap w !! p);
    match blk with
    | Some _ => modify (λ w, with_heap (delete p (w_heap w)) w)
    | None => modify (λ w, with_badfree (w_badfree w ++ [p]) w)
    end.

(** Modelled from the spec: [av_log] is defined in libavutil/log.c, which is
    not part of this source file.  "logs a diagnostic": the message is
    logged, nothing else changes. *)
Definition av_log (msg : string) : M unit := emit (EvLog msg).

(** ** The source: libavformat/cached_file.c *)

(** [struct CachedFileContext], without its [class] pointer. *)
Record CachedFileContext := mkCachedFileContext {
  fd : Z;
  f : Z;
  buf_size : Z;
  write_flags : Z;
  buf : Z
}.

(** The fields of [URLContext] the source uses. *)
Record URLContext := mkURLContext {
  priv_data : CachedFileContext;
  filename : string
}.

Definition set_write_flags (x : Z) (c : CachedFileContext) : CachedFileContext :=
  mkCachedFileContext (fd c) (f c) (buf_size c) x (buf c).
Definition set_buf (x : Z) (c : CachedFileContext) : CachedFileContext :=
  mkCachedFileContext (fd c) (f c) (buf_size c) (write_flags c) x.
Definition set_f (x : Z) (c : CachedFileContext) : CachedFileContext :=
  mkCachedFileContext (fd c) x (buf_size c) (write_flags c) (buf c).
Definition set_fd (x : Z) (c : CachedFileContext) : CachedFileContext :=
  mkCachedFileContext x (f c) (buf_size c) (write_flags c) (buf c).
Definition set_priv_data (c : CachedFileContext) (h : URLContext) : URLContext :=
  mkURLContext c (filename h).

(** The default of the option [buf_size] in [cached_file_options]. *)
Definition buf_size_default : Z := 1048576.

Section Source.
Context `{AvHeaders}.

(** [cached_file_read]: the result and the bytes stored in [buf]. *)
Definition cached_file_read (h : URLContext) (size : Z) : M (Z * list byte) :=
  let c := priv_data h in
  '(n, data) ← fread 1 (to_size_t size) (f c);
  mret (to_int n, data).

(** [cached_file_write], [data] being the bytes at [buf]. *)
Definition cached_file_write (h : URLContext) (data : list byte) (size : Z) : M Z :=
  let c := priv_data h in
  n ← fwrite data 1 (to_size_t size) (f c);
  mret (to_int n).

Definition cached_file_get_handle (h : URLContext) : Z :=
  let c := priv_data h in
  fd c.

Definition cached_file_check (h : URLContext) (mask : Z) : M Z :=
  let filename := filename h in
  let filename := (av_strstart filename "file:").2 in
  '(ret, st) ← stat filename;
  if ret <? 0 then
    e ← errno;
    mret (AVERROR e)
  else
    let ret := Z.lor ret (if negb (Z.land (st_mode st) S_IRUSR =? 0)
                          then Z.land mask AVIO_FLAG_READ else 0) in
    let ret := Z.lor ret (if negb (Z.land (st_mode st) S_IWUSR =? 0)
                          then Z.land mask AVIO_FLAG_WRITE else 0) in
    mret ret.

Definition cached_file_delete (h : URLContext) : Z :=
  AVERROR ENOSYS.

Definition cached_file_move (h_src h_dst : URLContext) : Z :=
  AVERROR ENOSYS.

Definition cached_file_seek (h : URLContext) (pos whence : Z) : M Z :=
  let c := priv_data h in
  if whence =? AVSEEK_SIZE then
    _ ← fflush (f c);
    '(ret, st) ← fstat (fd c);
    if ret <? 0 then
      e ← errno;
      mret (AVERROR e)
    else mret (st_size st)
  else
    ret ← fseeko (f c) (to_off_t pos) whence;
    if negb (ret =? 0) then
      _ ← av_log "Seek FILE Fail(%d)";
      e ← errno;
      mret (AVERROR e)
    else
      ret ← ftello (f c);
      let ret := to_int64 ret in
      if ret <? 0 then
        e ← errno;
        mret (AVERROR e)
      else mret ret.

(** The mode string and the value of [write_flags] chosen by the three-way
    test on [flags] at the head of [cached_file_open]. *)
Definition open_choice (flags : Z) : string * Z :=
  if negb (Z.land flags AVIO_FLAG_WRITE =? 0)
     && negb (Z.land flags AVIO_FLAG_READ =? 0) then ("w+b", 1)
  else if negb (Z.land flags AVIO_FLAG_WRITE =? 0) then ("wb", 1)
  else ("rb", 0).

(** [cached_file_open]: the result and the handle with its private data as
    the function leaves it. *)
Definition cached_file_open (h : URLContext) (filename : string) (flags : Z)
  : M (Z * URLContext) :=
  let c := priv_data h in
  let filename := (av_strstart filename "cf:").2 in
  let mode := (open_choice flags).1 in
  let c := set_write_flags (open_choice flags).2 c in
  fp ← fopen filename mode;
  if fp =? NULL then
    _ ← av_log "Open FILE Fail(%d)";
    e ← errno;
    mret (AVERROR e, set_priv_data c h)
  else
    c ← (if negb (buf_size c =? 0) then
           p ← av_malloc (to_size_t (buf_size c));
           _ ← setvbuf fp p IOFBF (to_size_t (buf_size c));
           mret (set_buf p c)
         else mret (set_buf NULL c));
    let c := set_f fp c in
    d ← fileno fp;
    let c := set_fd d c in
    mret (0, set_priv_data c h).

Definition cached_file_close (h : URLContext) : M Z :=
  let c := priv_data h in
  _ ← (if negb (write_flags c =? 0) then
         _ ← fflush (f c);
         _ ← fsync (fd c);
         mret tt
       else mret tt);
  r ← fclose (f c);
  if negb (r =? 0) then
    e ← errno;
    mret (AVERROR e)
  else
    _ ← av_free (buf c);
    mret 0.

(** The callbacks of [ff_cached_file_protocol], as the I/O layer invokes them
    on a handle. *)
Inductive request :=
| url_open (filename : string) (flags : Z)
| url_read (size : Z)
| url_write (data : list byte) (size : Z)
| url_seek (pos whence : Z)
| url_close
| url_get_file_handle
| url_check (mask : Z)
| url_delete
| url_move (h_dst : URLContext).

(** The result of a callback and the handle afterwards; only
    [cached_file_open] stores into the handle. *)
Definition ff_cached_file_protocol (r : request) (h : URLContext)
  : M (Z * URLContext) :=
  match r with
  | url_open filename flags => cached_file_open h filename flags
  | url_read size => '(n, _) ← cached_file_read h size; mret (n, h)
  | url_write data size => n ← cached_file_write h data size; mret (n, h)
  | url_seek pos whence => n ← cached_file_seek h pos whence; mret (n, h)
  | url_close => n ← cached_file_close h; mret (n, h)
  | url_get_file_handle => mret (cached_file_get_handle h, h)
  | url_check mask => n ← cached_file_check h mask; mret (n, h)
  | url_delete => mret (cached_file_delete h, h)
  | url_move h_dst => mret (cached_file_move h h_dst, h)
  end.

End Source.

(** ** Runs of requests *)

(** A run of requests on a handle, each served on the handle and in the
    environment the previous one left: the results, oldest first, and the
    handle at the end. *)
Fixpoint serve `{AvHeaders} (reqs : list request) (h : URLContext)
  : M (list Z * URLContext) :=
  match reqs with
  | [] => mret ([], h)
  | r :: reqs' =>
      '(n, h') ← ff_cached_file_protocol r h;
      '(ns, h'') ← serve reqs' h';
      mret (n :: ns, h'')
  end.

Definition is_open (r : request) : bool :=
  match r with url_open _ _ => true | _ => false end.
Definition is_close (r : request) : bool :=
  match r with url_close => true | _ => false end.

(** ** Relations between environments, and what Open sets up *)

(** [w'] is [w] after one more logged call [ev], under the same oracle. *)
Definition logged (ev : event) (w w' : World) : Prop :=
  w_trace w' = w_trace w ++ [ev] ∧ w_fault w' = w_fault w.

Definition same_files (w w' : World) : Prop :=
  w_fds w' = w_fds w ∧ w_fs w' = w_fs w.

Definition same_heap (w w' : World) : Prop :=
  w_heap w' = w_heap w ∧ w_badfree w' = w_badfree w.

(** The stream [fp] of [w] uses the buffer at [p] ([NULL]: one of the
    library's own) of [cap] bytes in mode [m]. *)
Definition attached (w : World) (fp p : Z) (m : bufmode) (cap : Z) : Prop :=
  ∃ st, w_streams w !! fp = Some st
        ∧ s_vbuf st = p ∧ s_bufmode st = m ∧ s_cap st = cap.

(** [cached_file_open] with [flags] passes [mode] to [fopen] and leaves
    [wf] in the [write_flags] field of the handle. *)
Definition opens_with `{AvHeaders} (h : URLContext) (filename : string)
    (flags : Z) (w : World) (mode : string) (wf : Z) : Prop :=
  (∃ rest, w_trace (cached_file_open h filename flags w).2
           = w_trace w ++ EvFopen (av_strstart filename "cf:").2 mode :: rest)
  ∧ write_flags (priv_data (cached_file_open h filename flags w).1.2) = wf.

(** ** Running the model on concrete inputs *)

(** An environment in which no library call fails. *)
Definition no_fault : nat → event → option fault := λ _ _, None.

(** The environment in which only the calls selected by [sel] fail, with
    errno [e] and no byte transferred. *)
Definition fault_on (sel : event → bool) (e : positive)
  : nat → event → option fault :=
  λ _ ev, if sel ev then Some (mkFault e 0) else None.

(** An empty file system with no open stream, and the same with one file
    [test.bin] of three bytes and the given permission bits. *)
Definition world0 (flt : nat → event → option fault) : World :=
  mkWorld ∅ ∅ ∅ ∅ [] 0 [] flt.

Definition world1 (mode : Z) (flt : nat → event → option fault) : World :=
  mkWorld {[ "test.bin" := mkInode mode [x0a; x0b; x0c] [x0a; x0b; x0c] ]}
          ∅ ∅ ∅ [] 0 [] flt.

(** A handle as the I/O layer allocates it: private data zeroed, [buf_size]
    set from the option. *)
Definition handle0 (size : Z) (name : string) : URLContext :=
  mkURLContext (mkCachedFileContext 0 0 size 0 0) name.

(** [test.bin] opened through the protocol with the given buffer size and
    flags: the result of [cached_file_open], the handle and the environment
    afterwards. *)
Definition opened (size flags : Z) (w : World) : Z * URLContext * World :=
  cached_file_open (handle0 size "cf:test.bin") "cf:test.bin" flags w.

Definition is_fsync (ev : event) : bool :=
  match ev with EvFsync _ => true | _ => false end.
Definition is_fclose (ev : event) : bool :=
  match ev with EvFclose _ => true | _ => false end.
Definition is_malloc (ev : event) : bool :=
  match ev with EvMalloc _ => true | _ => false end.
Definition is_fflush (ev : event) : bool :=
  match ev with EvFflush _ => true | _ => false end.
Definition is_fseeko (ev : event) : bool :=
  match ev with EvFseeko _ _ _ => true | _ => false end.



(** [test.bin] created through the protocol with the default buffer size,
    and three bytes written to it, under the oracle [flt]: the handle, and
    the environment after the write. *)
Definition written_handle (flt : nat → event → option fault) : URLContext :=
  (opened buf_size_default AVIO_FLAG_WRITE (world0 flt)).1.2.

Definition written_world (flt : nat → event → option fault) : World :=
  (cached_file_write (written_handle flt) [x01; x02; x03] 3
     (opened buf_size_default AVIO_FLAG_WRITE (world0 flt)).2).2.

(** The stream behind [written_handle] in [written_world]: the three bytes
    are pending in the buffer at address 1. *)
Definition written_stream : stream :=
  mkStream 0 false true 0 [x01; x02; x03] 1 IOFBF buf_size_default false false.

(** ** Statements of the specification that are compared with the source *)




(** "Close returns a negative OS error code whenever the sync call or the
    final close call fails": the sync call is the second library call of
    Close on a handle in write mode and the final close call the third. *)
Definition close_reports_failure `{AvHeaders}
    (h : URLContext) (w : World) : Prop :=
  ∀ fl,
    w_fault w (S (length (w_trace w))) (EvFsync (fd (priv_data h))) = Some fl
    ∨ w_fault w (S (S (length (w_trace w)))) (EvFclose (f (priv_data h)))
      = Some fl →
    (cached_file_close h w).1 < 0.

(** "it never returns success while buffered written data remains
    uncommitted to stable storage": when Close returns 0, what the file
    [path] holds is what stable storage holds. *)
Definition close_success_is_durable `{AvHeaders}
    (h : URLContext) (w : World) (path : string) : Prop :=
  (cached_file_close h w).1 = 0 →
  ∃ ino', w_fs (cached_file_close h w).2 !! path = Some ino'
          ∧ i_disk ino' = i_data ino'.

(** "if s > 0 an owned buffer of exactly s bytes is allocated and attached
    to the stream in fully-buffered mode, and if s = 0 no buffer is allocated
    (the handle's buffer pointer is null and transfers are unbuffered)", for
    an Open that returned 0.  Unbuffered is read as the specification
    explains it, "every transfer call reaches the OS directly": a write
    through the handle leaves no byte pending in the stream. *)
Definition open_buffer_as_claimed `{AvHeaders}
    (h : URLContext) (filename : string) (flags : Z) (w : World) : Prop :=
  (cached_file_open h filename flags w).1.1 = 0 →
  ∃ st,
    w_streams (cached_file_open h filename flags w).2
      !! f (priv_data (cached_file_open h filename flags w).1.2) = Some st
    ∧ (0 < buf_size (priv_data h) →
       w_heap (cached_file_open h filename flags w).2
         !! buf (priv_data (cached_file_open h filename flags w).1.2)
       = Some (buf_size (priv_data h))
       ∧ s_vbuf st = buf (priv_data (cached_file_open h filename flags w).1.2)
       ∧ s_bufmode st = IOFBF
       ∧ s_cap st = buf_size (priv_data h))
    ∧ (buf_size (priv_data h) = 0 →
       buf (priv_data (cached_file_open h filename flags w).1.2) = NULL
       ∧ ∀ data size st',
           w_streams
             (cached_file_write (cached_file_open h filename flags w).1.2
                data size (cached_file_open h filename flags w).2).2
             !! f (priv_data (cached_file_open h filename flags w).1.2)
           = Some st' →
           s_pending st' = []).

(** ** Open handles *)

(** The handle [h] is open on the file [path]: its [f] is a stream of the
    environment, its [fd] the descriptor of that stream, and the descriptor
    refers to [path]. *)
Definition open_on (h : URLContext) (w : World) (path : string) : Prop :=
  ∃ st ino,
    w_streams w !! f (priv_data h) = Some st
    ∧ s_fd st = fd (priv_data h)
    ∧ file_of_fd (fd (priv_data h)) w = Some (path, ino).

(** The stream [fp] and the file behind it are still there in [w']. *)
Definition keeps_stream (fp : Z) (w w' : World) : Prop :=
  ∀ st path ino,
    w_streams w !! fp = Some st →
    file_of_fd (s_fd st) w = Some (path, ino) →
    ∃ st' ino',
      w_streams w' !! fp = Some st'
      ∧ s_fd st' = s_fd st
      ∧ file_of_fd (s_fd st) w' = Some (path, ino').

(** What stable storage holds for the file [path], if there is one. *)
Definition on_disk (w : World) (path : string) : option (list byte) :=
  i_disk <$> w_fs w !! path.

(** The offset a positional seek counts from, for a stream [st] on the file
    [ino]: the start, the position of the stream, or the end of the file
    once the pending bytes are in it; none for another [whence]. *)
Definition seek_base (whence : Z) (st : stream) (ino : inode) : option Z :=
  if whence =? SEEK_SET then Some 0
  else if whence =? SEEK_CUR then Some (stream_pos st)
  else if whence =? SEEK_END then
    Some (Z.of_nat (length (write_at (i_data ino) (s_off st) (s_pending st))))
  else None.

(** What the file [ino] holds once the pending bytes of the stream [st] are
    in it: what a reader sees after a flush. *)
Definition contents (st : stream) (ino : inode) : list byte :=
  write_at (i_data ino) (s_off st) (s_pending st).



(** "first flushes all pending buffered writes, then queries file metadata
    (fstat) on the descriptor, and returns the file's current byte length
    without changing the logical stream position", for a handle whose stream
    is [st] on the file [ino], when the metadata query does not fail: the
    result is the length of the file with the pending bytes in it, and the
    position of the stream is what it was. *)
Definition size_query_as_claimed `{AvHeaders}
    (h : URLContext) (pos : Z) (w : World) (st : stream) (ino : inode)
  : Prop :=
  w_fault w (S (length (w_trace w))) (EvFstat (fd (priv_data h))) = None →
  (cached_file_seek h pos AVSEEK_SIZE w).1
  = Z.of_nat (length (contents st ino))
  ∧ ∃ st',
      w_streams (cached_file_seek h pos AVSEEK_SIZE w).2 !! f (priv_data h)
      = Some st'
      ∧ stream_pos st' = stream_pos st.

(** ** Basic facts *)

Lemma to_int_small x : - 2 ^ 31 ≤ x ≤ INT_MAX → to_int x = x.
Proof.
  unfold to_int, wrap_signed, INT_MAX. intros Hx.
  rewrite Z.mod_small; lia.
Qed.

Lemma to_size_t_small x : 0 ≤ x ≤ INT_MAX → to_size_t x = x.
Proof.
  unfold to_size_t, INT_MAX. intros Hx.
  rewrite Z.mod_small; lia.
Qed.

Ltac unfold_M :=
  unfold call, emit, fail, put_stream, errno in *;
  unfold gets, modify in *;
  unfold mbind, mret, M_bind, M_ret in *.

(** The item count of [fread] and [fwrite] for byte-sized items lies between
    0 and the number of items asked for, whatever the environment does. *)
Lemma fread_count nmemb fp w :
  0 ≤ nmemb →
  0 ≤ (fread 1 nmemb fp w).1.1 ≤ nmemb
  ∧ (fread 1 nmemb fp w).1.1 = Z.of_nat (length (fread 1 nmemb fp w).1.2).
Proof.
  intros Hn. unfold fread. unfold_M. cbn.
  destruct (w_streams w !! fp) as [st|]; cbn; [|lia].
  destruct (s_rd st); cbn; [|lia].
  rewrite Z.mul_1_l.
  destruct (w_fault w (length (w_trace w)) (EvFread fp 1 nmemb)) as [fl|]; cbn;
    rewrite Z.div_1_r, length_take; split; lia.
Qed.

Lemma fwrite_count data nmemb fp w :
  0 ≤ nmemb →
  0 ≤ (fwrite data 1 nmemb fp w).1 ≤ nmemb.
Proof.
  intros Hn. unfold fwrite. unfold_M. cbn.
  destruct (w_streams w !! fp) as [st|]; cbn; [|lia].
  destruct (s_wr st); cbn; [|lia].
  rewrite Z.mul_1_l.
  destruct (w_fault w (length (w_trace w)) (EvFwrite fp 1 nmemb)) as [fl|]; cbn.
  - rewrite Z.div_1_r, !length_take. lia.
  - destruct (_ <=? _); cbn; rewrite Z.div_1_r, length_take; lia.
Qed.

(** ** The model at work *)

(** The scenario of the specification: create [test.bin], write three bytes,
    close, open for reading, read up to 2000 bytes.  Every call succeeds and
    the read returns the three bytes. *)
Example scenario_write_close_read :
  (serve [url_open "cf:test.bin" AVIO_FLAG_WRITE; url_write [x01; x02; x03] 3;
          url_close; url_open "cf:test.bin" AVIO_FLAG_READ; url_read 2000]
     (handle0 buf_size_default "cf:test.bin") (world0 no_fault)).1.1
  = [0; 3; 0; 0; 3].
Proof. vm_compute. reflexivity. Qed.

(** A size query sees the bytes that were still in the buffer, and a read
    past the end of the file returns 0, again and again. *)
Example scenario_size_and_eof :
  (serve [url_open "cf:test.bin" AVIO_FLAG_READ_WRITE;
          url_write [x01; x02; x03] 3; url_seek 0 AVSEEK_SIZE;
          url_seek 0 SEEK_END; url_read 16; url_read 16; url_seek 0 SEEK_CUR]
     (handle0 buf_size_default "cf:test.bin") (world0 no_fault)).1.1
  = [0; 3; 3; 3; 0; 0; 3].
Proof. vm_compute. reflexivity. Qed.

(** ** Delete and rename *)

(** C8: for every handle and every state of the environment, the delete and
    the rename callbacks return the same fixed code [AVERROR(ENOSYS)], a
    negative value, whatever their arguments, and leave handle and
    environment as they were. *)
Theorem delete_move_not_implemented `{AvHeaders}
    (h h' h_dst : URLContext) (w w' : World) :
  ff_cached_file_protocol url_delete h w = (AVERROR ENOSYS, h, w)
  ∧ ff_cached_file_protocol (url_move h_dst) h' w' = (AVERROR ENOSYS, h', w')
  ∧ cached_file_delete h = cached_file_move h' h_dst
  ∧ AVERROR ENOSYS < 0.
Proof.
  repeat split. apply AVERROR_negative. reflexivity.
Qed.

(** ** Read and write *)

Lemma cached_file_read_range `{AvHeaders} h size w :
  0 ≤ size ≤ INT_MAX →
  0 ≤ (cached_file_read h size w).1.1 ≤ size
  ∧ (cached_file_read h size w).1.1
    = Z.of_nat (length (cached_file_read h size w).1.2).
Proof.
  intros Hs. unfold cached_file_read.
  rewrite to_size_t_small by done.
  destruct (fread_count size (f (priv_data h)) w) as [Hr Hl]; [lia|].
  unfold mbind, mret, M_bind, M_ret.
  destruct (fread 1 size (f (priv_data h)) w) as [[n data] w1]. cbn in *.
  unfold INT_MAX in *. rewrite to_int_small; unfold INT_MAX; lia.
Qed.

Lemma cached_file_write_range `{AvHeaders} h data size w :
  0 ≤ size ≤ INT_MAX →
  0 ≤ (cached_file_write h data size w).1 ≤ size.
Proof.
  intros Hs. unfold cached_file_write.
  rewrite to_size_t_small by done.
  pose proof (fwrite_count data size (f (priv_data h)) w) as Hr.
  unfold mbind, mret, M_bind, M_ret.
  destruct (fwrite data 1 size (f (priv_data h)) w) as [n w1]. cbn in *.
  unfold INT_MAX in *. rewrite to_int_small; unfold INT_MAX; lia.
Qed.

(** C10: for every handle, every environment and every requested size
    [0 <= size <= INT_MAX], read and write return a value between 0 and
    [size]; no negative error code is ever returned, whether or not the
    transfer met an error.  The bytes read are as many as the result says. *)
Theorem read_write_result_in_range `{AvHeaders}
    (h : URLContext) (data : list byte) (size : Z) (w : World) :
  0 ≤ size ≤ INT_MAX →
  0 ≤ (cached_file_read h size w).1.1 ≤ size
  ∧ Z.of_nat (length (cached_file_read h size w).1.2)
    = (cached_file_read h size w).1.1
  ∧ 0 ≤ (cached_file_write h data size w).1 ≤ size.
Proof.
  intros Hs.
  destruct (cached_file_read_range h size w Hs) as [Hr Hl].
  pose proof (cached_file_write_range h data size w Hs) as Hw.
  split; [exact Hr|]. split; [symmetry; exact Hl|exact Hw].
Qed.

Lemma read_write_result_in_range_witness :
  0 ≤ (cached_file_read (opened 0 AVIO_FLAG_READ (world1 420 no_fault)).1.2 2
         (opened 0 AVIO_FLAG_READ (world1 420 no_fault)).2).1.1 ≤ 2
  ∧ Z.of_nat (length (cached_file_read
                        (opened 0 AVIO_FLAG_READ (world1 420 no_fault)).1.2 2
                        (opened 0 AVIO_FLAG_READ (world1 420 no_fault)).2).1.2)
    = (cached_file_read (opened 0 AVIO_FLAG_READ (world1 420 no_fault)).1.2 2
         (opened 0 AVIO_FLAG_READ (world1 420 no_fault)).2).1.1
  ∧ 0 ≤ (cached_file_write (opened 0 AVIO_FLAG_READ (world1 420 no_fault)).1.2
           [x01; x02] 2
           (opened 0 AVIO_FLAG_READ (world1 420 no_fault)).2).1 ≤ 2.
Proof.
  apply (read_write_result_in_range
           (opened 0 AVIO_FLAG_READ (world1 420 no_fault)).1.2 [x01; x02] 2
           (opened 0 AVIO_FLAG_READ (world1 420 no_fault)).2).
  vm_compute. split; discriminate.
Defined.

(** ** Frame lemmas: every library call logs one event and keeps the oracle;
    only [av_malloc] and [av_free] touch the heap *)

Ltac frame :=
  intros; unfold logged, same_heap; unfold_M; cbn;
  repeat (case_match; simplify_eq/=); autorewrite with frame; cbn;
  repeat split; reflexivity.

Lemma commit_pending_frame st w :
  w_trace (commit_pending st w) = w_trace w
  ∧ w_fault (commit_pending st w) = w_fault w
  ∧ w_heap (commit_pending st w) = w_heap w
  ∧ w_badfree (commit_pending st w) = w_badfree w
  ∧ w_streams (commit_pending st w) = w_streams w
  ∧ w_fds (commit_pending st w) = w_fds w
  ∧ w_errno (commit_pending st w) = w_errno w.
Proof.
  unfold commit_pending. destruct (file_of_fd (s_fd st) w) as [[path ino]|];
    cbn; repeat split; reflexivity.
Qed.

Lemma commit_pending_trace st w :
  w_trace (commit_pending st w) = w_trace w.
Proof. apply commit_pending_frame. Qed.
Lemma commit_pending_fault st w :
  w_fault (commit_pending st w) = w_fault w.
Proof. apply commit_pending_frame. Qed.
Lemma commit_pending_heap st w :
  w_heap (commit_pending st w) = w_heap w.
Proof. apply commit_pending_frame. Qed.
Lemma commit_pending_badfree st w :
  w_badfree (commit_pending st w) = w_badfree w.
Proof. apply commit_pending_frame. Qed.
Lemma commit_pending_streams st w :
  w_streams (commit_pending st w) = w_streams w.
Proof. apply commit_pending_frame. Qed.
Lemma commit_pending_fds st w :
  w_fds (commit_pending st w) = w_fds w.
Proof. apply commit_pending_frame. Qed.
Lemma commit_pending_errno st w :
  w_errno (commit_pending st w) = w_errno w.
Proof. apply commit_pending_frame. Qed.

Create Rewrite HintDb frame.
#[export] Hint Rewrite commit_pending_trace commit_pending_fault
  commit_pending_heap commit_pending_badfree commit_pending_streams
  commit_pending_fds commit_pending_errno : frame.

Lemma fopen_logged path mode w :
  logged (EvFopen path mode) w (fopen path mode w).2
  ∧ same_heap w (fopen path mode w).2.
Proof. unfold fopen, install. frame. Qed.

Lemma setvbuf_logged fp vbuf m size w :
  logged (EvSetvbuf fp vbuf m size) w (setvbuf fp vbuf m size w).2
  ∧ same_heap w (setvbuf fp vbuf m size w).2.
Proof. unfold setvbuf. frame. Qed.

Lemma fileno_logged fp w :
  logged (EvFileno fp) w (fileno fp w).2 ∧ same_heap w (fileno fp w).2.
Proof. unfold fileno. frame. Qed.

Lemma av_log_logged msg w :
  logged (EvLog msg) w (av_log msg w).2 ∧ same_heap w (av_log msg w).2.
Proof. unfold av_log. frame. Qed.

Lemma av_malloc_logged size w :
  logged (EvMalloc size) w (av_malloc size w).2.
Proof. unfold av_malloc. frame. Qed.

Lemma av_free_logged p w :
  logged (EvFree p) w (av_free p w).2.
Proof. unfold av_free. frame. Qed.

Lemma stat_logged path w :
  logged (EvStat path) w (stat path w).2 ∧ same_heap w (stat path w).2.
Proof. unfold stat. frame. Qed.

Lemma fstat_logged d w :
  logged (EvFstat d) w (fstat d w).2 ∧ same_heap w (fstat d w).2.
Proof. unfold fstat. frame. Qed.

Lemma ftello_logged fp w :
  logged (EvFtello fp) w (ftello fp w).2 ∧ same_heap w (ftello fp w).2.
Proof. unfold ftello. frame. Qed.

Lemma fsync_logged d w :
  logged (EvFsync d) w (fsync d w).2 ∧ same_heap w (fsync d w).2.
Proof. unfold fsync. frame. Qed.

Lemma fread_logged size nmemb fp w :
  logged (EvFread fp size nmemb) w (fread size nmemb fp w).2
  ∧ same_heap w (fread size nmemb fp w).2.
Proof. unfold fread. frame. Qed.

Lemma fwrite_logged data size nmemb fp w :
  logged (EvFwrite fp size nmemb) w (fwrite data size nmemb fp w).2
  ∧ same_heap w (fwrite data size nmemb fp w).2.
Proof. unfold fwrite. frame. Qed.

Lemma fflush_logged fp w :
  logged (EvFflush fp) w (fflush fp w).2 ∧ same_heap w (fflush fp w).2.
Proof. unfold fflush. frame. Qed.

Lemma fclose_logged fp w :
  logged (EvFclose fp) w (fclose fp w).2 ∧ same_heap w (fclose fp w).2.
Proof. unfold fclose. frame. Qed.

Lemma fseeko_logged fp off whence w :
  logged (EvFseeko fp off whence) w (fseeko fp off whence w).2
  ∧ same_heap w (fseeko fp off whence w).2.
Proof. unfold fseeko. frame. Qed.

(** ** Open *)

Section Open.
Context `{AvHeaders}.

Lemma open_choice_read : open_choice AVIO_FLAG_READ = ("rb", 0).
Proof.
  unfold open_choice. rewrite AVIO_FLAG_disjoint. reflexivity.
Qed.

Lemma open_choice_write : open_choice AVIO_FLAG_WRITE = ("wb", 1).
Proof.
  unfold open_choice.
  rewrite Z.land_diag, Z.land_comm, AVIO_FLAG_disjoint.
  destruct (Z.eqb_spec AVIO_FLAG_WRITE 0) as [E|_]; [|reflexivity].
  destruct (AVIO_FLAG_WRITE_nonzero E).
Qed.

Lemma open_choice_read_write : open_choice AVIO_FLAG_READ_WRITE = ("w+b", 1).
Proof.
  unfold open_choice, AVIO_FLAG_READ_WRITE.
  replace (Z.land (Z.lor AVIO_FLAG_READ AVIO_FLAG_WRITE) AVIO_FLAG_WRITE)
    with AVIO_FLAG_WRITE.
  2: { rewrite Z.land_lor_distr_l, AVIO_FLAG_disjoint, Z.land_diag.
       reflexivity. }
  replace (Z.land (Z.lor AVIO_FLAG_READ AVIO_FLAG_WRITE) AVIO_FLAG_READ)
    with AVIO_FLAG_READ.
  2: { rewrite Z.land_lor_distr_l, Z.land_diag, (Z.land_comm AVIO_FLAG_WRITE),
         AVIO_FLAG_disjoint, Z.lor_0_r. reflexivity. }
  destruct (Z.eqb_spec AVIO_FLAG_WRITE 0) as [E|_];
    [destruct (AVIO_FLAG_WRITE_nonzero E)|].
  destruct (Z.eqb_spec AVIO_FLAG_READ 0) as [E|_];
    [destruct (AVIO_FLAG_READ_nonzero E)|].
  reflexivity.
Qed.

Lemma open_choice_neither flags :
  Z.land flags AVIO_FLAG_READ = 0 →
  Z.land flags AVIO_FLAG_WRITE = 0 →
  open_choice flags = ("rb", 0).
Proof.
  intros Hr Hw. unfold open_choice. rewrite Hw. reflexivity.
Qed.

(** [cached_file_open] depends on [flags] through [open_choice] only. *)
Lemma cached_file_open_choice h filename flags flags' w :
  open_choice flags = open_choice flags' →
  cached_file_open h filename flags w = cached_file_open h filename flags' w.
Proof.
  intros E. unfold cached_file_open. rewrite E. reflexivity.
Qed.

(** The address of a new stream is not [NULL], so [fopen] returns [NULL]
    only when it fails, and then errno holds the error. *)
Lemma fresh_not_NULL (X : gset Z) : fresh ({[NULL]} ∪ X) ≠ NULL.
Proof.
  intros E. pose proof (is_fresh ({[NULL]} ∪ X)) as Hf.
  rewrite E in Hf. set_solver.
Qed.

Lemma fopen_NULL_errno path mode w :
  (fopen path mode w).1 = NULL → 0 < w_errno (fopen path mode w).2.
Proof.
  unfold fopen, install. unfold_M. cbn.
  repeat (case_match; simplify_eq/=); try lia;
    intros E; destruct (fresh_not_NULL _ E).
Qed.

Lemma fopen_succeeds path mode rd wr trunc ino w :
  w_fault w (length (w_trace w)) (EvFopen path mode) = None →
  open_mode mode = Some (rd, wr, trunc) →
  w_fs w !! path = Some ino →
  permitted rd wr (i_mode ino) = true →
  (fopen path mode w).1 ≠ NULL.
Proof.
  intros Hf Hm Hp Hperm. unfold fopen, install. unfold_M. cbn.
  rewrite Hf, Hm. cbn. rewrite Hp, Hperm. cbn. apply fresh_not_NULL.
Qed.

(** What [cached_file_open] does in every case: the first call is [fopen]
    with the stripped name and the chosen mode; [write_flags] holds the chosen
    value; the result is 0 exactly when [fopen] returned a stream. *)
Lemma cached_file_open_spec h filename flags w :
  (∃ rest, w_trace (cached_file_open h filename flags w).2
           = w_trace w
             ++ EvFopen (av_strstart filename "cf:").2 (open_choice flags).1
                :: rest)
  ∧ write_flags (priv_data (cached_file_open h filename flags w).1.2)
    = (open_choice flags).2
  ∧ ((cached_file_open h filename flags w).1.1 = 0
     ↔ (fopen (av_strstart filename "cf:").2 (open_choice flags).1 w).1 ≠ NULL).
Proof.
  unfold cached_file_open. unfold mbind, mret, M_bind, M_ret.
  set (path := (av_strstart filename "cf:").2).
  set (mode := (open_choice flags).1).
  destruct (fopen_logged path mode w) as [[Ht _] _].
  pose proof (fopen_NULL_errno path mode w) as Herr.
  destruct (fopen path mode w) as [fp w1]. cbn in Ht, Herr |- *.
  destruct (Z.eqb_spec fp NULL) as [E|E].
  - unfold av_log, errno, emit, gets, modify. cbn. split; [|split].
    + exists [EvLog "Open FILE Fail(%d)"]. rewrite Ht, <- app_assoc.
      reflexivity.
    + reflexivity.
    + split; [|done]. intros E0. specialize (Herr E).
      pose proof (AVERROR_negative (w_errno w1) Herr) as Hn. lia.
  - destruct (buf_size (priv_data h) =? 0); cbn.
    + destruct (fileno_logged fp w1) as [[Ht2 _] _].
      destruct (fileno fp w1) as [d w2]. cbn in *. split; [|split].
      * exists [EvFileno fp]. rewrite Ht2, Ht, <- app_assoc. reflexivity.
      * reflexivity.
      * done.
    + set (n := to_size_t (buf_size (priv_data h))).
      destruct (av_malloc_logged n w1) as [Ht2 _].
      destruct (av_malloc n w1) as [p w2]. cbn in Ht2 |- *.
      destruct (setvbuf_logged fp p IOFBF n w2) as [[Ht3 _] _].
      destruct (setvbuf fp p IOFBF n w2) as [r w3]. cbn in Ht3 |- *.
      destruct (fileno_logged fp w3) as [[Ht4 _] _].
      destruct (fileno fp w3) as [d w4]. cbn in *. split; [|split].
      * exists [EvMalloc n; EvSetvbuf fp p IOFBF n; EvFileno fp].
        rewrite Ht4, Ht3, Ht2, Ht, <- !app_assoc. reflexivity.
      * reflexivity.
      * done.
Qed.

End Open.

(** C9: when [flags] holds neither the read nor the write flag,
    [cached_file_open] passes "rb" to [fopen] and leaves 0 in [write_flags];
    it behaves as it does for [AVIO_FLAG_READ], and does not fail on account
    of the flags: the result is 0 exactly when [fopen] returns a stream,
    which it does for an existing file the owner may read unless the call
    itself fails. *)
Theorem open_without_access_flags `{AvHeaders}
    (h : URLContext) (filename : string) (flags : Z) (w : World) :
  Z.land flags AVIO_FLAG_READ = 0 →
  Z.land flags AVIO_FLAG_WRITE = 0 →
  opens_with h filename flags w "rb" 0
  ∧ cached_file_open h filename flags w
    = cached_file_open h filename AVIO_FLAG_READ w
  ∧ ((cached_file_open h filename flags w).1.1 = 0
     ↔ (fopen (av_strstart filename "cf:").2 "rb" w).1 ≠ NULL)
  ∧ ∀ ino,
      w_fault w (length (w_trace w))
        (EvFopen (av_strstart filename "cf:").2 "rb") = None →
      w_fs w !! (av_strstart filename "cf:").2 = Some ino →
      permitted true false (i_mode ino) = true →
      (cached_file_open h filename flags w).1.1 = 0.
Proof.
  intros Hr Hw.
  pose proof (open_choice_neither flags Hr Hw) as Hc.
  destruct (cached_file_open_spec h filename flags w) as (Ht & Hwf & Hret).
  rewrite Hc in Ht, Hwf, Hret. cbn in Ht, Hwf, Hret.
  split; [split; assumption|]. split; [|split].
  - apply cached_file_open_choice. rewrite Hc, open_choice_read. reflexivity.
  - exact Hret.
  - intros ino Hf Hp Hperm. apply Hret.
    by apply (fopen_succeeds _ "rb" true false false ino).
Qed.

Lemma open_without_access_flags_witness :
  opens_with (handle0 0 "cf:test.bin") "cf:test.bin" 8 (world1 420 no_fault)
    "rb" 0
  ∧ (cached_file_open (handle0 0 "cf:test.bin") "cf:test.bin" 8
       (world1 420 no_fault)).1.1 = 0.
Proof.
  destruct (open_without_access_flags (H := ffmpeg_headers)
              (handle0 0 "cf:test.bin") "cf:test.bin"
              8 (world1 420 no_fault) eq_refl eq_refl)
    as (Ho & _ & _ & Hok).
  split; [exact Ho|].
  apply (Hok (mkInode 420 [x0a; x0b; x0c] [x0a; x0b; x0c])); reflexivity.
Defined.

(** A request other than open leaves the handle as it is. *)
Lemma later_request_keeps_handle `{AvHeaders} r h w :
  is_open r = false → (ff_cached_file_protocol r h w).1.2 = h.
Proof.
  destruct r as [fn fl|size|data size|pos whence| | |msk| |hd]; cbn;
    try discriminate; intros _;
    unfold mbind, mret, M_bind, M_ret; try reflexivity.
  - destruct (cached_file_read h size w) as [[n data] w1]. reflexivity.
  - destruct (cached_file_write h data size w) as [n w1]. reflexivity.
  - destruct (cached_file_seek h pos whence w) as [n w1]. reflexivity.
  - destruct (cached_file_close h w) as [n w1]. reflexivity.
  - destruct (cached_file_check h msk w) as [n w1]. reflexivity.
Qed.

Lemma serve_keeps_handle `{AvHeaders} reqs : ∀ h w,
  Forall (λ r, is_open r = false) reqs → (serve reqs h w).1.2 = h.
Proof.
  induction reqs as [|r reqs IH]; intros h w Hall; [reflexivity|].
  inversion Hall as [|? ? Hr Hrest]; subst. cbn.
  unfold mbind, mret, M_bind, M_ret.
  pose proof (later_request_keeps_handle r h w Hr) as Hk.
  destruct (ff_cached_file_protocol r h w) as [[n h1] w1]. cbn in Hk. subst h1.
  specialize (IH h w1 Hrest).
  destruct (serve reqs h w1) as [[ns h2] w2]. exact IH.
Qed.

(** C6: [cached_file_open] passes "rb" to [fopen] for [AVIO_FLAG_READ], "wb"
    for [AVIO_FLAG_WRITE] and "w+b" for [AVIO_FLAG_READ_WRITE], and leaves in
    [write_flags] 0 for the first and 1 for the other two; no run of later
    requests on the handle (read, write, seek, close, get-handle, check,
    delete, move) changes [write_flags]. *)
Theorem open_mode_and_write_flag `{AvHeaders}
    (h : URLContext) (filename : string) (w : World)
    (reqs : list request) (h1 : URLContext) (w1 : World) :
  Forall (λ r, is_open r = false) reqs →
  opens_with h filename AVIO_FLAG_READ w "rb" 0
  ∧ opens_with h filename AVIO_FLAG_WRITE w "wb" 1
  ∧ opens_with h filename AVIO_FLAG_READ_WRITE w "w+b" 1
  ∧ write_flags (priv_data (serve reqs h1 w1).1.2)
    = write_flags (priv_data h1).
Proof.
  intros Hall.
  destruct (cached_file_open_spec h filename AVIO_FLAG_READ w) as (T1 & F1 & _).
  destruct (cached_file_open_spec h filename AVIO_FLAG_WRITE w) as (T2 & F2 & _).
  destruct (cached_file_open_spec h filename AVIO_FLAG_READ_WRITE w)
    as (T3 & F3 & _).
  rewrite open_choice_read in T1, F1.
  rewrite open_choice_write in T2, F2.
  rewrite open_choice_read_write in T3, F3.
  repeat split; try assumption.
  rewrite serve_keeps_handle by assumption. reflexivity.
Qed.

Lemma open_mode_and_write_flag_witness :
  write_flags
    (priv_data
       (serve [url_write [x01; x02] 2; url_seek 0 AVSEEK_SIZE; url_read 2;
               url_check 3; url_close]
          (opened 0 AVIO_FLAG_READ_WRITE (world0 no_fault)).1.2
          (opened 0 AVIO_FLAG_READ_WRITE (world0 no_fault)).2).1.2) = 1.
Proof.
  destruct (open_mode_and_write_flag (handle0 0 "cf:test.bin") "cf:test.bin"
              (world0 no_fault)
              [url_write [x01; x02] 2; url_seek 0 AVSEEK_SIZE; url_read 2;
               url_check 3; url_close]
              (opened 0 AVIO_FLAG_READ_WRITE (world0 no_fault)).1.2
              (opened 0 AVIO_FLAG_READ_WRITE (world0 no_fault)).2)
    as (_ & _ & [_ Hrw] & Hkeep).
  - repeat constructor.
  - rewrite Hkeep. exact Hrw.
Defined.

(** ** Seek in size-query mode *)

Lemma commit_pending_file st w path ino :
  file_of_fd (s_fd st) w = Some (path, ino) →
  file_of_fd (s_fd st) (commit_pending st w)
  = Some (path, mkInode (i_mode ino)
                  (write_at (i_data ino) (s_off st) (s_pending st))
                  (i_disk ino)).
Proof.
  intros Hf. unfold commit_pending. rewrite Hf.
  unfold file_of_fd in *. cbn.
  destruct (w_fds w !! s_fd st) as [p|]; [|discriminate].
  destruct (w_fs w !! p) as [i|] eqn:Hp; [|discriminate].
  injection Hf as -> ->. by rewrite lookup_insert_eq.
Qed.

Lemma stream_pos_flushed st : stream_pos (flushed st) = stream_pos st.
Proof. unfold stream_pos, flushed. cbn. f_equal. lia. Qed.

(** What [fflush], [fstat], [fsync] and [fclose] do, field by field. *)

Lemma file_of_fd_ext d w w' :
  w_fds w' = w_fds w → w_fs w' = w_fs w → file_of_fd d w' = file_of_fd d w.
Proof. intros E1 E2. unfold file_of_fd. by rewrite E1, E2. Qed.

Lemma fflush_spec fp w st :
  w_streams w !! fp = Some st →
  logged (EvFflush fp) w (fflush fp w).2
  ∧ same_heap w (fflush fp w).2
  ∧ w_fds (fflush fp w).2 = w_fds w
  ∧ match w_fault w (length (w_trace w)) (EvFflush fp) with
    | Some fl =>
        (fflush fp w).1 = EOF
        ∧ w_streams (fflush fp w).2
          = <[fp := set_err (flushed (cut_pending (fl_done fl) st))]>
              (w_streams w)
        ∧ w_fs (fflush fp w).2
          = w_fs (commit_pending (cut_pending (fl_done fl) st) w)
        ∧ w_errno (fflush fp w).2 = Z.pos (fl_errno fl)
    | None =>
        (fflush fp w).1 = 0
        ∧ w_streams (fflush fp w).2 = <[fp := flushed st]> (w_streams w)
        ∧ w_fs (fflush fp w).2 = w_fs (commit_pending st w)
        ∧ w_errno (fflush fp w).2 = w_errno w
    end.
Proof.
  intros Hst. unfold fflush, logged, same_heap. unfold_M. cbn. rewrite Hst.
  destruct (w_fault w (length (w_trace w)) (EvFflush fp)) as [fl|]; cbn;
    autorewrite with frame; cbn; repeat split; try reflexivity;
    unfold commit_pending; cbn [cut_pending set_pending s_fd];
    change (file_of_fd (s_fd st) (with_trace (w_trace w ++ [EvFflush fp]) w))
      with (file_of_fd (s_fd st) w);
    destruct (file_of_fd (s_fd st) w) as [[p i]|]; reflexivity.
Qed.

(** The file behind a stream after [fflush], whether or not it failed. *)
Lemma fflush_file fp w st path ino :
  w_streams w !! fp = Some st →
  file_of_fd (s_fd st) w = Some (path, ino) →
  ∃ st1 ino1,
    w_streams (fflush fp w).2 !! fp = Some st1
    ∧ s_fd st1 = s_fd st
    ∧ s_pending st1 = []
    ∧ file_of_fd (s_fd st) (fflush fp w).2 = Some (path, ino1)
    ∧ match w_fault w (length (w_trace w)) (EvFflush fp) with
      | Some fl =>
          st1 = set_err (flushed (cut_pending (fl_done fl) st))
          ∧ i_data ino1
            = write_at (i_data ino) (s_off st)
                (take (fl_done fl) (s_pending st))
      | None =>
          st1 = flushed st
          ∧ i_data ino1 = write_at (i_data ino) (s_off st) (s_pending st)
      end.
Proof.
  intros Hst Hfile.
  destruct (fflush_spec fp w st Hst) as (_ & _ & Hfds & Hcase).
  destruct (w_fault w (length (w_trace w)) (EvFflush fp)) as [fl|];
    destruct Hcase as (_ & Hs & Hfs & _); rewrite Hs, lookup_insert_eq.
  - eexists _, _. split; [reflexivity|]. split; [reflexivity|].
    split; [reflexivity|]. split.
    + rewrite (file_of_fd_ext _ (commit_pending (cut_pending (fl_done fl) st) w))
        by (rewrite ?commit_pending_fds; assumption).
      apply (commit_pending_file (cut_pending (fl_done fl) st)). exact Hfile.
    + split; reflexivity.
  - eexists _, _. split; [reflexivity|]. split; [reflexivity|].
    split; [reflexivity|]. split.
    + rewrite (file_of_fd_ext _ (commit_pending st w))
        by (rewrite ?commit_pending_fds; assumption).
      apply commit_pending_file. exact Hfile.
    + split; reflexivity.
Qed.

Lemma fstat_spec d w :
  logged (EvFstat d) w (fstat d w).2
  ∧ same_heap w (fstat d w).2
  ∧ w_fds (fstat d w).2 = w_fds w
  ∧ w_fs (fstat d w).2 = w_fs w
  ∧ w_streams (fstat d w).2 = w_streams w
  ∧ match w_fault w (length (w_trace w)) (EvFstat d), file_of_fd d w with
    | Some fl, _ =>
        (fstat d w).1.1 = -1 ∧ w_errno (fstat d w).2 = Z.pos (fl_errno fl)
    | None, None =>
        (fstat d w).1.1 = -1 ∧ w_errno (fstat d w).2 = Z.pos EBADF
    | None, Some (_, ino) =>
        (fstat d w).1 = (0, stat_of ino) ∧ w_errno (fstat d w).2 = w_errno w
    end.
Proof.
  unfold fstat, logged, same_heap. unfold_M. cbn.
  change (file_of_fd d (with_trace (w_trace w ++ [EvFstat d]) w))
    with (file_of_fd d w).
  destruct (w_fault w (length (w_trace w)) (EvFstat d)) as [fl|]; cbn.
  - repeat split; reflexivity.
  - destruct (file_of_fd d w) as [[p i]|]; cbn; repeat split; reflexivity.
Qed.

(** C4, as stated, fails: with three written bytes pending and [fflush]
    failing with [EIO], the three bytes are discarded; the size query returns
    0, the length of the file without them, and the position of the stream
    goes from 3 back to 0. *)
Lemma size_query_loses_pending :
  (cached_file_seek (written_handle (fault_on is_fflush EIO)) 0 AVSEEK_SIZE
     (written_world (fault_on is_fflush EIO))).1 = 0
  ∧ stream_pos
      <$> w_streams
            (cached_file_seek (written_handle (fault_on is_fflush EIO)) 0
               AVSEEK_SIZE (written_world (fault_on is_fflush EIO))).2 !! 1
    = Some 0
  ∧ ¬ size_query_as_claimed (written_handle (fault_on is_fflush EIO)) 0
        (written_world (fault_on is_fflush EIO)) written_stream
        (mkInode 420 [] []).
Proof.
  split; [vm_compute; reflexivity|]. split; [vm_compute; reflexivity|].
  intros Hc. destruct (Hc eq_refl) as [Hr _].
  vm_compute in Hr. discriminate Hr.
Qed.

(** C4, amended: on an open handle, a seek with [whence = AVSEEK_SIZE] calls
    [fflush] on the stream and then [fstat] on the descriptor, and nothing
    else; the result of [fflush] is not looked at.  The result is the length
    of the file as it then is, or [AVERROR(errno)], a negative value, when
    [fstat] fails.  When [fflush] succeeds no written byte is left pending,
    the file holds them all and the position of the stream is what it was;
    when [fflush] fails the file holds only the pending bytes that got
    through before the failure. *)
Theorem seek_size_query `{AvHeaders}
    (h : URLContext) (pos : Z) (w : World)
    (st : stream) (path : string) (ino : inode) :
  w_streams w !! f (priv_data h) = Some st →
  s_fd st = fd (priv_data h) →
  file_of_fd (fd (priv_data h)) w = Some (path, ino) →
  w_trace (cached_file_seek h pos AVSEEK_SIZE w).2
  = w_trace w ++ [EvFflush (f (priv_data h)); EvFstat (fd (priv_data h))]
  ∧ (∃ st',
       w_streams (cached_file_seek h pos AVSEEK_SIZE w).2 !! f (priv_data h)
       = Some st'
       ∧ (w_fault w (length (w_trace w)) (EvFflush (f (priv_data h))) = None →
          stream_pos st' = stream_pos st ∧ s_pending st' = []))
  ∧ (∃ ino',
       file_of_fd (fd (priv_data h)) (cached_file_seek h pos AVSEEK_SIZE w).2
       = Some (path, ino')
       ∧ i_data ino'
         = write_at (i_data ino) (s_off st)
             match w_fault w (length (w_trace w))
                     (EvFflush (f (priv_data h))) with
             | Some fl => take (fl_done fl) (s_pending st)
             | None => s_pending st
             end
       ∧ match w_fault w (S (length (w_trace w)))
                 (EvFstat (fd (priv_data h))) with
         | Some fl =>
             (cached_file_seek h pos AVSEEK_SIZE w).1
             = AVERROR (Z.pos (fl_errno fl))
             ∧ (cached_file_seek h pos AVSEEK_SIZE w).1 < 0
         | None =>
             (cached_file_seek h pos AVSEEK_SIZE w).1
             = Z.of_nat (length (i_data ino'))
         end).
Proof.
  intros Hst Hfd Hfile.
  unfold cached_file_seek. rewrite Z.eqb_refl.
  unfold errno, gets, mbind, mret, M_bind, M_ret.
  pose proof (fflush_spec (f (priv_data h)) w st Hst)
    as ([Ht1 Hf1] & _ & Hfds1 & _).
  assert (file_of_fd (s_fd st) w = Some (path, ino)) as Hfile0
    by (rewrite Hfd; exact Hfile).
  pose proof (fflush_file (f (priv_data h)) w st path ino Hst Hfile0)
    as (st1 & ino1 & Hst1 & _ & _ & Hfile1 & Hcase1).
  rewrite Hfd in Hfile1.
  destruct (fflush (f (priv_data h)) w) as [r1 w1].
  cbn in Ht1, Hf1, Hfds1, Hst1, Hfile1.
  pose proof (fstat_spec (fd (priv_data h)) w1)
    as ([Ht2 Hf2] & _ & Hfds2 & Hfs2 & Hs2 & Hcase2).
  rewrite Hf1, Ht1, length_app, Nat.add_1_r in Hcase2.
  destruct (fstat (fd (priv_data h)) w1) as [[r2 s2] w2].
  cbn in Ht2, Hf2, Hfds2, Hfs2, Hs2, Hcase2.
  rewrite Hfile1 in Hcase2.
  assert (file_of_fd (fd (priv_data h)) w2 = Some (path, ino1)) as Hfile2
    by (rewrite (file_of_fd_ext _ w1 w2) by assumption; exact Hfile1).
  split; [|split].
  - destruct (r2 <? 0); cbn; rewrite Ht2, Ht1, <- app_assoc; reflexivity.
  - assert (∃ st', w_streams w2 !! f (priv_data h) = Some st'
                   ∧ (w_fault w (length (w_trace w))
                        (EvFflush (f (priv_data h))) = None →
                      stream_pos st' = stream_pos st ∧ s_pending st' = []))
      as Hstream.
    { exists st1. rewrite Hs2. split; [exact Hst1|]. intros Hnone.
      rewrite Hnone in Hcase1. destruct Hcase1 as [-> _].
      split; [apply stream_pos_flushed|reflexivity]. }
    destruct (r2 <? 0); exact Hstream.
  - exists ino1.
    assert (i_data ino1
            = write_at (i_data ino) (s_off st)
                match w_fault w (length (w_trace w))
                        (EvFflush (f (priv_data h))) with
                | Some fl => take (fl_done fl) (s_pending st)
                | None => s_pending st
                end) as Hdata
      by (destruct (w_fault w (length (w_trace w))
                      (EvFflush (f (priv_data h)))); apply Hcase1).
    destruct (w_fault w (S (length (w_trace w))) (EvFstat (fd (priv_data h))))
      as [fl2|].
    + destruct Hcase2 as [-> He]. cbn. rewrite He.
      repeat split; try assumption. apply AVERROR_negative. lia.
    + destruct Hcase2 as [E He]. injection E as -> ->. cbn.
      repeat split; assumption.
Qed.

Lemma seek_size_query_witness :
  w_trace (cached_file_seek (written_handle no_fault) 0 AVSEEK_SIZE
             (written_world no_fault)).2
  = w_trace (written_world no_fault) ++ [EvFflush 1; EvFstat 0]
  ∧ (cached_file_seek (written_handle no_fault) 0 AVSEEK_SIZE
       (written_world no_fault)).1 = 3.
Proof.
  destruct (seek_size_query (written_handle no_fault) 0
              (written_world no_fault) written_stream "test.bin"
              (mkInode 420 [] []))
    as (Ht & _ & ino' & _ & Hd & Hr).
  - vm_compute. reflexivity.
  - reflexivity.
  - vm_compute. reflexivity.
  - split; [exact Ht|].
    assert ((cached_file_seek (written_handle no_fault) 0 AVSEEK_SIZE
               (written_world no_fault)).1 = Z.of_nat (length (i_data ino')))
      as Hr' by exact Hr.
    rewrite Hr'.
    assert (i_data ino' = write_at [] 0 [x01; x02; x03]) as -> by exact Hd.
    reflexivity.
Defined.

(** ** Close *)

Lemma fsync_spec d w :
  logged (EvFsync d) w (fsync d w).2
  ∧ same_heap w (fsync d w).2
  ∧ w_fds (fsync d w).2 = w_fds w
  ∧ w_streams (fsync d w).2 = w_streams w
  ∧ match w_fault w (length (w_trace w)) (EvFsync d), file_of_fd d w with
    | Some fl, _ =>
        (fsync d w).1 = -1 ∧ w_fs (fsync d w).2 = w_fs w
        ∧ w_errno (fsync d w).2 = Z.pos (fl_errno fl)
    | None, None =>
        (fsync d w).1 = -1 ∧ w_fs (fsync d w).2 = w_fs w
        ∧ w_errno (fsync d w).2 = Z.pos EBADF
    | None, Some (p, ino) =>
        (fsync d w).1 = 0
        ∧ w_fs (fsync d w).2
          = <[p := mkInode (i_mode ino) (i_data ino) (i_data ino)]> (w_fs w)
        ∧ w_errno (fsync d w).2 = w_errno w
    end.
Proof.
  unfold fsync, logged, same_heap. unfold_M. cbn.
  change (file_of_fd d (with_trace (w_trace w ++ [EvFsync d]) w))
    with (file_of_fd d w).
  destruct (w_fault w (length (w_trace w)) (EvFsync d)) as [fl|]; cbn.
  - repeat split; reflexivity.
  - destruct (file_of_fd d w) as [[p i]|]; cbn; repeat split; reflexivity.
Qed.

Lemma fclose_spec fp w st :
  w_streams w !! fp = Some st →
  logged (EvFclose fp) w (fclose fp w).2
  ∧ same_heap w (fclose fp w).2
  ∧ w_fds (fclose fp w).2 = delete (s_fd st) (w_fds w)
  ∧ w_streams (fclose fp w).2 = delete fp (w_streams w)
  ∧ match w_fault w (length (w_trace w)) (EvFclose fp) with
    | Some fl =>
        (fclose fp w).1 = EOF ∧ w_fs (fclose fp w).2 = w_fs w
        ∧ w_errno (fclose fp w).2 = Z.pos (fl_errno fl)
    | None =>
        (fclose fp w).1 = 0
        ∧ w_fs (fclose fp w).2 = w_fs (commit_pending st w)
        ∧ w_errno (fclose fp w).2 = w_errno w
    end.
Proof.
  intros Hst. unfold fclose, logged, same_heap. unfold_M. cbn. rewrite Hst.
  destruct (w_fault w (length (w_trace w)) (EvFclose fp)) as [fl|]; cbn.
  - repeat split; reflexivity.
  - autorewrite with frame. cbn. repeat split; try reflexivity.
    unfold commit_pending.
    change (file_of_fd (s_fd st) (with_trace (w_trace w ++ [EvFclose fp]) w))
      with (file_of_fd (s_fd st) w).
    destruct (file_of_fd (s_fd st) w) as [[p i]|]; reflexivity.
Qed.

Lemma av_free_spec p w :
  logged (EvFree p) w (av_free p w).2
  ∧ w_fs (av_free p w).2 = w_fs w
  ∧ w_errno (av_free p w).2 = w_errno w
  ∧ (if p =? NULL then same_heap w (av_free p w).2
     else match w_heap w !! p with
          | Some _ => w_heap (av_free p w).2 = delete p (w_heap w)
                      ∧ w_badfree (av_free p w).2 = w_badfree w
          | None => w_heap (av_free p w).2 = w_heap w
                    ∧ w_badfree (av_free p w).2 = w_badfree w ++ [p]
          end).
Proof.
  unfold av_free, logged, same_heap. unfold_M. cbn.
  destruct (p =? NULL); cbn; [repeat split; reflexivity|].
  destruct (w_heap w !! p); cbn; repeat split; reflexivity.
Qed.

Lemma commit_pending_fs st w path ino :
  file_of_fd (s_fd st) w = Some (path, ino) →
  w_fs (commit_pending st w)
  = <[path := mkInode (i_mode ino)
                (write_at (i_data ino) (s_off st) (s_pending st))
                (i_disk ino)]> (w_fs w).
Proof. intros Hf. unfold commit_pending. rewrite Hf. reflexivity. Qed.

Lemma file_of_fd_insert d w w' path ino ino' :
  file_of_fd d w = Some (path, ino) →
  w_fds w' = w_fds w →
  w_fs w' = <[path := ino']> (w_fs w) →
  file_of_fd d w' = Some (path, ino').
Proof.
  unfold file_of_fd. intros Hf -> ->.
  destruct (w_fds w !! d) as [p|]; [|discriminate].
  destruct (w_fs w !! p) as [i|]; [|discriminate].
  injection Hf as -> ->. by rewrite lookup_insert_eq.
Qed.

(** C2, amended: on an open handle in write mode, Close calls [fflush] on
    the stream, then [fsync] on the descriptor, then [fclose]; it returns
    [AVERROR(errno)], a negative value, exactly when [fclose] fails and 0
    otherwise, whatever [fflush] and [fsync] returned; when none of the three
    calls fails, the pending bytes are in the file and the file is on stable
    storage when Close returns. *)
Theorem close_write_mode `{AvHeaders}
    (h : URLContext) (w : World) (st : stream) (path : string) (ino : inode) :
  write_flags (priv_data h) ≠ 0 →
  w_streams w !! f (priv_data h) = Some st →
  s_fd st = fd (priv_data h) →
  file_of_fd (fd (priv_data h)) w = Some (path, ino) →
  (∃ rest,
     w_trace (cached_file_close h w).2
     = w_trace w ++ [EvFflush (f (priv_data h)); EvFsync (fd (priv_data h));
                     EvFclose (f (priv_data h))] ++ rest)
  ∧ match w_fault w (S (S (length (w_trace w))))
            (EvFclose (f (priv_data h))) with
    | Some fl =>
        (cached_file_close h w).1 = AVERROR (Z.pos (fl_errno fl))
        ∧ (cached_file_close h w).1 < 0
    | None => (cached_file_close h w).1 = 0
    end
  ∧ (w_fault w (length (w_trace w)) (EvFflush (f (priv_data h))) = None →
     w_fault w (S (length (w_trace w))) (EvFsync (fd (priv_data h))) = None →
     w_fault w (S (S (length (w_trace w)))) (EvFclose (f (priv_data h)))
     = None →
     ∃ ino',
       w_fs (cached_file_close h w).2 !! path = Some ino'
       ∧ i_data ino' = write_at (i_data ino) (s_off st) (s_pending st)
       ∧ i_disk ino' = i_data ino').
Proof.
  intros Hwf Hst Hfd Hfile.
  unfold cached_file_close.
  destruct (Z.eqb_spec (write_flags (priv_data h)) 0) as [E|_]; [done|]. cbn.
  unfold errno, gets, mbind, mret, M_bind, M_ret.
  set (fp := f (priv_data h)) in *. set (d := fd (priv_data h)) in *.
  (* fflush *)
  pose proof (fflush_spec fp w st Hst) as ([Ht1 Hf1] & _ & Hfds1 & Hcase1).
  destruct (fflush fp w) as [r1 w1]. cbn in Ht1, Hf1, Hfds1, Hcase1.
  assert (∃ st1, w_streams w1 !! fp = Some st1 ∧ s_fd st1 = s_fd st
                 ∧ (w_fault w (length (w_trace w)) (EvFflush fp) = None →
                    st1 = flushed st
                    ∧ w_fs w1 = w_fs (commit_pending st w)))
    as (st1 & Hst1 & Hfd1 & Hok1).
  { destruct (w_fault w (length (w_trace w)) (EvFflush fp)) as [fl1|];
      destruct Hcase1 as (_ & Hs & Hfs & _); rewrite Hs, lookup_insert_eq;
      eexists; split; try reflexivity; split; try reflexivity.
    - discriminate.
    - intros _. split; [reflexivity|exact Hfs]. }
  (* fsync *)
  pose proof (fsync_spec d w1) as ([Ht2 Hf2] & _ & Hfds2 & Hs2 & Hcase2).
  rewrite Hf1, Ht1, length_app, Nat.add_1_r in Hcase2.
  destruct (fsync d w1) as [r2 w2]. cbn in Ht2, Hf2, Hfds2, Hs2, Hcase2.
  (* fclose *)
  rewrite <- Hs2 in Hst1.
  pose proof (fclose_spec fp w2 st1 Hst1) as ([Ht3 Hf3] & _ & _ & _ & Hcase3).
  rewrite Hf2, Hf1, Ht2, Ht1, !length_app, !Nat.add_1_r in Hcase3.
  cbn in Hcase3.
  destruct (fclose fp w2) as [r3 w3]. cbn in Ht3, Hf3, Hcase3.
  assert (w_trace w3 = w_trace w ++ [EvFflush fp; EvFsync d; EvFclose fp])
    as Ht by (rewrite Ht3, Ht2, Ht1, <- !app_assoc; reflexivity).
  destruct (w_fault w (S (S (length (w_trace w)))) (EvFclose fp)) as [fl3|].
  - destruct Hcase3 as (-> & _ & He). cbn. split; [|split].
    + exists []. rewrite Ht. reflexivity.
    + rewrite He. split; [reflexivity|]. apply AVERROR_negative. lia.
    + discriminate.
  - destruct Hcase3 as (-> & Hfs3 & _). cbn.
    pose proof (av_free_spec (buf (priv_data h)) w3) as ([Ht4 _] & Hfs4 & _).
    destruct (av_free (buf (priv_data h)) w3) as [[] w4]. cbn in Ht4, Hfs4 |- *.
    split; [|split].
    + exists [EvFree (buf (priv_data h))]. rewrite Ht4, Ht, <- app_assoc.
      reflexivity.
    + reflexivity.
    + intros Hn1 Hn2 _. destruct (Hok1 Hn1) as [-> Hfs1].
      rewrite Hn2 in Hcase2.
      rewrite <- Hfd in Hfile.
      rewrite (commit_pending_fs st w path ino Hfile) in Hfs1.
      pose proof (file_of_fd_insert _ w w1 path ino _ Hfile Hfds1 Hfs1)
        as Hfile1.
      rewrite Hfd in Hfile1. fold d in Hfile1. rewrite Hfile1 in Hcase2.
      destruct Hcase2 as (_ & Hfs2 & _). cbn in Hfs2.
      pose proof (file_of_fd_insert _ w1 w2 path _ _ Hfile1 Hfds2 Hfs2)
        as Hfile2.
      rewrite <- Hfd in Hfile2.
      change (s_fd st) with (s_fd (flushed st)) in Hfile2.
      rewrite (commit_pending_fs _ w2 path _ Hfile2) in Hfs3.
      rewrite Hfs4, Hfs3, lookup_insert_eq. eexists. split; [reflexivity|].
      cbn. split; reflexivity.
Qed.

Lemma close_write_mode_witness :
  (cached_file_close (written_handle no_fault) (written_world no_fault)).1 = 0
  ∧ ∃ ino',
      w_fs (cached_file_close (written_handle no_fault)
              (written_world no_fault)).2 !! "test.bin" = Some ino'
      ∧ i_data ino' = [x01; x02; x03]
      ∧ i_disk ino' = i_data ino'.
Proof.
  destruct (close_write_mode (written_handle no_fault)
              (written_world no_fault) written_stream "test.bin"
              (mkInode 420 [] []))
    as (_ & Hret & Hdur).
  - vm_compute. discriminate.
  - vm_compute. reflexivity.
  - reflexivity.
  - vm_compute. reflexivity.
  - split; [exact Hret|]. apply Hdur; reflexivity.
Defined.

(** C2, as stated, fails: with three written bytes pending and [fsync]
    failing with [EIO], Close returns 0, and the file on stable storage is
    still empty. *)
Lemma close_is_not_durable :
  ¬ close_reports_failure (written_handle (fault_on is_fsync EIO))
      (written_world (fault_on is_fsync EIO))
  ∧ ¬ close_success_is_durable (written_handle (fault_on is_fsync EIO))
        (written_world (fault_on is_fsync EIO)) "test.bin".
Proof.
  split.
  - intros Hc. specialize (Hc (mkFault EIO 0) (or_introl eq_refl)).
    vm_compute in Hc. discriminate Hc.
  - intros Hc. destruct Hc as (ino' & Hl & Hd); [vm_compute; reflexivity|].
    vm_compute in Hl. injection Hl as <-. discriminate Hd.
Qed.

(** From [fclose] on, Close proceeds in the same way in read and in write
    mode. *)
Lemma cached_file_close_write_mode `{AvHeaders} h w :
  write_flags (priv_data h) ≠ 0 →
  cached_file_close h w
  = cached_file_close (set_priv_data (set_write_flags 0 (priv_data h)) h)
      (fsync (fd (priv_data h)) (fflush (f (priv_data h)) w).2).2.
Proof.
  intros Hwf. unfold cached_file_close. cbn.
  destruct (Z.eqb_spec (write_flags (priv_data h)) 0) as [E|_]; [done|]. cbn.
  unfold mbind, mret, M_bind, M_ret.
  destruct (fflush (f (priv_data h)) w) as [r1 w1]. cbn.
  destruct (fsync (fd (priv_data h)) w1) as [r2 w2]. reflexivity.
Qed.

Lemma cached_file_close_read_mode `{AvHeaders} h w st :
  write_flags (priv_data h) = 0 →
  w_streams w !! f (priv_data h) = Some st →
  w_trace (cached_file_close h w).2
  = w_trace w ++ EvFclose (f (priv_data h))
                 :: (if (cached_file_close h w).1 =? 0
                     then [EvFree (buf (priv_data h))] else [])
  ∧ w_fs (cached_file_close h w).2 = w_fs (fclose (f (priv_data h)) w).2
  ∧ match w_fault w (length (w_trace w)) (EvFclose (f (priv_data h))) with
    | Some fl =>
        (cached_file_close h w).1 = AVERROR (Z.pos (fl_errno fl))
        ∧ (cached_file_close h w).1 < 0
        ∧ same_heap w (cached_file_close h w).2
    | None =>
        (cached_file_close h w).1 = 0
        ∧ ∀ n, w_heap w !! buf (priv_data h) = Some n →
               buf (priv_data h) ≠ NULL →
               w_heap (cached_file_close h w).2
               = delete (buf (priv_data h)) (w_heap w)
               ∧ w_badfree (cached_file_close h w).2 = w_badfree w
    end.
Proof.
  intros Hwf Hst. unfold cached_file_close. rewrite Hwf. cbn.
  unfold errno, gets, mbind, mret, M_bind, M_ret.
  pose proof (fclose_spec _ w st Hst) as ([Ht3 _] & [Hh3 Hb3] & _ & _ & Hc3).
  destruct (fclose (f (priv_data h)) w) as [r3 w3]. cbn in Ht3, Hh3, Hb3, Hc3.
  destruct (w_fault w (length (w_trace w)) (EvFclose (f (priv_data h))))
    as [fl|].
  - destruct Hc3 as (-> & _ & He). cbn. rewrite He.
    pose proof (AVERROR_negative (Z.pos (fl_errno fl))) as Hneg.
    destruct (Z.eqb_spec (AVERROR (Z.pos (fl_errno fl))) 0) as [E|_]; [lia|].
    repeat split; try assumption; try lia.
  - destruct Hc3 as (-> & _ & _). cbn.
    pose proof (av_free_spec (buf (priv_data h)) w3)
      as ([Ht4 _] & Hfs4 & _ & Hfree).
    destruct (av_free (buf (priv_data h)) w3) as [[] w4].
    cbn in Ht4, Hfs4, Hfree |- *.
    split; [rewrite Ht4, Ht3, <- app_assoc; reflexivity|].
    split; [exact Hfs4|]. split; [reflexivity|].
    intros n Hn Hp.
    destruct (Z.eqb_spec (buf (priv_data h)) NULL) as [E|_]; [done|].
    rewrite Hh3, Hn in Hfree. destruct Hfree as [-> ->].
    split; congruence.
Qed.

(** Close and the buffer, on an open handle in either mode whose [buf] is an
    allocated block: when Close returns 0 the block has been released, once;
    otherwise Close returns a negative code and the block is still
    allocated. *)
Lemma cached_file_close_buffer `{AvHeaders} h w st n :
  w_streams w !! f (priv_data h) = Some st →
  w_heap w !! buf (priv_data h) = Some n →
  buf (priv_data h) ≠ NULL →
  if (cached_file_close h w).1 =? 0
  then w_heap (cached_file_close h w).2 = delete (buf (priv_data h)) (w_heap w)
       ∧ w_badfree (cached_file_close h w).2 = w_badfree w
  else (cached_file_close h w).1 < 0
       ∧ w_heap (cached_file_close h w).2 !! buf (priv_data h) = Some n
       ∧ w_badfree (cached_file_close h w).2 = w_badfree w.
Proof.
  assert (∀ h w st,
            write_flags (priv_data h) = 0 →
            w_streams w !! f (priv_data h) = Some st →
            w_heap w !! buf (priv_data h) = Some n →
            buf (priv_data h) ≠ NULL →
            if (cached_file_close h w).1 =? 0
            then w_heap (cached_file_close h w).2
                 = delete (buf (priv_data h)) (w_heap w)
                 ∧ w_badfree (cached_file_close h w).2 = w_badfree w
            else (cached_file_close h w).1 < 0
                 ∧ w_heap (cached_file_close h w).2 !! buf (priv_data h)
                   = Some n
                 ∧ w_badfree (cached_file_close h w).2 = w_badfree w)
    as Hread.
  { clear h w st. intros h w st Hwf Hst Hn Hp.
    destruct (cached_file_close_read_mode h w st Hwf Hst) as (_ & _ & Hcase).
    destruct (w_fault w (length (w_trace w)) (EvFclose (f (priv_data h)))).
    - destruct Hcase as (_ & Hneg & [Hh Hb]).
      destruct (Z.eqb_spec (cached_file_close h w).1 0) as [E|_]; [lia|].
      rewrite Hh. repeat split; assumption.
    - destruct Hcase as (-> & Hfree). cbn. exact (Hfree n Hn Hp). }
  intros Hst Hn Hp.
  destruct (Z.eq_dec (write_flags (priv_data h)) 0) as [Hwf|Hwf].
  - exact (Hread h w st Hwf Hst Hn Hp).
  - rewrite (cached_file_close_write_mode h w Hwf).
    pose proof (fflush_spec _ w st Hst) as (_ & [Hh1 Hb1] & _ & Hcase1).
    pose proof (fsync_spec (fd (priv_data h)) (fflush (f (priv_data h)) w).2)
      as (_ & [Hh2 Hb2] & _ & Hs2 & _).
    set (w2 := (fsync (fd (priv_data h)) (fflush (f (priv_data h)) w).2).2)
      in *.
    assert (∃ st2, w_streams w2 !! f (priv_data h) = Some st2) as [st2 Hst2].
    { rewrite Hs2.
      destruct (w_fault w (length (w_trace w)) (EvFflush (f (priv_data h))));
        destruct Hcase1 as (_ & -> & _); rewrite lookup_insert_eq; eauto. }
    assert (w_heap w2 = w_heap w) as Hh by congruence.
    assert (w_badfree w2 = w_badfree w) as Hb by congruence.
    rewrite <- Hh, <- Hb.
    apply (Hread (set_priv_data (set_write_flags 0 (priv_data h)) h) w2 st2);
      cbn; [reflexivity|exact Hst2|rewrite Hh; exact Hn|exact Hp].
Qed.

(** C1, at the failing input: a handle with the buffer allocated at Open,
    and [fclose] failing with [EIO].  Close makes its three library calls and
    returns [AVERROR(EIO)]; [av_free] is not called, and the buffer is still
    allocated when Close has returned. *)
Theorem close_failure_leaks_buffer :
  w_heap (written_world (fault_on is_fclose EIO))
    !! buf (priv_data (written_handle (fault_on is_fclose EIO)))
  = Some buf_size_default
  ∧ (cached_file_close (written_handle (fault_on is_fclose EIO))
       (written_world (fault_on is_fclose EIO))).1 = AVERROR (Z.pos EIO)
  ∧ w_trace (cached_file_close (written_handle (fault_on is_fclose EIO))
               (written_world (fault_on is_fclose EIO))).2
    = w_trace (written_world (fault_on is_fclose EIO))
      ++ [EvFflush 1; EvFsync 0; EvFclose 1]
  ∧ w_heap (cached_file_close (written_handle (fault_on is_fclose EIO))
              (written_world (fault_on is_fclose EIO))).2
      !! buf (priv_data (written_handle (fault_on is_fclose EIO)))
    = Some buf_size_default.
Proof. vm_compute. repeat split; reflexivity. Qed.

(** ** Check *)

(** X7: what [cached_file_check] does in every case, on the name it passes
    to [stat] (the name of the handle without a leading "file:"): an error
    of [stat], such as a missing file, comes back as [AVERROR(errno)], a
    negative value; otherwise the result has no bit outside the two flags, the
    read bits of the mask are in the result exactly when the owner may read
    the file, and the write bits exactly when the owner may write it. *)
Lemma cached_file_check_spec `{AvHeaders} h msk w :
  w_trace (cached_file_check h msk w).2
  = w_trace w ++ [EvStat (av_strstart (filename h) "file:").2]
  ∧ match w_fault w (length (w_trace w))
            (EvStat (av_strstart (filename h) "file:").2),
          w_fs w !! (av_strstart (filename h) "file:").2 with
    | Some fl, _ =>
        (cached_file_check h msk w).1 = AVERROR (Z.pos (fl_errno fl))
        ∧ (cached_file_check h msk w).1 < 0
    | None, None =>
        (cached_file_check h msk w).1 = AVERROR (Z.pos ENOENT)
        ∧ (cached_file_check h msk w).1 < 0
    | None, Some ino =>
        Z.land (cached_file_check h msk w).1 AVIO_FLAG_READ
        = (if Z.land (i_mode ino) S_IRUSR =? 0 then 0
           else Z.land msk AVIO_FLAG_READ)
        ∧ Z.land (cached_file_check h msk w).1 AVIO_FLAG_WRITE
          = (if Z.land (i_mode ino) S_IWUSR =? 0 then 0
             else Z.land msk AVIO_FLAG_WRITE)
        ∧ (cached_file_check h msk w).1
          = Z.lor (Z.land (cached_file_check h msk w).1 AVIO_FLAG_READ)
                  (Z.land (cached_file_check h msk w).1 AVIO_FLAG_WRITE)
    end.
Proof.
  unfold cached_file_check, stat. unfold_M. cbn.
  set (path := (av_strstart (filename h) "file:").2).
  destruct (w_fault w (length (w_trace w)) (EvStat path)) as [fl|]; cbn.
  - repeat split; try reflexivity. apply AVERROR_negative. lia.
  - destruct (w_fs w !! path) as [ino|]; cbn.
    + split; [reflexivity|].
      pose proof AVIO_FLAG_disjoint as Hd.
      assert (∀ m, Z.land (Z.land m AVIO_FLAG_WRITE) AVIO_FLAG_READ = 0) as Hwr.
      { intros m. rewrite <- Z.land_assoc, (Z.land_comm AVIO_FLAG_WRITE), Hd.
        apply Z.land_0_r. }
      assert (∀ m, Z.land (Z.land m AVIO_FLAG_READ) AVIO_FLAG_WRITE = 0) as Hrw.
      { intros m. rewrite <- Z.land_assoc, Hd. apply Z.land_0_r. }
      assert (∀ m a, Z.land (Z.land m a) a = Z.land m a) as Hidem.
      { intros m a. rewrite <- Z.land_assoc, Z.land_diag. reflexivity. }
      destruct (Z.land (i_mode ino) S_IRUSR =? 0);
        destruct (Z.land (i_mode ino) S_IWUSR =? 0); cbn;
        rewrite ?Z.land_lor_distr_l, ?Hwr, ?Hrw, ?Hidem, ?Z.lor_0_r,
          ?Z.land_0_l, ?Z.lor_0_l;
        repeat split; reflexivity.
    + repeat split; try reflexivity. apply AVERROR_negative. lia.
Qed.

(** C5, at the failing input: the file [test.bin], which its owner may read
    but not write, checked through the handle of the URL "cf:test.bin" for
    reading and writing.  [cached_file_check] strips "file:" and not the
    "cf:" of this protocol: it asks [stat] about "cf:test.bin" and returns
    [AVERROR(ENOENT)].  Only under the name "file:test.bin" does it find the
    file and answer [AVIO_FLAG_READ]; [cached_file_open] strips "cf:" and
    opens the file. *)
Theorem check_keeps_cf_prefix :
  w_trace (cached_file_check (handle0 buf_size_default "cf:test.bin")
             AVIO_FLAG_READ_WRITE (world1 256 no_fault)).2
  = [EvStat "cf:test.bin"]
  ∧ (cached_file_check (handle0 buf_size_default "cf:test.bin")
       AVIO_FLAG_READ_WRITE (world1 256 no_fault)).1 = AVERROR (Z.pos ENOENT)
  ∧ (cached_file_check (handle0 buf_size_default "file:test.bin")
       AVIO_FLAG_READ_WRITE (world1 256 no_fault)).1 = AVIO_FLAG_READ
  ∧ w_trace (cached_file_open (handle0 buf_size_default "cf:test.bin")
               "cf:test.bin" AVIO_FLAG_READ (world1 256 no_fault)).2
    = [EvFopen "test.bin" "rb"; EvMalloc buf_size_default;
       EvSetvbuf 1 1 IOFBF buf_size_default; EvFileno 1]
  ∧ (cached_file_open (handle0 buf_size_default "cf:test.bin")
       "cf:test.bin" AVIO_FLAG_READ (world1 256 no_fault)).1.1 = 0.
Proof. vm_compute. repeat split; reflexivity. Qed.

(** ** The buffer *)

Lemma fopen_stream path mode w :
  (fopen path mode w).1 ≠ NULL →
  ∃ d rd wr,
    w_streams (fopen path mode w).2 !! (fopen path mode w).1
    = Some (mkStream d rd wr 0 [] NULL IOFBF BUFSIZ false false).
Proof.
  unfold fopen, install. unfold_M. cbn.
  repeat (case_match; simplify_eq/=); try done; intros _;
    rewrite lookup_insert_eq; eauto.
Qed.

Lemma av_malloc_spec n w :
  w_streams (av_malloc n w).2 = w_streams w
  ∧ match w_fault w (length (w_trace w)) (EvMalloc n) with
    | Some _ =>
        (av_malloc n w).1 = NULL ∧ same_heap w (av_malloc n w).2
    | None =>
        (av_malloc n w).1 ≠ NULL
        ∧ w_heap w !! (av_malloc n w).1 = None
        ∧ w_heap (av_malloc n w).2 = <[(av_malloc n w).1 := n]> (w_heap w)
        ∧ w_badfree (av_malloc n w).2 = w_badfree w
    end.
Proof.
  unfold av_malloc, same_heap. unfold_M. cbn.
  destruct (w_fault w (length (w_trace w)) (EvMalloc n)) as [fl|]; cbn.
  - repeat split; reflexivity.
  - split; [reflexivity|]. split; [apply fresh_not_NULL|].
    split; [|split; reflexivity].
    apply not_elem_of_dom.
    pose proof (is_fresh ({[NULL]} ∪ dom (w_heap w))) as Hf. set_solver.
Qed.

Lemma setvbuf_spec fp p n w st :
  w_streams w !! fp = Some st →
  p ≠ NULL →
  w_streams (setvbuf fp p IOFBF n w).2
  = <[fp := set_vbuf p IOFBF n st]> (w_streams w).
Proof.
  intros Hst Hp. unfold setvbuf. unfold_M. cbn. rewrite Hst. cbn.
  destruct (Z.eqb_spec p NULL) as [E|_]; [done|]. reflexivity.
Qed.

Lemma fileno_streams fp w : w_streams (fileno fp w).2 = w_streams w.
Proof.
  unfold fileno. unfold_M. cbn.
  destruct (w_streams w !! fp); reflexivity.
Qed.

(** Requests other than open and close leave the heap as it is. *)
Lemma request_keeps_heap `{AvHeaders} r h w :
  is_open r = false → is_close r = false →
  same_heap w (ff_cached_file_protocol r h w).2.
Proof.
  destruct r as [fn fl|size|data size|pos whence| | |msk| |hd]; cbn;
    try discriminate; intros _ _;
    unfold mbind, mret, M_bind, M_ret; try (split; reflexivity).
  - unfold cached_file_read. unfold mbind, mret, M_bind, M_ret.
    destruct (fread_logged 1 (to_size_t size) (f (priv_data h)) w) as [_ Hh].
    destruct (fread 1 (to_size_t size) (f (priv_data h)) w) as [[n bs] w1].
    exact Hh.
  - unfold cached_file_write. unfold mbind, mret, M_bind, M_ret.
    destruct (fwrite_logged data 1 (to_size_t size) (f (priv_data h)) w)
      as [_ Hh].
    destruct (fwrite data 1 (to_size_t size) (f (priv_data h)) w) as [n w1].
    exact Hh.
  - unfold cached_file_seek. unfold errno, gets, mbind, mret, M_bind, M_ret.
    destruct (whence =? AVSEEK_SIZE).
    + destruct (fflush_logged (f (priv_data h)) w) as [_ [Hh1 Hb1]].
      destruct (fflush (f (priv_data h)) w) as [r1 w1].
      destruct (fstat_logged (fd (priv_data h)) w1) as [_ [Hh2 Hb2]].
      destruct (fstat (fd (priv_data h)) w1) as [[r2 s2] w2]. cbn in *.
      destruct (r2 <? 0); cbn; split; congruence.
    + destruct (fseeko_logged (f (priv_data h)) (to_off_t pos) whence w)
        as [_ [Hh1 Hb1]].
      destruct (fseeko (f (priv_data h)) (to_off_t pos) whence w) as [r1 w1].
      cbn in *. destruct (negb (r1 =? 0)); cbn.
      * split; assumption.
      * destruct (ftello_logged (f (priv_data h)) w1) as [_ [Hh2 Hb2]].
        destruct (ftello (f (priv_data h)) w1) as [r2 w2]. cbn in *.
        destruct (to_int64 r2 <? 0); cbn; split; congruence.
  - unfold cached_file_check. unfold errno, gets, mbind, mret, M_bind, M_ret.
    destruct (stat_logged (av_strstart (filename h) "file:").2 w) as [_ Hh].
    destruct (stat (av_strstart (filename h) "file:").2 w) as [[r1 s1] w1].
    cbn in *. destruct (r1 <? 0); exact Hh.
Qed.

Lemma serve_keeps_heap `{AvHeaders} reqs : ∀ h w,
  Forall (λ r, is_open r = false ∧ is_close r = false) reqs →
  same_heap w (serve reqs h w).2.
Proof.
  induction reqs as [|r reqs IH]; intros h w Hall; [split; reflexivity|].
  inversion Hall as [|? ? [Hr1 Hr2] Hrest]; subst. cbn.
  unfold mbind, mret, M_bind, M_ret.
  pose proof (request_keeps_heap r h w Hr1 Hr2) as [Hh Hb].
  destruct (ff_cached_file_protocol r h w) as [[n h1] w1]. cbn in Hh, Hb.
  destruct (IH h1 w1 Hrest) as [Hh' Hb'].
  destruct (serve reqs h1 w1) as [[ns h2] w2]. cbn in *.
  split; congruence.
Qed.

(** C7, as stated, fails.  After an Open with [buf_size = 0] the stream is
    not unbuffered: [setvbuf] was not called, the stream has the library's
    default full buffering, and three bytes written through the handle stay
    pending in it.  And an Open with [buf_size = 1048576] in which
    [av_malloc] fails still returns 0, with [NULL] in [buf] and no block
    allocated. *)
Lemma open_buffer_as_claimed_fails :
  ¬ open_buffer_as_claimed (handle0 0 "cf:test.bin") "cf:test.bin"
      AVIO_FLAG_WRITE (world0 no_fault)
  ∧ ¬ open_buffer_as_claimed (handle0 buf_size_default "cf:test.bin")
        "cf:test.bin" AVIO_FLAG_WRITE (world0 (fault_on is_malloc ENOMEM)).
Proof.
  split.
  - intros Hc. destruct Hc as (st & _ & _ & H0); [reflexivity|].
    destruct (H0 eq_refl) as [_ Hw].
    specialize (Hw [x01; x02; x03] 3
                  (mkStream 0 false true 0 [x01; x02; x03] NULL IOFBF BUFSIZ
                     false false) eq_refl).
    discriminate Hw.
  - intros Hc. destruct Hc as (st & _ & Hpos & _); [reflexivity|].
    destruct Hpos as (Hblock & _); [reflexivity|].
    vm_compute in Hblock. discriminate Hblock.
Qed.

(** C7, amended: for every Open that returns 0 with a configured size
    [0 <= s <= INT_MAX]: when [s] is not 0 and [av_malloc] does not fail, a
    new block of exactly [s] bytes is allocated, its address is stored in
    [buf], and it is attached to the stream in fully-buffered mode; when [s]
    is 0, nothing is allocated, [buf] is [NULL], [setvbuf] is not called and
    the stream keeps the library's own default full buffering; no run of
    requests other than open and close changes [buf] or the heap. *)
Theorem open_buffer `{AvHeaders}
    (h : URLContext) (filename : string) (flags : Z) (w : World)
    (reqs : list request) :
  0 ≤ buf_size (priv_data h) ≤ INT_MAX →
  (cached_file_open h filename flags w).1.1 = 0 →
  Forall (λ r, is_open r = false ∧ is_close r = false) reqs →
  let o := cached_file_open h filename flags w in
  let c := priv_data o.1.2 in
  (buf_size (priv_data h) ≠ 0 →
   w_fault w (S (length (w_trace w))) (EvMalloc (buf_size (priv_data h)))
   = None →
   buf c ≠ NULL
   ∧ w_heap w !! buf c = None
   ∧ w_heap o.2 = <[buf c := buf_size (priv_data h)]> (w_heap w)
   ∧ attached o.2 (f c) (buf c) IOFBF (buf_size (priv_data h)))
  ∧ (buf_size (priv_data h) = 0 →
     buf c = NULL
     ∧ w_heap o.2 = w_heap w
     ∧ attached o.2 (f c) NULL IOFBF BUFSIZ
     ∧ w_trace o.2
       = w_trace w ++ [EvFopen (av_strstart filename "cf:").2
                         (open_choice flags).1; EvFileno (f c)])
  ∧ buf (priv_data (serve reqs o.1.2 o.2).1.2) = buf c
  ∧ w_heap (serve reqs o.1.2 o.2).2 = w_heap o.2.
Proof.
  intros Hs Hret Hall o c.
  assert (Forall (λ r, is_open r = false) reqs) as Hall'
    by (eapply Forall_impl; [exact Hall|]; intros r [Hr _]; exact Hr).
  split; [|split; [|split]].
  3: { rewrite serve_keeps_handle by exact Hall'. reflexivity. }
  3: { apply (serve_keeps_heap reqs o.1.2 o.2 Hall). }
  all: apply (proj2 (proj2 (cached_file_open_spec h filename flags w))) in Hret;
    subst c o; unfold cached_file_open in *;
    unfold mbind, mret, M_bind, M_ret in *;
    change (buf_size (set_write_flags (open_choice flags).2 (priv_data h)))
      with (buf_size (priv_data h)) in *;
    set (path := (av_strstart filename "cf:").2) in *;
    set (mode := (open_choice flags).1) in *;
    destruct (fopen_logged path mode w) as [[Ht1 Hf1] [Hh1 _]];
    destruct (fopen_stream path mode w Hret) as (d & rd & wr & Hst1);
    destruct (fopen path mode w) as [fp w1]; cbn in Hret, Ht1, Hf1, Hh1, Hst1;
    (destruct (Z.eqb_spec fp NULL) as [E|_]; [done|]).
  - (* a configured size other than 0 *)
    intros Hnz Hfault.
    destruct (Z.eqb_spec (buf_size (priv_data h)) 0) as [E|_]; [done|]. cbn.
    rewrite to_size_t_small by exact Hs.
    set (n := buf_size (priv_data h)) in *.
    pose proof (av_malloc_spec n w1) as [Hs2 Hm].
    rewrite Hf1, Ht1, length_app, Nat.add_1_r in Hm. cbn in Hm.
    rewrite Hfault in Hm. destruct Hm as (Hp & Hfresh & Hh2 & _).
    destruct (av_malloc n w1) as [p w2]. cbn in Hs2, Hp, Hfresh, Hh2 |- *.
    rewrite <- Hs2 in Hst1.
    pose proof (setvbuf_spec fp p n w2 _ Hst1 Hp) as Hs3.
    destruct (setvbuf_logged fp p IOFBF n w2) as [_ [Hh3 _]].
    destruct (setvbuf fp p IOFBF n w2) as [r3 w3]. cbn in Hs3, Hh3 |- *.
    pose proof (fileno_streams fp w3) as Hs4.
    destruct (fileno_logged fp w3) as [_ [Hh4 _]].
    destruct (fileno fp w3) as [d4 w4]. cbn in Hs4, Hh4 |- *.
    split; [exact Hp|]. split; [rewrite <- Hh1; exact Hfresh|].
    split; [rewrite Hh4, Hh3, Hh2, Hh1; reflexivity|].
    eexists. rewrite Hs4, Hs3, lookup_insert_eq. repeat split; reflexivity.
  - (* a configured size of 0 *)
    intros Hz. rewrite Hz. cbn.
    pose proof (fileno_streams fp w1) as Hs4.
    destruct (fileno_logged fp w1) as [[Ht4 _] [Hh4 _]].
    destruct (fileno fp w1) as [d4 w4]. cbn in Hs4, Ht4, Hh4 |- *.
    split; [reflexivity|]. split; [congruence|]. split.
    + eexists. rewrite Hs4, Hst1. repeat split; reflexivity.
    + rewrite Ht4, Ht1, <- app_assoc. reflexivity.
Qed.

Lemma open_buffer_witness :
  w_heap (opened buf_size_default AVIO_FLAG_WRITE (world0 no_fault)).2
  = <[1 := buf_size_default]> ∅
  ∧ attached (opened buf_size_default AVIO_FLAG_WRITE (world0 no_fault)).2
      1 1 IOFBF buf_size_default
  ∧ w_heap (serve [url_write [x01; x02; x03] 3; url_seek 0 AVSEEK_SIZE;
                   url_read 3]
              (opened buf_size_default AVIO_FLAG_WRITE (world0 no_fault)).1.2
              (opened buf_size_default AVIO_FLAG_WRITE (world0 no_fault)).2).2
    = w_heap (opened buf_size_default AVIO_FLAG_WRITE (world0 no_fault)).2.
Proof.
  destruct (open_buffer (handle0 buf_size_default "cf:test.bin") "cf:test.bin"
              AVIO_FLAG_WRITE (world0 no_fault)
              [url_write [x01; x02; x03] 3; url_seek 0 AVSEEK_SIZE;
               url_read 3])
    as (Hpos & _ & _ & Hheap).
  - vm_compute. split; discriminate.
  - reflexivity.
  - repeat constructor.
  - destruct Hpos as (_ & _ & Hh & Ha); [discriminate|reflexivity|].
    split; [exact Hh|]. split; [exact Ha|exact Hheap].
Defined.

(** ** The handle Open leaves *)

Lemma fopen_file path mode w :
  (fopen path mode w).1 ≠ NULL →
  ∃ st ino,
    w_streams (fopen path mode w).2 !! (fopen path mode w).1 = Some st
    ∧ file_of_fd (s_fd st) (fopen path mode w).2 = Some (path, ino).
Proof.
  unfold fopen, install, file_of_fd. unfold_M. cbn.
  repeat (case_match; simplify_eq/=); try done; intros _;
    eexists _, _; (split; [rewrite lookup_insert_eq; reflexivity|]); cbn;
    rewrite !lookup_insert_eq; reflexivity.
Qed.

Lemma av_malloc_files n w : same_files w (av_malloc n w).2.
Proof. unfold av_malloc, same_files. unfold_M. cbn. by case_match. Qed.

Lemma setvbuf_files fp p m n w : same_files w (setvbuf fp p m n w).2.
Proof.
  unfold setvbuf, same_files. unfold_M. cbn. by repeat case_match.
Qed.

Lemma setvbuf_stream fp p m n w st :
  w_streams w !! fp = Some st →
  ∃ st', w_streams (setvbuf fp p m n w).2 !! fp = Some st'
         ∧ s_fd st' = s_fd st.
Proof.
  intros Hst. unfold setvbuf. unfold_M. cbn. rewrite Hst. cbn.
  rewrite lookup_insert_eq. eexists. split; [reflexivity|].
  by repeat case_match.
Qed.

Lemma fileno_spec fp w st :
  w_streams w !! fp = Some st →
  (fileno fp w).1 = s_fd st ∧ same_files w (fileno fp w).2.
Proof.
  intros Hst. unfold fileno, same_files. unfold_M. cbn. rewrite Hst.
  repeat split; reflexivity.
Qed.

(** After an Open that returned 0 the handle is open: [f] is a stream of the
    environment, [fd] is the descriptor of that stream, and the descriptor
    refers to the file named by the URL without its "cf:" prefix. *)
Lemma cached_file_open_handle `{AvHeaders} h filename flags w :
  (cached_file_open h filename flags w).1.1 = 0 →
  ∃ st ino,
    w_streams (cached_file_open h filename flags w).2
      !! f (priv_data (cached_file_open h filename flags w).1.2) = Some st
    ∧ s_fd st = fd (priv_data (cached_file_open h filename flags w).1.2)
    ∧ file_of_fd (fd (priv_data (cached_file_open h filename flags w).1.2))
        (cached_file_open h filename flags w).2
      = Some ((av_strstart filename "cf:").2, ino).
Proof.
  intros Hret.
  apply (proj2 (proj2 (cached_file_open_spec h filename flags w))) in Hret.
  unfold cached_file_open. unfold mbind, mret, M_bind, M_ret.
  set (path := (av_strstart filename "cf:").2) in *.
  set (mode := (open_choice flags).1) in *.
  destruct (fopen_file path mode w Hret) as (st & ino & Hst & Hfile).
  destruct (fopen path mode w) as [fp w1]. cbn in Hret, Hst, Hfile |- *.
  destruct (Z.eqb_spec fp NULL) as [E|_]; [done|].
  change (buf_size (set_write_flags (open_choice flags).2 (priv_data h)))
    with (buf_size (priv_data h)).
  set (n := to_size_t (buf_size (priv_data h))).
  destruct (buf_size (priv_data h) =? 0); cbn.
  - destruct (fileno_spec fp w1 st Hst) as (Hd4 & Hfds4 & Hfs4).
    pose proof (fileno_streams fp w1) as Hs4.
    destruct (fileno fp w1) as [d4 w4]. cbn in Hd4, Hfds4, Hfs4, Hs4 |- *.
    exists st, ino. rewrite Hs4. split; [exact Hst|]. split; [congruence|].
    rewrite (file_of_fd_ext _ w1 w4) by congruence.
    rewrite Hd4. exact Hfile.
  - destruct (av_malloc_files n w1) as [Hd2 Hf2].
    pose proof (proj1 (av_malloc_spec n w1)) as Hs2.
    destruct (av_malloc n w1) as [p w2]. cbn in Hd2, Hf2, Hs2 |- *.
    rewrite <- Hs2 in Hst.
    destruct (setvbuf_files fp p IOFBF n w2) as [Hd3 Hf3].
    destruct (setvbuf_stream fp p IOFBF n w2 st Hst) as (st3 & Hst3 & Hfd3).
    destruct (setvbuf fp p IOFBF n w2) as [r3 w3]. cbn in Hd3, Hf3, Hst3 |- *.
    destruct (fileno_spec fp w3 st3 Hst3) as (Hd4 & Hfds4 & Hfs4).
    pose proof (fileno_streams fp w3) as Hs4.
    destruct (fileno fp w3) as [d4 w4]. cbn in Hd4, Hfds4, Hfs4, Hs4 |- *.
    exists st3, ino. rewrite Hs4. split; [exact Hst3|]. split; [congruence|].
    rewrite (file_of_fd_ext _ w1 w4) by congruence.
    rewrite Hd4, Hfd3. exact Hfile.
Qed.

(** ** The stream of a handle under the library calls of a transfer *)

Lemma file_of_fd_with_streams d x w :
  file_of_fd d (with_streams x w) = file_of_fd d w.
Proof. reflexivity. Qed.
Lemma file_of_fd_with_errno d x w :
  file_of_fd d (with_errno x w) = file_of_fd d w.
Proof. reflexivity. Qed.
Lemma file_of_fd_with_trace d x w :
  file_of_fd d (with_trace x w) = file_of_fd d w.
Proof. reflexivity. Qed.
Lemma file_of_fd_with_heap d x w :
  file_of_fd d (with_heap x w) = file_of_fd d w.
Proof. reflexivity. Qed.

Create Rewrite HintDb files.
#[export] Hint Rewrite file_of_fd_with_streams file_of_fd_with_errno
  file_of_fd_with_trace file_of_fd_with_heap : files.

Ltac keeps_stream_tac :=
  intros st path ino Hst Hfile; unfold_M; cbn; rewrite ?Hst; cbn;
  repeat (case_match; simplify_eq/=); autorewrite with frame; cbn;
  rewrite ?lookup_insert_eq; eexists _, _;
  (split; [first [exact Hst | reflexivity]|]); (split; [reflexivity|]);
  autorewrite with files;
  first [ exact Hfile
        | apply commit_pending_file; exact Hfile
        | apply (commit_pending_file (set_pending _ _)); exact Hfile ].

Lemma fflush_keeps_stream fp w : keeps_stream fp w (fflush fp w).2.
Proof. unfold fflush. keeps_stream_tac. Qed.

Lemma fread_keeps_stream size nmemb fp w :
  keeps_stream fp w (fread size nmemb fp w).2.
Proof. unfold fread. keeps_stream_tac. Qed.

Lemma fwrite_keeps_stream data size nmemb fp w :
  keeps_stream fp w (fwrite data size nmemb fp w).2.
Proof. unfold fwrite. keeps_stream_tac. Qed.

Lemma fseeko_keeps_stream fp off whence w :
  keeps_stream fp w (fseeko fp off whence w).2.
Proof. unfold fseeko. keeps_stream_tac. Qed.

Lemma ftello_keeps_stream fp w : keeps_stream fp w (ftello fp w).2.
Proof. unfold ftello. keeps_stream_tac. Qed.

Lemma fstat_keeps_stream fp d w : keeps_stream fp w (fstat d w).2.
Proof. unfold fstat. keeps_stream_tac. Qed.

Lemma stat_keeps_stream fp name w : keeps_stream fp w (stat name w).2.
Proof. unfold stat. keeps_stream_tac. Qed.

Lemma av_log_keeps_stream fp msg w : keeps_stream fp w (av_log msg w).2.
Proof. intros st path ino Hst Hfile. exists st, ino. by repeat split. Qed.

Lemma keeps_stream_refl fp w : keeps_stream fp w w.
Proof. intros st path ino Hst Hfile. exists st, ino. by repeat split. Qed.

Lemma keeps_stream_trans fp w1 w2 w3 :
  keeps_stream fp w1 w2 → keeps_stream fp w2 w3 → keeps_stream fp w1 w3.
Proof.
  intros H12 H23 st path ino Hst Hfile.
  destruct (H12 st path ino Hst Hfile) as (st2 & ino2 & Hst2 & Hfd2 & Hfile2).
  rewrite <- Hfd2 in Hfile2.
  destruct (H23 st2 path ino2 Hst2 Hfile2) as (st3 & ino3 & Hst3 & Hfd3 & Hfile3).
  exists st3, ino3. rewrite <- Hfd2. repeat split; [assumption|congruence|assumption].
Qed.

Lemma keeps_stream_open_on h w w' path :
  keeps_stream (f (priv_data h)) w w' → open_on h w path → open_on h w' path.
Proof.
  intros Hk (st & ino & Hst & Hfd & Hfile). rewrite <- Hfd in Hfile.
  destruct (Hk st path ino Hst Hfile) as (st' & ino' & Hst' & Hfd' & Hfile').
  exists st', ino'. rewrite <- Hfd. repeat split; [assumption|congruence|assumption].
Qed.

(** A request other than open and close keeps the stream of the handle and
    the file behind it. *)
Lemma request_keeps_stream `{AvHeaders} r h w :
  is_open r = false → is_close r = false →
  keeps_stream (f (priv_data h)) w (ff_cached_file_protocol r h w).2.
Proof.
  destruct r as [fn fl|size|data size|pos whence| | |msk| |hd]; cbn;
    try discriminate; intros _ _;
    unfold mbind, mret, M_bind, M_ret; try apply keeps_stream_refl.
  - unfold cached_file_read. unfold mbind, mret, M_bind, M_ret.
    pose proof (fread_keeps_stream 1 (to_size_t size) (f (priv_data h)) w) as Hk.
    destruct (fread 1 (to_size_t size) (f (priv_data h)) w) as [[n bs] w1].
    exact Hk.
  - unfold cached_file_write. unfold mbind, mret, M_bind, M_ret.
    pose proof (fwrite_keeps_stream data 1 (to_size_t size) (f (priv_data h)) w)
      as Hk.
    destruct (fwrite data 1 (to_size_t size) (f (priv_data h)) w) as [n w1].
    exact Hk.
  - unfold cached_file_seek. unfold errno, gets, mbind, mret, M_bind, M_ret.
    destruct (whence =? AVSEEK_SIZE).
    + pose proof (fflush_keeps_stream (f (priv_data h)) w) as Hk1.
      destruct (fflush (f (priv_data h)) w) as [r1 w1].
      pose proof (fstat_keeps_stream (f (priv_data h)) (fd (priv_data h)) w1)
        as Hk2.
      destruct (fstat (fd (priv_data h)) w1) as [[r2 s2] w2]. cbn in *.
      destruct (r2 <? 0); cbn; eapply keeps_stream_trans; eassumption.
    + pose proof (fseeko_keeps_stream (f (priv_data h)) (to_off_t pos) whence w)
        as Hk1.
      destruct (fseeko (f (priv_data h)) (to_off_t pos) whence w) as [r1 w1].
      cbn in *. destruct (negb (r1 =? 0)); cbn.
      * eapply keeps_stream_trans; [exact Hk1|].
        apply (av_log_keeps_stream _ "Seek FILE Fail(%d)").
      * pose proof (ftello_keeps_stream (f (priv_data h)) w1) as Hk2.
        destruct (ftello (f (priv_data h)) w1) as [r2 w2]. cbn in *.
        destruct (to_int64 r2 <? 0); cbn; eapply keeps_stream_trans; eassumption.
  - unfold cached_file_check. unfold errno, gets, mbind, mret, M_bind, M_ret.
    pose proof (stat_keeps_stream (f (priv_data h))
                  (av_strstart (filename h) "file:").2 w) as Hk.
    destruct (stat (av_strstart (filename h) "file:").2 w) as [[r1 s1] w1].
    cbn in *. destruct (r1 <? 0); exact Hk.
Qed.

(** X1: a handle that is open on a file stays open on that file, with the
    same stream and the same descriptor, through every run of read, write,
    seek, check, get-handle, delete and move requests, whatever the library
    calls behind them return. *)
Theorem serve_keeps_open `{AvHeaders}
    (reqs : list request) (h : URLContext) (w : World) (path : string) :
  Forall (λ r, is_open r = false ∧ is_close r = false) reqs →
  open_on h w path →
  (serve reqs h w).1.2 = h ∧ open_on h (serve reqs h w).2 path.
Proof.
  revert h w. induction reqs as [|r reqs IH]; intros h w Hall Hopen;
    [split; [reflexivity|exact Hopen]|].
  inversion Hall as [|? ? [Hr1 Hr2] Hrest]; subst. cbn.
  unfold mbind, mret, M_bind, M_ret.
  pose proof (later_request_keeps_handle r h w Hr1) as Hh.
  pose proof (request_keeps_stream r h w Hr1 Hr2) as Hk.
  destruct (ff_cached_file_protocol r h w) as [[n h1] w1]. cbn in Hh, Hk.
  subst h1.
  destruct (IH h w1 Hrest (keeps_stream_open_on h w w1 path Hk Hopen))
    as [Hh' Ho'].
  destruct (serve reqs h w1) as [[ns h2] w2]. cbn in *. split; assumption.
Qed.

Lemma serve_keeps_open_witness :
  open_on (written_handle no_fault)
    (serve [url_write [x04; x05] 2; url_seek 1 SEEK_SET; url_read 1;
            url_seek 0 AVSEEK_SIZE; url_check AVIO_FLAG_READ]
       (written_handle no_fault) (written_world no_fault)).2 "test.bin".
Proof.
  apply (serve_keeps_open
           [url_write [x04; x05] 2; url_seek 1 SEEK_SET; url_read 1;
            url_seek 0 AVSEEK_SIZE; url_check AVIO_FLAG_READ]
           (written_handle no_fault) (written_world no_fault) "test.bin").
  - repeat constructor.
  - exists written_stream, (mkInode 420 [] []). vm_compute. repeat split.
Defined.

(** ** Open: the failure path, the handle, the heap *)

Lemma fopen_NULL_frame path mode w :
  (fopen path mode w).1 = NULL →
  w_streams (fopen path mode w).2 = w_streams w
  ∧ same_files w (fopen path mode w).2.
Proof.
  unfold fopen, install, same_files. unfold_M. cbn.
  repeat (case_match; simplify_eq/=); try (repeat split; reflexivity);
    intros E; destruct (fresh_not_NULL _ E).
Qed.

(** X2: when [fopen] returns [NULL], Open logs its diagnostic and returns
    [AVERROR(errno)], a negative value; it makes no other library call,
    allocates nothing, opens no stream and leaves the file system as it is;
    in the handle only [write_flags] is set, [f], [fd] and [buf] keep the
    values they had. *)
Theorem open_failure `{AvHeaders}
    (h : URLContext) (filename : string) (flags : Z) (w : World) :
  (fopen (av_strstart filename "cf:").2 (open_choice flags).1 w).1 = NULL →
  (cached_file_open h filename flags w).1.1
  = AVERROR (w_errno (cached_file_open h filename flags w).2)
  ∧ (cached_file_open h filename flags w).1.1 < 0
  ∧ w_trace (cached_file_open h filename flags w).2
    = w_trace w ++ [EvFopen (av_strstart filename "cf:").2 (open_choice flags).1;
                    EvLog "Open FILE Fail(%d)"]
  ∧ same_heap w (cached_file_open h filename flags w).2
  ∧ same_files w (cached_file_open h filename flags w).2
  ∧ w_streams (cached_file_open h filename flags w).2 = w_streams w
  ∧ (cached_file_open h filename flags w).1.2
    = set_priv_data (set_write_flags (open_choice flags).2 (priv_data h)) h.
Proof.
  intros Hnull.
  pose proof (fopen_NULL_errno _ _ _ Hnull) as Herr.
  destruct (fopen_NULL_frame _ _ _ Hnull) as [Hs Hf].
  destruct (fopen_logged (av_strstart filename "cf:").2 (open_choice flags).1 w)
    as [[Ht _] Hh].
  unfold cached_file_open. unfold mbind, mret, M_bind, M_ret.
  destruct (fopen (av_strstart filename "cf:").2 (open_choice flags).1 w)
    as [fp w1]. cbn in Hnull, Herr, Hs, Hf, Ht, Hh |- *. subst fp. cbn.
  unfold av_log, errno, emit, gets, modify. cbn.
  split; [reflexivity|]. split; [by apply AVERROR_negative|].
  split; [rewrite Ht, <- app_assoc; reflexivity|].
  repeat split; try apply Hh; try apply Hf; assumption.
Qed.

Lemma open_failure_witness :
  (cached_file_open (handle0 buf_size_default "cf:test.bin") "cf:test.bin"
     AVIO_FLAG_READ (world0 no_fault)).1.1 = AVERROR (Z.pos ENOENT)
  ∧ w_heap (cached_file_open (handle0 buf_size_default "cf:test.bin")
              "cf:test.bin" AVIO_FLAG_READ (world0 no_fault)).2 = ∅.
Proof.
  destruct (open_failure (handle0 buf_size_default "cf:test.bin")
              "cf:test.bin" AVIO_FLAG_READ (world0 no_fault))
    as (Hret & _ & _ & [Hh _] & _).
  - reflexivity.
  - split; [exact Hret|exact Hh].
Defined.

(** X3: after an Open that returned 0 the handle is open on the file named
    by the URL without its "cf:" prefix: [f] is a stream that is not [NULL],
    and [cached_file_get_handle] returns the descriptor of that stream, which
    refers to that file. *)
Theorem open_success_handle `{AvHeaders}
    (h : URLContext) (filename : string) (flags : Z) (w : World) :
  (cached_file_open h filename flags w).1.1 = 0 →
  open_on (cached_file_open h filename flags w).1.2
    (cached_file_open h filename flags w).2 (av_strstart filename "cf:").2
  ∧ f (priv_data (cached_file_open h filename flags w).1.2) ≠ NULL
  ∧ ∃ st,
      w_streams (cached_file_open h filename flags w).2
        !! f (priv_data (cached_file_open h filename flags w).1.2) = Some st
      ∧ cached_file_get_handle (cached_file_open h filename flags w).1.2
        = s_fd st.
Proof.
  intros Hret.
  destruct (cached_file_open_handle h filename flags w Hret)
    as (st & ino & Hst & Hfd & Hfile).
  split; [exists st, ino; repeat split; assumption|].
  split; [|exists st; split; [exact Hst|symmetry; exact Hfd]].
  apply (proj2 (proj2 (cached_file_open_spec h filename flags w))) in Hret.
  unfold cached_file_open. unfold mbind, mret, M_bind, M_ret.
  destruct (fopen (av_strstart filename "cf:").2 (open_choice flags).1 w)
    as [fp w1]. cbn in Hret |- *.
  destruct (Z.eqb_spec fp NULL) as [E|_]; [done|].
  destruct (if negb _ then _ else _) as [c1 w2].
  destruct (fileno fp w2) as [d w3]. exact Hret.
Qed.

Lemma open_success_handle_witness :
  open_on (opened 0 AVIO_FLAG_READ (world1 420 no_fault)).1.2
    (opened 0 AVIO_FLAG_READ (world1 420 no_fault)).2 "test.bin".
Proof. apply (open_success_handle _ "cf:test.bin"). reflexivity. Defined.

(** The heap after an Open that returned 0: either [buf] is [NULL] and the
    heap is as it was, or [buf] is the address of one new block. *)
Lemma cached_file_open_heap `{AvHeaders} h filename flags w :
  (cached_file_open h filename flags w).1.1 = 0 →
  (buf (priv_data (cached_file_open h filename flags w).1.2) = NULL
   ∧ same_heap w (cached_file_open h filename flags w).2)
  ∨ (buf (priv_data (cached_file_open h filename flags w).1.2) ≠ NULL
     ∧ w_heap w !! buf (priv_data (cached_file_open h filename flags w).1.2)
       = None
     ∧ w_heap (cached_file_open h filename flags w).2
       = <[buf (priv_data (cached_file_open h filename flags w).1.2)
           := to_size_t (buf_size (priv_data h))]> (w_heap w)
     ∧ w_badfree (cached_file_open h filename flags w).2 = w_badfree w).
Proof.
  intros Hret.
  apply (proj2 (proj2 (cached_file_open_spec h filename flags w))) in Hret.
  unfold cached_file_open. unfold mbind, mret, M_bind, M_ret.
  set (path := (av_strstart filename "cf:").2) in *.
  set (mode := (open_choice flags).1) in *.
  destruct (fopen_logged path mode w) as [_ [Hh1 Hb1]].
  destruct (fopen path mode w) as [fp w1]. cbn in Hret, Hh1, Hb1 |- *.
  destruct (Z.eqb_spec fp NULL) as [E|_]; [done|].
  change (buf_size (set_write_flags (open_choice flags).2 (priv_data h)))
    with (buf_size (priv_data h)).
  set (n := to_size_t (buf_size (priv_data h))).
  destruct (buf_size (priv_data h) =? 0); cbn.
  - destruct (fileno_logged fp w1) as [_ [Hh4 Hb4]].
    destruct (fileno fp w1) as [d4 w4]. cbn in Hh4, Hb4 |- *.
    left. split; [reflexivity|]. split; congruence.
  - pose proof (av_malloc_spec n w1) as [_ Hm].
    destruct (av_malloc n w1) as [p w2]. cbn in Hm |- *.
    destruct (setvbuf_logged fp p IOFBF n w2) as [_ [Hh3 Hb3]].
    destruct (setvbuf fp p IOFBF n w2) as [r3 w3]. cbn in Hh3, Hb3 |- *.
    destruct (fileno_logged fp w3) as [_ [Hh4 Hb4]].
    destruct (fileno fp w3) as [d4 w4]. cbn in Hh4, Hb4 |- *.
    destruct (w_fault w1 (length (w_trace w1)) (EvMalloc n)).
    + destruct Hm as (-> & Hh2 & Hb2). left.
      split; [reflexivity|]. split; congruence.
    + destruct Hm as (Hp & Hfresh & Hh2 & Hb2). right.
      split; [exact Hp|]. split; [rewrite <- Hh1; exact Hfresh|].
      split; congruence.
Qed.

(** A Close on a handle without a buffer leaves the heap as it is. *)
Lemma cached_file_close_null `{AvHeaders} h w :
  buf (priv_data h) = NULL → same_heap w (cached_file_close h w).2.
Proof.
  intros Hnull. unfold cached_file_close.
  unfold errno, gets, mbind, mret, M_bind, M_ret. rewrite Hnull.
  assert (∀ w1, same_heap w w1 →
            same_heap w
              (let (a, w'0) := fclose (f (priv_data h)) w1 in
               (if negb (a =? 0)
                then λ w0 : World, (AVERROR (w_errno w0), w0)
                else λ w0 : World,
                       let (_, w'1) := av_free NULL w0 in (0, w'1)) w'0).2)
    as Htail.
  { intros w1 [Hh Hb].
    destruct (fclose_logged (f (priv_data h)) w1) as [_ [Hh3 Hb3]].
    destruct (fclose (f (priv_data h)) w1) as [r3 w3]. cbn in Hh3, Hb3 |- *.
    destruct (negb (r3 =? 0)); cbn; [split; congruence|].
    pose proof (av_free_spec NULL w3) as (_ & _ & _ & [Hh4 Hb4]).
    destruct (av_free NULL w3) as [[] w4]. cbn in Hh4, Hb4 |- *.
    split; congruence. }
  destruct (negb (write_flags (priv_data h) =? 0)); cbn.
  - destruct (fflush_logged (f (priv_data h)) w) as [_ [Hh1 Hb1]].
    destruct (fflush (f (priv_data h)) w) as [r1 w1]. cbn in Hh1, Hb1 |- *.
    destruct (fsync_logged (fd (priv_data h)) w1) as [_ [Hh2 Hb2]].
    destruct (fsync (fd (priv_data h)) w1) as [r2 w2]. cbn in Hh2, Hb2 |- *.
    apply Htail. split; congruence.
  - apply Htail. split; reflexivity.
Qed.

(** X4: when Open and the Close that follows it both return 0, the heap is
    what it was before Open: the buffer Open allocated, if any, has been
    released, and nothing was released twice. *)
Theorem open_close_no_leak `{AvHeaders}
    (h : URLContext) (filename : string) (flags : Z) (w : World) :
  (cached_file_open h filename flags w).1.1 = 0 →
  (cached_file_close (cached_file_open h filename flags w).1.2
     (cached_file_open h filename flags w).2).1 = 0 →
  same_heap w
    (cached_file_close (cached_file_open h filename flags w).1.2
       (cached_file_open h filename flags w).2).2.
Proof.
  intros Hopen Hclose.
  destruct (cached_file_open_handle h filename flags w Hopen)
    as (st & ino & Hst & _ & _).
  destruct (cached_file_open_heap h filename flags w Hopen)
    as [[Hnull [Hh Hb]]|(Hp & Hfresh & Hh & Hb)].
  - destruct (cached_file_close_null _ (cached_file_open h filename flags w).2
                Hnull) as [Hh' Hb'].
    split; congruence.
  - pose proof (cached_file_close_buffer
                  (cached_file_open h filename flags w).1.2
                  (cached_file_open h filename flags w).2 st
                  (to_size_t (buf_size (priv_data h))) Hst) as Hc.
    rewrite Hh, lookup_insert_eq in Hc. specialize (Hc eq_refl Hp).
    rewrite Hclose, Z.eqb_refl in Hc. destruct Hc as [Hh' Hb'].
    split; [|congruence].
    rewrite Hh'. by apply delete_insert_id.
Qed.

Lemma open_close_no_leak_witness :
  same_heap (world0 no_fault)
    (cached_file_close (opened buf_size_default AVIO_FLAG_WRITE
                          (world0 no_fault)).1.2
       (opened buf_size_default AVIO_FLAG_WRITE (world0 no_fault)).2).2.
Proof.
  apply (open_close_no_leak (handle0 buf_size_default "cf:test.bin")
           "cf:test.bin" AVIO_FLAG_WRITE (world0 no_fault)); reflexivity.
Defined.

(** ** Close: the stream, the descriptor, stable storage *)

Lemma av_free_files p w :
  same_files w (av_free p w).2 ∧ w_streams (av_free p w).2 = w_streams w.
Proof.
  unfold av_free, same_files. unfold_M. cbn.
  repeat (case_match; simplify_eq/=); repeat split; reflexivity.
Qed.

(** After Close the stream and the descriptor of the handle are gone,
    whatever Close returned. *)
Lemma cached_file_close_stream `{AvHeaders} h w st :
  w_streams w !! f (priv_data h) = Some st →
  s_fd st = fd (priv_data h) →
  w_streams (cached_file_close h w).2 !! f (priv_data h) = None
  ∧ w_fds (cached_file_close h w).2 !! fd (priv_data h) = None.
Proof.
  assert (∀ h w st,
            write_flags (priv_data h) = 0 →
            w_streams w !! f (priv_data h) = Some st →
            s_fd st = fd (priv_data h) →
            w_streams (cached_file_close h w).2 !! f (priv_data h) = None
            ∧ w_fds (cached_file_close h w).2 !! fd (priv_data h) = None)
    as Hread.
  { clear h w st. intros h w st Hwf Hst Hfd.
    unfold cached_file_close. rewrite Hwf. cbn.
    unfold errno, gets, mbind, mret, M_bind, M_ret.
    pose proof (fclose_spec _ w st Hst) as (_ & _ & Hd3 & Hs3 & _).
    destruct (fclose (f (priv_data h)) w) as [r3 w3]. cbn in Hd3, Hs3 |- *.
    destruct (negb (r3 =? 0)); cbn.
    - rewrite Hs3, Hd3, Hfd, !lookup_delete_eq. by split.
    - destruct (av_free_files (buf (priv_data h)) w3) as [[Hd4 _] Hs4].
      destruct (av_free (buf (priv_data h)) w3) as [[] w4]. cbn in Hd4, Hs4 |- *.
      rewrite Hs4, Hd4, Hs3, Hd3, Hfd, !lookup_delete_eq. by split. }
  intros Hst Hfd.
  destruct (Z.eq_dec (write_flags (priv_data h)) 0) as [Hwf|Hwf].
  - exact (Hread h w st Hwf Hst Hfd).
  - rewrite (cached_file_close_write_mode h w Hwf).
    pose proof (fflush_spec _ w st Hst) as (_ & _ & _ & Hcase1).
    pose proof (fsync_spec (fd (priv_data h)) (fflush (f (priv_data h)) w).2)
      as (_ & _ & _ & Hs2 & _).
    set (w2 := (fsync (fd (priv_data h)) (fflush (f (priv_data h)) w).2).2)
      in *.
    assert (∃ st2, w_streams w2 !! f (priv_data h) = Some st2
                   ∧ s_fd st2 = s_fd st) as (st2 & Hst2 & Hfd2).
    { rewrite Hs2.
      destruct (w_fault w (length (w_trace w)) (EvFflush (f (priv_data h))));
        destruct Hcase1 as (_ & -> & _); rewrite lookup_insert_eq;
        eexists; split; reflexivity. }
    apply (Hread (set_priv_data (set_write_flags 0 (priv_data h)) h) w2 st2);
      cbn; [reflexivity|exact Hst2|congruence].
Qed.

(** X5: Close on an open handle whose [buf] is an allocated block: whatever
    Close returns, the stream and the descriptor are gone afterwards; when it
    returns 0 the block has been released, once; otherwise it returns a
    negative code and the block is still allocated. *)
Theorem close_releases `{AvHeaders}
    (h : URLContext) (w : World) (st : stream) (n : Z) :
  w_streams w !! f (priv_data h) = Some st →
  s_fd st = fd (priv_data h) →
  w_heap w !! buf (priv_data h) = Some n →
  buf (priv_data h) ≠ NULL →
  w_streams (cached_file_close h w).2 !! f (priv_data h) = None
  ∧ w_fds (cached_file_close h w).2 !! fd (priv_data h) = None
  ∧ if (cached_file_close h w).1 =? 0
    then w_heap (cached_file_close h w).2
         = delete (buf (priv_data h)) (w_heap w)
         ∧ w_badfree (cached_file_close h w).2 = w_badfree w
    else (cached_file_close h w).1 < 0
         ∧ w_heap (cached_file_close h w).2 !! buf (priv_data h) = Some n
         ∧ w_badfree (cached_file_close h w).2 = w_badfree w.
Proof.
  intros Hst Hfd Hn Hp.
  destruct (cached_file_close_stream h w st Hst Hfd) as [Hs Hd].
  split; [exact Hs|]. split; [exact Hd|].
  exact (cached_file_close_buffer h w st n Hst Hn Hp).
Qed.

Lemma close_releases_witness :
  w_streams (cached_file_close (written_handle no_fault)
               (written_world no_fault)).2 !! 1 = None
  ∧ w_heap (cached_file_close (written_handle no_fault)
              (written_world no_fault)).2 = ∅.
Proof.
  destruct (close_releases (written_handle no_fault) (written_world no_fault)
              written_stream buf_size_default)
    as (Hs & _ & Hh).
  - reflexivity.
  - reflexivity.
  - reflexivity.
  - discriminate.
  - split; [exact Hs|]. destruct Hh as [Hh _]. rewrite Hh. reflexivity.
Defined.

Lemma commit_pending_on_disk st w p :
  on_disk (commit_pending st w) p = on_disk w p.
Proof.
  unfold commit_pending, on_disk, file_of_fd.
  destruct (w_fds w !! s_fd st) as [path|]; [|reflexivity].
  destruct (w_fs w !! path) as [ino|] eqn:Hino; [|reflexivity]. cbn.
  destruct (decide (path = p)) as [->|Hne].
  - by rewrite lookup_insert_eq, Hino.
  - by rewrite lookup_insert_ne.
Qed.

(** X6: Close on an open handle in read mode calls [fclose] and, when that
    succeeds, [av_free], and nothing else: neither [fflush] nor [fsync]; what
    stable storage holds is the same for every file before and after. *)
Theorem close_read_mode `{AvHeaders}
    (h : URLContext) (w : World) (st : stream) :
  write_flags (priv_data h) = 0 →
  w_streams w !! f (priv_data h) = Some st →
  w_trace (cached_file_close h w).2
  = w_trace w ++ EvFclose (f (priv_data h))
                 :: (if (cached_file_close h w).1 =? 0
                     then [EvFree (buf (priv_data h))] else [])
  ∧ ∀ p, on_disk (cached_file_close h w).2 p = on_disk w p.
Proof.
  intros Hwf Hst.
  destruct (cached_file_close_read_mode h w st Hwf Hst) as (Ht & Hfs & _).
  split; [exact Ht|]. intros p. unfold on_disk at 1. rewrite Hfs.
  pose proof (fclose_spec _ w st Hst) as (_ & _ & _ & _ & Hcase).
  destruct (w_fault w (length (w_trace w)) (EvFclose (f (priv_data h)))).
  - destruct Hcase as (_ & -> & _). reflexivity.
  - destruct Hcase as (_ & -> & _). apply (commit_pending_on_disk st w p).
Qed.

Lemma close_read_mode_witness :
  w_trace (cached_file_close (opened 0 AVIO_FLAG_READ (world1 420 no_fault)).1.2
             (opened 0 AVIO_FLAG_READ (world1 420 no_fault)).2).2
  = [EvFopen "test.bin" "rb"; EvFileno 1; EvFclose 1; EvFree 0].
Proof.
  destruct (close_read_mode (opened 0 AVIO_FLAG_READ (world1 420 no_fault)).1.2
              (opened 0 AVIO_FLAG_READ (world1 420 no_fault)).2
              (mkStream 0 true false 0 [] NULL IOFBF BUFSIZ false false))
    as [Ht _].
  - reflexivity.
  - reflexivity.
  - rewrite Ht. reflexivity.
Defined.

(** ** Check leaves the environment alone *)

(** X8: [cached_file_check] opens nothing and changes nothing: the file
    system, the descriptors, the streams and the heap are the same before and
    after; its only library call is [stat]. *)
Theorem check_touches_nothing `{AvHeaders}
    (h : URLContext) (msk : Z) (w : World) :
  same_files w (cached_file_check h msk w).2
  ∧ same_heap w (cached_file_check h msk w).2
  ∧ w_streams (cached_file_check h msk w).2 = w_streams w
  ∧ w_trace (cached_file_check h msk w).2
    = w_trace w ++ [EvStat (av_strstart (filename h) "file:").2].
Proof.
  unfold cached_file_check, stat, same_files, same_heap. unfold_M. cbn.
  repeat (case_match; simplify_eq/=); repeat split; reflexivity.
Qed.

(** ** Positional seek *)

Lemma seek_base_none whence st ino :
  seek_base whence st ino = None
  ↔ (whence =? SEEK_SET) || (whence =? SEEK_CUR) || (whence =? SEEK_END)
    = false.
Proof.
  unfold seek_base.
  destruct (whence =? SEEK_SET), (whence =? SEEK_CUR), (whence =? SEEK_END);
    cbn; split; congruence.
Qed.

Lemma fseeko_spec fp off whence w st path ino :
  w_streams w !! fp = Some st →
  file_of_fd (s_fd st) w = Some (path, ino) →
  w_fault w (length (w_trace w)) (EvFseeko fp off whence) = None →
  logged (EvFseeko fp off whence) w (fseeko fp off whence w).2
  ∧ w_fds (fseeko fp off whence w).2 = w_fds w
  ∧ match seek_base whence st ino with
    | Some b =>
        w_fs (fseeko fp off whence w).2 = w_fs (commit_pending st w)
        ∧ if b + off <? 0
          then (fseeko fp off whence w).1 = -1
               ∧ w_errno (fseeko fp off whence w).2 = Z.pos EINVAL
               ∧ w_streams (fseeko fp off whence w).2
                 = <[fp := flushed st]> (w_streams w)
          else (fseeko fp off whence w).1 = 0
               ∧ w_streams (fseeko fp off whence w).2
                 = <[fp := set_pos (Z.to_nat (b + off)) false (flushed st)]>
                     (w_streams w)
    | None =>
        (fseeko fp off whence w).1 = -1
        ∧ w_errno (fseeko fp off whence w).2 = Z.pos EINVAL
        ∧ w_streams (fseeko fp off whence w).2 = w_streams w
        ∧ w_fs (fseeko fp off whence w).2 = w_fs w
    end.
Proof.
  intros Hst Hfile Hfault. unfold fseeko, logged, seek_base. unfold_M. cbn.
  rewrite Hfault, Hst. cbn.
  assert (w_fs (commit_pending st (with_trace
                                     (w_trace w ++ [EvFseeko fp off whence]) w))
          = w_fs (commit_pending st w)) as Hfs.
  { unfold commit_pending. autorewrite with files.
    destruct (file_of_fd (s_fd st) w) as [[p i]|]; reflexivity. }
  unfold stream_pos.
  destruct (whence =? SEEK_SET); [|destruct (whence =? SEEK_CUR);
                                   [|destruct (whence =? SEEK_END)]]; cbn;
    autorewrite with frame files;
    rewrite ?(commit_pending_file st _ path ino) by exact Hfile; cbn;
    repeat (case_match; simplify_eq/=); autorewrite with frame; cbn;
    repeat split; try reflexivity; try exact Hfs.
Qed.

Lemma ftello_spec fp w st :
  w_streams w !! fp = Some st →
  w_fault w (length (w_trace w)) (EvFtello fp) = None →
  (ftello fp w).1 = stream_pos st
  ∧ logged (EvFtello fp) w (ftello fp w).2
  ∧ w_streams (ftello fp w).2 = w_streams w
  ∧ same_files w (ftello fp w).2.
Proof.
  intros Hst Hfault. unfold ftello, logged, same_files. unfold_M. cbn.
  rewrite Hfault, Hst. cbn. repeat split; reflexivity.
Qed.

Lemma wrap_signed_64_small x :
  - 2 ^ 63 ≤ x < 2 ^ 63 → wrap_signed 64 x = x.
Proof. unfold wrap_signed. intros Hx. rewrite Z.mod_small; lia. Qed.

(** X9: a positional seek on an open handle, when neither [fseeko] nor
    [ftello] fails and the target [b + pos] is not negative, [b] being 0 for
    [SEEK_SET], the position of the stream for [SEEK_CUR] and the length of
    the file with the pending bytes in it for [SEEK_END]: the result is the
    new absolute position [b + pos]; the stream is at that position; the
    bytes that were pending are in the file; the calls made are [fseeko] and
    [ftello]. *)
Theorem seek_position `{AvHeaders}
    (h : URLContext) (pos whence : Z) (w : World)
    (st : stream) (path : string) (ino : inode) (b : Z) :
  whence ≠ AVSEEK_SIZE →
  - 2 ^ 63 ≤ pos < 2 ^ 63 →
  w_streams w !! f (priv_data h) = Some st →
  s_fd st = fd (priv_data h) →
  file_of_fd (fd (priv_data h)) w = Some (path, ino) →
  w_fault w (length (w_trace w)) (EvFseeko (f (priv_data h)) pos whence)
  = None →
  w_fault w (S (length (w_trace w))) (EvFtello (f (priv_data h))) = None →
  seek_base whence st ino = Some b →
  0 ≤ b + pos < 2 ^ 63 →
  (cached_file_seek h pos whence w).1 = b + pos
  ∧ w_trace (cached_file_seek h pos whence w).2
    = w_trace w ++ [EvFseeko (f (priv_data h)) pos whence;
                    EvFtello (f (priv_data h))]
  ∧ (∃ st',
       w_streams (cached_file_seek h pos whence w).2 !! f (priv_data h)
       = Some st'
       ∧ stream_pos st' = b + pos
       ∧ s_pending st' = [])
  ∧ ∃ ino',
      file_of_fd (fd (priv_data h)) (cached_file_seek h pos whence w).2
      = Some (path, ino')
      ∧ i_data ino' = write_at (i_data ino) (s_off st) (s_pending st).
Proof.
  intros Hw Hpos Hst Hfd Hfile Hf1 Hf2 Hbase Hb.
  unfold cached_file_seek.
  destruct (Z.eqb_spec whence AVSEEK_SIZE) as [E|_]; [done|].
  unfold to_off_t, to_int64. rewrite (wrap_signed_64_small pos Hpos).
  unfold errno, gets, mbind, mret, M_bind, M_ret.
  rewrite <- Hfd in Hfile.
  pose proof (fseeko_spec _ pos whence w st path ino Hst Hfile Hf1)
    as ([Ht1 Hfl1] & Hd1 & Hcase).
  rewrite Hbase in Hcase. destruct Hcase as [Hfs1 Hcase].
  destruct (Z.ltb_spec (b + pos) 0) as [Hneg|_]; [lia|].
  destruct Hcase as [Hr1 Hs1].
  destruct (fseeko (f (priv_data h)) pos whence w) as [r1 w1].
  cbn in Ht1, Hfl1, Hd1, Hfs1, Hr1, Hs1 |- *. subst r1. cbn.
  assert (w_streams w1 !! f (priv_data h)
          = Some (set_pos (Z.to_nat (b + pos)) false (flushed st))) as Hst1
    by (rewrite Hs1; apply lookup_insert_eq).
  rewrite <- Hfl1, <- (Nat.add_1_r (length (w_trace w))) in Hf2.
  replace (length (w_trace w) + 1)%nat with (length (w_trace w1)) in Hf2
    by (rewrite Ht1, length_app; reflexivity).
  pose proof (ftello_spec _ w1 _ Hst1 Hf2) as (Hr2 & [Ht2 _] & Hs2 & [Hd2 Hfs2]).
  destruct (ftello (f (priv_data h)) w1) as [r2 w2].
  cbn in Hr2, Ht2, Hs2, Hd2, Hfs2 |- *.
  assert (r2 = b + pos) as ->.
  { rewrite Hr2. unfold stream_pos. cbn. lia. }
  rewrite (wrap_signed_64_small (b + pos)) by lia.
  destruct (Z.ltb_spec (b + pos) 0) as [Hneg|_]; [lia|]. cbn.
  split; [reflexivity|]. split; [rewrite Ht2, Ht1, <- app_assoc; reflexivity|].
  split.
  - eexists. rewrite Hs2. split; [exact Hst1|].
    split; [unfold stream_pos; cbn; lia|reflexivity].
  - rewrite (file_of_fd_ext _ w1 w2) by assumption.
    rewrite (file_of_fd_ext _ (commit_pending st w) w1);
      [|by rewrite commit_pending_fds|exact Hfs1].
    rewrite <- Hfd, (commit_pending_file st w path ino Hfile).
    eexists. split; reflexivity.
Qed.

Lemma seek_position_witness :
  (cached_file_seek (written_handle no_fault) (-1) SEEK_END
     (written_world no_fault)).1 = 2
  ∧ ∃ ino',
      file_of_fd 0 (cached_file_seek (written_handle no_fault) (-1) SEEK_END
                      (written_world no_fault)).2 = Some ("test.bin", ino')
      ∧ i_data ino' = [x01; x02; x03].
Proof.
  destruct (seek_position (written_handle no_fault) (-1) SEEK_END
              (written_world no_fault) written_stream "test.bin"
              (mkInode 420 [] []) 3)
    as (Hret & _ & _ & Hfile); try reflexivity.
  - discriminate.
  - lia.
  - lia.
  - split; [exact Hret|exact Hfile].
Defined.

Lemma fseeko_fault fp off whence w st fl :
  w_streams w !! fp = Some st →
  (whence =? SEEK_SET) || (whence =? SEEK_CUR) || (whence =? SEEK_END) = true →
  w_fault w (length (w_trace w)) (EvFseeko fp off whence) = Some fl →
  (fseeko fp off whence w).1 = -1
  ∧ w_errno (fseeko fp off whence w).2 = Z.pos (fl_errno fl)
  ∧ w_streams (fseeko fp off whence w).2
    = <[fp := set_err (flushed (cut_pending (fl_done fl) st))]> (w_streams w)
  ∧ w_trace (fseeko fp off whence w).2 = w_trace w ++ [EvFseeko fp off whence].
Proof.
  intros Hst Hwh Hf. unfold fseeko. unfold_M. cbn. rewrite Hf, Hst, Hwh. cbn.
  autorewrite with frame. cbn. repeat split; reflexivity.
Qed.

Lemma fseeko_whence fp off whence w st :
  w_streams w !! fp = Some st →
  (whence =? SEEK_SET) || (whence =? SEEK_CUR) || (whence =? SEEK_END) = false →
  (fseeko fp off whence w).1 = -1
  ∧ w_errno (fseeko fp off whence w).2 = Z.pos EINVAL
  ∧ w_streams (fseeko fp off whence w).2 = w_streams w
  ∧ w_trace (fseeko fp off whence w).2 = w_trace w ++ [EvFseeko fp off whence].
Proof.
  intros Hst Hwh. unfold fseeko. unfold_M. cbn. rewrite Hst, Hwh. cbn.
  repeat split; reflexivity.
Qed.

(** X10: a positional seek on an open handle fails when [whence] is none of
    the three positional values, when the target is negative, or when
    [fseeko] fails in the operating system.  It then logs its diagnostic and
    returns [AVERROR(errno)], a negative value, without calling [ftello]:
    [AVERROR(EINVAL)] in the first two cases, the error of the operating
    system in the third.  A [whence] that is not positional leaves the
    stream as it was, and a negative target leaves its position where it
    was; nothing is said of the position after a failure in the operating
    system, which may lose buffered bytes. *)
Theorem seek_failure `{AvHeaders}
    (h : URLContext) (pos whence : Z) (w : World)
    (st : stream) (path : string) (ino : inode) :
  whence ≠ AVSEEK_SIZE →
  - 2 ^ 63 ≤ pos < 2 ^ 63 →
  w_streams w !! f (priv_data h) = Some st →
  s_fd st = fd (priv_data h) →
  file_of_fd (fd (priv_data h)) w = Some (path, ino) →
  w_fault w (length (w_trace w)) (EvFseeko (f (priv_data h)) pos whence)
  ≠ None
  ∨ seek_base whence st ino = None
  ∨ (∃ b, seek_base whence st ino = Some b ∧ b + pos < 0) →
  (cached_file_seek h pos whence w).1
  = AVERROR (w_errno (cached_file_seek h pos whence w).2)
  ∧ (cached_file_seek h pos whence w).1 < 0
  ∧ w_trace (cached_file_seek h pos whence w).2
    = w_trace w ++ [EvFseeko (f (priv_data h)) pos whence;
                    EvLog "Seek FILE Fail(%d)"]
  ∧ match seek_base whence st ino,
          w_fault w (length (w_trace w))
            (EvFseeko (f (priv_data h)) pos whence) with
    | None, _ =>
        (cached_file_seek h pos whence w).1 = AVERROR (Z.pos EINVAL)
        ∧ w_streams (cached_file_seek h pos whence w).2 !! f (priv_data h)
          = Some st
    | Some _, Some fl =>
        (cached_file_seek h pos whence w).1 = AVERROR (Z.pos (fl_errno fl))
        ∧ ∃ st',
            w_streams (cached_file_seek h pos whence w).2 !! f (priv_data h)
            = Some st'
    | Some _, None =>
        (cached_file_seek h pos whence w).1 = AVERROR (Z.pos EINVAL)
        ∧ ∃ st',
            w_streams (cached_file_seek h pos whence w).2 !! f (priv_data h)
            = Some st'
            ∧ stream_pos st' = stream_pos st
    end.
Proof.
  intros Hw Hpos Hst Hfd Hfile Hfail.
  unfold cached_file_seek.
  destruct (Z.eqb_spec whence AVSEEK_SIZE) as [E|_]; [done|].
  unfold to_off_t. rewrite (wrap_signed_64_small pos Hpos).
  unfold errno, gets, mbind, mret, M_bind, M_ret.
  rewrite <- Hfd in Hfile.
  assert ((fseeko (f (priv_data h)) pos whence w).1 = -1
          ∧ 0 < w_errno (fseeko (f (priv_data h)) pos whence w).2
          ∧ w_trace (fseeko (f (priv_data h)) pos whence w).2
            = w_trace w ++ [EvFseeko (f (priv_data h)) pos whence]
          ∧ match seek_base whence st ino,
                  w_fault w (length (w_trace w))
                    (EvFseeko (f (priv_data h)) pos whence) with
            | None, _ =>
                w_errno (fseeko (f (priv_data h)) pos whence w).2
                = Z.pos EINVAL
                ∧ w_streams (fseeko (f (priv_data h)) pos whence w).2
                    !! f (priv_data h) = Some st
            | Some _, Some fl =>
                w_errno (fseeko (f (priv_data h)) pos whence w).2
                = Z.pos (fl_errno fl)
                ∧ ∃ st', w_streams (fseeko (f (priv_data h)) pos whence w).2
                           !! f (priv_data h) = Some st'
            | Some _, None =>
                w_errno (fseeko (f (priv_data h)) pos whence w).2
                = Z.pos EINVAL
                ∧ ∃ st', w_streams (fseeko (f (priv_data h)) pos whence w).2
                           !! f (priv_data h) = Some st'
                         ∧ stream_pos st' = stream_pos st
            end)
    as (Hr1 & He1 & Ht1 & Hs1).
  { destruct (seek_base whence st ino) as [b|] eqn:Hbase.
    - assert ((whence =? SEEK_SET) || (whence =? SEEK_CUR)
              || (whence =? SEEK_END) = true) as Hwh.
      { destruct ((whence =? SEEK_SET) || (whence =? SEEK_CUR)
                  || (whence =? SEEK_END)) eqn:E; [reflexivity|].
        apply (seek_base_none whence st ino) in E. congruence. }
      destruct (w_fault w (length (w_trace w))
                  (EvFseeko (f (priv_data h)) pos whence)) as [fl|] eqn:Hf.
      + destruct (fseeko_fault _ pos whence w st fl Hst Hwh Hf)
          as (Hr & He & Hs & Ht).
        rewrite Hr, He, Hs, Ht, lookup_insert_eq. repeat split; try lia. eauto.
      + pose proof (fseeko_spec _ pos whence w st path ino Hst Hfile Hf)
          as ([Ht _] & _ & Hcase).
        rewrite Hbase in Hcase. destruct Hcase as [_ Hcase].
        destruct Hfail as [Hc|[Hnone|(b' & Hb & Hneg)]]; [done|done|].
        injection Hb as <-.
        destruct (Z.ltb_spec (b + pos) 0) as [_|Hge]; [|lia].
        destruct Hcase as (Hr & He & Hs).
        rewrite Hr, He, Hs, Ht, lookup_insert_eq. repeat split; try lia.
        eexists. split; [reflexivity|apply stream_pos_flushed].
    - apply seek_base_none in Hbase.
      destruct (fseeko_whence _ pos whence w st Hst Hbase)
        as (Hr & He & Hs & Ht).
      rewrite Hr, He, Hs, Ht. repeat split; try lia. exact Hst. }
  destruct (fseeko (f (priv_data h)) pos whence w) as [r1 w1].
  cbn in Hr1, He1, Ht1, Hs1 |- *. subst r1. cbn.
  unfold av_log, emit, modify. cbn.
  split; [reflexivity|]. split; [by apply AVERROR_negative|].
  split; [rewrite Ht1, <- app_assoc; reflexivity|].
  destruct (seek_base whence st ino);
    [destruct (w_fault w (length (w_trace w))
                 (EvFseeko (f (priv_data h)) pos whence))|];
    destruct Hs1 as [-> Hs1]; split; (reflexivity || exact Hs1).
Qed.

Lemma seek_failure_witness :
  (cached_file_seek (written_handle no_fault) (-5) SEEK_CUR
     (written_world no_fault)).1 = AVERROR (Z.pos EINVAL)
  ∧ ∃ st',
      w_streams (cached_file_seek (written_handle no_fault) (-5) SEEK_CUR
                   (written_world no_fault)).2 !! 1 = Some st'
      ∧ stream_pos st' = 3.
Proof.
  destruct (seek_failure (written_handle no_fault) (-5) SEEK_CUR
              (written_world no_fault) written_stream "test.bin"
              (mkInode 420 [] []))
    as (_ & _ & _ & Hcase); try reflexivity.
  - discriminate.
  - lia.
  - right. right. exists 3. split; [reflexivity|lia].
  - exact Hcase.
Defined.

(** With three written bytes pending, a seek that fails with [EIO] in the
    operating system loses them: the result is [AVERROR(EIO)], the stream is
    at position 0 and the file is still empty. *)
Example seek_os_failure_drops_pending :
  (cached_file_seek (written_handle (fault_on is_fseeko EIO)) 0 SEEK_SET
     (written_world (fault_on is_fseeko EIO))).1 = AVERROR (Z.pos EIO)
  ∧ stream_pos
      <$> w_streams
            (cached_file_seek (written_handle (fault_on is_fseeko EIO)) 0
               SEEK_SET (written_world (fault_on is_fseeko EIO))).2 !! 1
    = Some 0
  ∧ i_data
      <$> w_fs
            (cached_file_seek (written_handle (fault_on is_fseeko EIO)) 0
               SEEK_SET (written_world (fault_on is_fseeko EIO))).2
            !! "test.bin"
    = Some [].
Proof. vm_compute. repeat split; reflexivity. Qed.

(** A [whence] of 7 is refused before the buffer is flushed: the three bytes
    are still pending and the file is still empty. *)
Example seek_unknown_whence_keeps_buffer :
  (cached_file_seek (written_handle no_fault) 0 7 (written_world no_fault)).1
  = AVERROR (Z.pos EINVAL)
  ∧ w_streams
      (cached_file_seek (written_handle no_fault) 0 7
         (written_world no_fault)).2 !! 1
    = Some written_stream
  ∧ i_data
      <$> w_fs
            (cached_file_seek (written_handle no_fault) 0 7
               (written_world no_fault)).2 !! "test.bin"
    = Some [].
Proof. vm_compute. repeat split; reflexivity. Qed.

(** ** Read and write on an open handle *)

(** X11: a read of [0 <= size <= INT_MAX] bytes through a handle open for
    reading, when [fread] does not fail: the bytes returned are the bytes of
    the file from the position of the stream on, [size] of them or as many
    as are left; the result is their number and the position advances by it.
    At or past the end of the file the result is 0 and the position stays,
    read after read; the error indicator of the stream is not touched. *)
Theorem read_from_position `{AvHeaders}
    (h : URLContext) (size : Z) (w : World)
    (st : stream) (path : string) (ino : inode) :
  0 ≤ size ≤ INT_MAX →
  w_streams w !! f (priv_data h) = Some st →
  s_rd st = true →
  file_of_fd (s_fd st) w = Some (path, ino) →
  w_fault w (length (w_trace w)) (EvFread (f (priv_data h)) 1 size) = None →
  (cached_file_read h size w).1.2
  = take (Z.to_nat size)
      (drop (Z.to_nat (stream_pos st))
         (write_at (i_data ino) (s_off st) (s_pending st)))
  ∧ (cached_file_read h size w).1.1
    = Z.of_nat (length (cached_file_read h size w).1.2)
  ∧ (∃ st',
       w_streams (cached_file_read h size w).2 !! f (priv_data h) = Some st'
       ∧ stream_pos st' = stream_pos st + (cached_file_read h size w).1.1
       ∧ s_err st' = s_err st)
  ∧ (Z.of_nat (length (write_at (i_data ino) (s_off st) (s_pending st)))
     ≤ stream_pos st →
     (cached_file_read h size w).1.1 = 0).
Proof.
  intros Hsize Hst Hrd Hfile Hfault.
  unfold cached_file_read, fread. unfold_M. cbn.
  rewrite (to_size_t_small size Hsize), Hfault, Hst. cbn. rewrite Hrd. cbn.
  autorewrite with frame files.
  rewrite (commit_pending_file st _ path ino) by exact Hfile. cbn.
  rewrite Z.mul_1_l, Z.div_1_r, lookup_insert_eq.
  unfold stream_pos. rewrite Nat2Z.id.
  set (bytes := take (Z.to_nat size)
                  (drop (s_off st + length (s_pending st))
                     (write_at (i_data ino) (s_off st) (s_pending st)))).
  assert (0 ≤ Z.of_nat (length bytes) ≤ size) as Hlen
    by (unfold bytes; rewrite length_take; lia).
  rewrite to_int_small by (unfold INT_MAX in *; lia).
  split; [reflexivity|]. split; [reflexivity|]. split.
  - eexists. split; [reflexivity|]. cbn. split; [lia|reflexivity].
  - intros Heof. unfold bytes. rewrite drop_ge by lia. by rewrite take_nil.
Qed.

Lemma read_from_position_witness :
  (cached_file_read (opened 0 AVIO_FLAG_READ (world1 420 no_fault)).1.2 2
     (opened 0 AVIO_FLAG_READ (world1 420 no_fault)).2).1 = (2, [x0a; x0b]).
Proof.
  destruct (read_from_position
              (opened 0 AVIO_FLAG_READ (world1 420 no_fault)).1.2 2
              (opened 0 AVIO_FLAG_READ (world1 420 no_fault)).2
              (mkStream 0 true false 0 [] NULL IOFBF BUFSIZ false false)
              "test.bin" (mkInode 420 [x0a; x0b; x0c] [x0a; x0b; x0c]))
    as (Hbytes & Hn & _).
  1-5: first [ reflexivity | vm_compute; split; discriminate ].
  - destruct (cached_file_read _ 2 _) as [[n bs] w1]. cbn in Hbytes, Hn.
    rewrite Hn, Hbytes. reflexivity.
Defined.

Lemma write_at_nil_r data off : write_at data off [] = data.
Proof. reflexivity. Qed.

Lemma write_at_cons data off b bs :
  write_at data off (b :: bs)
  = take off data ++ replicate (off - length data)%nat x00 ++ (b :: bs)
      ++ drop (off + length (b :: bs))%nat data.
Proof. reflexivity. Qed.

(** Bytes stored right after bytes just stored: one store of both. *)
Lemma write_at_app data off p q :
  write_at (write_at data off p) (off + length p) q
  = write_at data off (p ++ q).
Proof.
  destruct p as [|b p]; [by rewrite Nat.add_0_r|].
  destruct q as [|c q]; [by rewrite app_nil_r|].
  change ((b :: p) ++ c :: q) with (b :: (p ++ c :: q)).
  rewrite (write_at_cons _ _ c q), (write_at_cons data off b (p ++ c :: q)).
  rewrite write_at_cons.
  set (A := take off data ++ replicate (off - length data)%nat x00).
  assert (length A = off) as HA
    by (unfold A; rewrite length_app, length_take, length_replicate; lia).
  set (P := b :: p) in *.
  replace (take off data ++ replicate (off - length data)%nat x00 ++ P
             ++ drop (off + length P) data)
    with ((A ++ P) ++ drop (off + length P) data)
    by (unfold A; by rewrite <- !app_assoc).
  assert (length (A ++ P) = (off + length P)%nat) as HAP
    by (rewrite length_app; lia).
  rewrite <- HAP at 1. rewrite take_app_length.
  replace (off + length P - length ((A ++ P) ++ drop (off + length P) data))%nat
    with 0%nat by (rewrite length_app; lia).
  cbn [replicate app].
  replace (off + length P + length (c :: q))%nat
    with (length (A ++ P) + length (c :: q))%nat by lia.
  rewrite drop_app_add, drop_drop.
  unfold A, P. rewrite <- !app_assoc. cbn [app length].
  rewrite length_app. cbn [length].
  replace (off + S (length p) + S (length q))%nat
    with (off + S (length p + S (length q)))%nat by lia.
  reflexivity.
Qed.

Lemma fwrite_spec data nmemb fp w st path ino :
  w_streams w !! fp = Some st →
  s_wr st = true →
  file_of_fd (s_fd st) w = Some (path, ino) →
  w_fault w (length (w_trace w)) (EvFwrite fp 1 nmemb) = None →
  (fwrite data 1 nmemb fp w).1
  = Z.of_nat (length (take (Z.to_nat nmemb) data))
  ∧ logged (EvFwrite fp 1 nmemb) w (fwrite data 1 nmemb fp w).2
  ∧ ∃ st' ino',
      w_streams (fwrite data 1 nmemb fp w).2 = <[fp := st']> (w_streams w)
      ∧ file_of_fd (s_fd st) (fwrite data 1 nmemb fp w).2 = Some (path, ino')
      ∧ s_fd st' = s_fd st ∧ s_rd st' = s_rd st ∧ s_wr st' = true
      ∧ s_err st' = s_err st
      ∧ stream_pos st'
        = stream_pos st + Z.of_nat (length (take (Z.to_nat nmemb) data))
      ∧ contents st' ino'
        = write_at (i_data ino) (s_off st)
            (s_pending st ++ take (Z.to_nat nmemb) data)
      ∧ i_disk ino' = i_disk ino.
Proof.
  intros Hst Hwr Hfile Hfault. unfold fwrite, logged. unfold_M. cbn.
  rewrite Hfault, Hst. cbn. rewrite Hwr. cbn.
  rewrite Z.mul_1_l, Z.div_1_r.
  set (want := take (Z.to_nat nmemb) data).
  destruct (s_cap st <=? Z.of_nat (length (s_pending st ++ want))); cbn;
    autorewrite with frame files; cbn.
  - rewrite (commit_pending_file (set_pending (s_pending st ++ want) st) _
               path ino) by exact Hfile.
    split; [reflexivity|]. split; [split; reflexivity|].
    eexists _, _. split; [reflexivity|]. split; [reflexivity|].
    unfold stream_pos, contents. cbn. rewrite length_app.
    repeat split; try reflexivity; try assumption; lia.
  - split; [reflexivity|]. split; [split; reflexivity|].
    exists (set_pending (s_pending st ++ want) st), ino.
    split; [reflexivity|]. split; [exact Hfile|].
    unfold stream_pos, contents. cbn. rewrite length_app.
    repeat split; try reflexivity; try assumption; lia.
Qed.

(** X12: a write of the [size] bytes [data], [0 <= size <= INT_MAX], through
    a handle open for writing, when [fwrite] does not fail: the result is
    [size]; the position advances by [size]; the contents of the file as a
    reader sees them after a flush are the old ones with [data] stored at
    the old position, whether the bytes went to the file or wait in the
    buffer; stable storage is not touched. *)
Theorem write_at_position `{AvHeaders}
    (h : URLContext) (data : list byte) (size : Z) (w : World)
    (st : stream) (path : string) (ino : inode) :
  0 ≤ size ≤ INT_MAX →
  Z.of_nat (length data) = size →
  w_streams w !! f (priv_data h) = Some st →
  s_wr st = true →
  file_of_fd (s_fd st) w = Some (path, ino) →
  w_fault w (length (w_trace w)) (EvFwrite (f (priv_data h)) 1 size) = None →
  (cached_file_write h data size w).1 = size
  ∧ ∃ st' ino',
      w_streams (cached_file_write h data size w).2 !! f (priv_data h)
      = Some st'
      ∧ file_of_fd (s_fd st) (cached_file_write h data size w).2
        = Some (path, ino')
      ∧ stream_pos st' = stream_pos st + size
      ∧ contents st' ino'
        = write_at (contents st ino) (Z.to_nat (stream_pos st)) data
      ∧ i_disk ino' = i_disk ino.
Proof.
  intros Hsize Hlen Hst Hwr Hfile Hfault.
  unfold cached_file_write. rewrite (to_size_t_small size Hsize).
  unfold mbind, mret, M_bind, M_ret.
  pose proof (fwrite_spec data size _ w st path ino Hst Hwr Hfile Hfault)
    as (Hr & _ & st' & ino' & Hs & Hf & _ & _ & _ & _ & Hpos & Hc & Hd).
  assert (take (Z.to_nat size) data = data) as Htake
    by (apply take_ge; lia).
  rewrite Htake in Hr, Hpos, Hc. rewrite Hlen in Hr, Hpos.
  destruct (fwrite data 1 size (f (priv_data h)) w) as [n w1].
  cbn in Hr, Hs, Hf |- *. subst n.
  split; [apply to_int_small; unfold INT_MAX in *; lia|].
  exists st', ino'. rewrite Hs, lookup_insert_eq.
  repeat split; try assumption.
  rewrite Hc. unfold contents, stream_pos.
  rewrite Nat2Z.id. symmetry. apply write_at_app.
Qed.

Lemma write_at_position_witness :
  (cached_file_write (written_handle no_fault) [x04; x05] 2
     (written_world no_fault)).1 = 2
  ∧ ∃ st' ino',
      w_streams (cached_file_write (written_handle no_fault) [x04; x05] 2
                   (written_world no_fault)).2 !! 1 = Some st'
      ∧ file_of_fd 0 (cached_file_write (written_handle no_fault) [x04; x05] 2
                        (written_world no_fault)).2 = Some ("test.bin", ino')
      ∧ contents st' ino' = [x01; x02; x03; x04; x05].
Proof.
  destruct (write_at_position (written_handle no_fault) [x04; x05] 2
              (written_world no_fault) written_stream "test.bin"
              (mkInode 420 [] []))
    as (Hret & st' & ino' & Hs & Hf & _ & Hc & _).
  1-6: first [ reflexivity | vm_compute; split; discriminate ].
  - split; [exact Hret|]. exists st', ino'.
    split; [exact Hs|]. split; [exact Hf|]. rewrite Hc. reflexivity.
Defined.

(** ** Transfers that meet an OS error *)




(** ** Writes followed by a size query or by Close *)

(** A size query on an open handle, when [fflush] and [fstat] succeed,
    returns the length of the contents of the file. *)
Lemma seek_size_contents `{AvHeaders} h pos w st path ino :
  w_streams w !! f (priv_data h) = Some st →
  s_fd st = fd (priv_data h) →
  file_of_fd (fd (priv_data h)) w = Some (path, ino) →
  w_fault w (length (w_trace w)) (EvFflush (f (priv_data h))) = None →
  w_fault w (S (length (w_trace w))) (EvFstat (fd (priv_data h))) = None →
  (cached_file_seek h pos AVSEEK_SIZE w).1
  = Z.of_nat (length (contents st ino)).
Proof.
  intros Hst Hfd Hfile Hf1 Hf2.
  unfold cached_file_seek. rewrite Z.eqb_refl.
  unfold errno, gets, mbind, mret, M_bind, M_ret.
  pose proof (fflush_spec (f (priv_data h)) w st Hst)
    as ([Ht1 Hfl1] & _ & Hfds1 & Hcase1).
  rewrite Hf1 in Hcase1. destruct Hcase1 as (_ & _ & Hfs1 & _).
  destruct (fflush (f (priv_data h)) w) as [r1 w1].
  cbn in Ht1, Hfl1, Hfds1, Hfs1 |- *.
  pose proof (fstat_spec (fd (priv_data h)) w1) as (_ & _ & _ & _ & _ & Hcase2).
  rewrite Hfl1, Ht1, length_app, Nat.add_1_r in Hcase2. cbn in Hcase2.
  rewrite Hf2 in Hcase2.
  assert (file_of_fd (fd (priv_data h)) w1
          = Some (path, mkInode (i_mode ino) (contents st ino) (i_disk ino)))
    as Hfile1.
  { rewrite (file_of_fd_ext _ (commit_pending st w) w1);
      [|by rewrite commit_pending_fds|exact Hfs1].
    rewrite <- Hfd in Hfile |- *.
    exact (commit_pending_file st w path ino Hfile). }
  rewrite Hfile1 in Hcase2. destruct Hcase2 as [Hr2 _].
  destruct (fstat (fd (priv_data h)) w1) as [[r2 s2] w2]. cbn in Hr2 |- *.
  injection Hr2 as -> ->. reflexivity.
Qed.

(** Close on an open handle in write mode, when [fflush], [fsync] and
    [fclose] succeed, leaves the contents of the file in the file and on
    stable storage. *)
Lemma cached_file_close_commits `{AvHeaders} h w st path ino :
  write_flags (priv_data h) ≠ 0 →
  w_streams w !! f (priv_data h) = Some st →
  s_fd st = fd (priv_data h) →
  file_of_fd (fd (priv_data h)) w = Some (path, ino) →
  w_fault w (length (w_trace w)) (EvFflush (f (priv_data h))) = None →
  w_fault w (S (length (w_trace w))) (EvFsync (fd (priv_data h))) = None →
  w_fault w (S (S (length (w_trace w)))) (EvFclose (f (priv_data h))) = None →
  (cached_file_close h w).1 = 0
  ∧ w_fs (cached_file_close h w).2 !! path
    = Some (mkInode (i_mode ino) (contents st ino) (contents st ino)).
Proof.
  intros Hwf Hst Hfd Hfile Hf1 Hf2 Hf3.
  rewrite (cached_file_close_write_mode h w Hwf).
  set (fp := f (priv_data h)) in *. set (d := fd (priv_data h)) in *.
  pose proof (fflush_spec fp w st Hst) as ([Ht1 Hfl1] & _ & Hfds1 & Hcase1).
  rewrite Hf1 in Hcase1. destruct Hcase1 as (_ & Hs1 & Hfs1 & _).
  assert (file_of_fd (s_fd st) w = Some (path, ino)) as Hfile0
    by (rewrite Hfd; exact Hfile).
  rewrite (commit_pending_fs st w path ino Hfile0) in Hfs1.
  pose proof (file_of_fd_insert d w (fflush fp w).2 path ino _ Hfile Hfds1 Hfs1)
    as Hfile1.
  pose proof (fsync_spec d (fflush fp w).2)
    as ([Ht2 Hfl2] & _ & Hfds2 & Hs2 & Hcase2).
  rewrite Hfl1, Ht1, length_app, Nat.add_1_r in Hcase2. cbn in Hcase2.
  rewrite Hf2, Hfile1 in Hcase2. destruct Hcase2 as (_ & Hfs2 & _).
  cbn in Hfs2.
  pose proof (file_of_fd_insert d _ (fsync d (fflush fp w).2).2 path _ _
                Hfile1 Hfds2 Hfs2) as Hfile2.
  set (w2 := (fsync d (fflush fp w).2).2) in *.
  assert (w_streams w2 !! fp = Some (flushed st)) as Hst2
    by (rewrite Hs2, Hs1; apply lookup_insert_eq).
  assert (w_fault w2 (length (w_trace w2)) (EvFclose fp) = None) as Hf3'.
  { rewrite Hfl2, Hfl1, Ht2, Ht1, !length_app, !Nat.add_1_r. exact Hf3. }
  set (h0 := set_priv_data (set_write_flags 0 (priv_data h)) h).
  destruct (cached_file_close_read_mode h0 w2 (flushed st) eq_refl Hst2)
    as (_ & Hfs & Hcase).
  change (f (priv_data h0)) with fp in Hfs, Hcase.
  rewrite Hf3' in Hcase. destruct Hcase as [Hret _].
  split; [exact Hret|].
  pose proof (fclose_spec fp w2 (flushed st) Hst2) as (_ & _ & _ & _ & Hcase3).
  rewrite Hf3' in Hcase3. destruct Hcase3 as (_ & Hfs3 & _).
  assert (file_of_fd (s_fd (flushed st)) w2
          = Some (path, mkInode (i_mode ino) (contents st ino)
                          (contents st ino))) as Hfile2'
    by (cbn [s_fd flushed]; rewrite Hfd; exact Hfile2).
  rewrite (commit_pending_fs _ w2 path _ Hfile2') in Hfs3.
  rewrite Hfs, Hfs3, lookup_insert_eq. reflexivity.
Qed.

Lemma cached_file_write_world `{AvHeaders} h data size w :
  (cached_file_write h data size w).2
  = (fwrite data 1 (to_size_t size) (f (priv_data h)) w).2.
Proof.
  unfold cached_file_write. unfold mbind, mret, M_bind, M_ret.
  by destruct (fwrite data 1 (to_size_t size) (f (priv_data h)) w).
Qed.

(** The handle after a write that did not fail: still open on the same file,
    with the written bytes in the contents. *)
Lemma cached_file_write_open `{AvHeaders} h data size w st path ino :
  0 ≤ size ≤ INT_MAX →
  Z.of_nat (length data) = size →
  w_streams w !! f (priv_data h) = Some st →
  s_fd st = fd (priv_data h) →
  s_wr st = true →
  file_of_fd (fd (priv_data h)) w = Some (path, ino) →
  w_fault w (length (w_trace w)) (EvFwrite (f (priv_data h)) 1 size) = None →
  ∃ st' ino',
    w_streams (cached_file_write h data size w).2 !! f (priv_data h) = Some st'
    ∧ s_fd st' = fd (priv_data h)
    ∧ file_of_fd (fd (priv_data h)) (cached_file_write h data size w).2
      = Some (path, ino')
    ∧ contents st' ino'
      = write_at (contents st ino) (Z.to_nat (stream_pos st)) data
    ∧ i_mode ino' = i_mode ino
    ∧ w_trace (cached_file_write h data size w).2
      = w_trace w ++ [EvFwrite (f (priv_data h)) 1 size]
    ∧ w_fault (cached_file_write h data size w).2 = w_fault w.
Proof.
  intros Hsize Hlen Hst Hfd Hwr Hfile Hfault.
  rewrite cached_file_write_world, (to_size_t_small size Hsize).
  assert (file_of_fd (s_fd st) w = Some (path, ino)) as Hfile0
    by (rewrite Hfd; exact Hfile).
  unfold fwrite. unfold_M. cbn. rewrite Hfault, Hst. cbn. rewrite Hwr. cbn.
  rewrite Z.mul_1_l.
  assert (take (Z.to_nat size) data = data) as -> by (apply take_ge; lia).
  assert (write_at (i_data ino) (s_off st) (s_pending st ++ data)
          = write_at (contents st ino) (Z.to_nat (stream_pos st)) data) as Hc.
  { unfold contents, stream_pos. rewrite Nat2Z.id. symmetry.
    apply write_at_app. }
  destruct (s_cap st <=? Z.of_nat (length (s_pending st ++ data))); cbn;
    autorewrite with frame files; cbn; rewrite lookup_insert_eq.
  - rewrite <- Hfd.
    rewrite (commit_pending_file (set_pending (s_pending st ++ data) st) _
               path ino) by exact Hfile0.
    eexists _, _. split; [reflexivity|]. split; [reflexivity|].
    split; [reflexivity|]. unfold contents at 1. cbn.
    repeat split; try reflexivity. exact Hc.
  - exists (set_pending (s_pending st ++ data) st), ino.
    split; [reflexivity|]. split; [exact Hfd|]. split; [exact Hfile|].
    unfold contents at 1. cbn. repeat split; try reflexivity. exact Hc.
Qed.

(** X13: a size query after a write, on a handle open for writing, when
    [fwrite], [fflush] and [fstat] do not fail: the result is the length of
    the file with the written bytes in it, whether or not they were still in
    the buffer when the query was made. *)
Theorem write_then_size `{AvHeaders}
    (h : URLContext) (data : list byte) (size pos : Z) (w : World)
    (st : stream) (path : string) (ino : inode) :
  0 ≤ size ≤ INT_MAX →
  Z.of_nat (length data) = size →
  w_streams w !! f (priv_data h) = Some st →
  s_fd st = fd (priv_data h) →
  s_wr st = true →
  file_of_fd (fd (priv_data h)) w = Some (path, ino) →
  w_fault w (length (w_trace w)) (EvFwrite (f (priv_data h)) 1 size) = None →
  w_fault w (S (length (w_trace w))) (EvFflush (f (priv_data h))) = None →
  w_fault w (S (S (length (w_trace w)))) (EvFstat (fd (priv_data h))) = None →
  (cached_file_seek h pos AVSEEK_SIZE (cached_file_write h data size w).2).1
  = Z.of_nat (length (write_at (contents st ino)
                        (Z.to_nat (stream_pos st)) data)).
Proof.
  intros Hsize Hlen Hst Hfd Hwr Hfile Hf0 Hf1 Hf2.
  destruct (cached_file_write_open h data size w st path ino
              Hsize Hlen Hst Hfd Hwr Hfile Hf0)
    as (st' & ino' & Hst' & Hfd' & Hfile' & Hc & _ & Ht & Hfl).
  rewrite <- Hc.
  apply (seek_size_contents h pos _ st' path ino' Hst' Hfd' Hfile').
  - rewrite Hfl, Ht, length_app, Nat.add_1_r. exact Hf1.
  - rewrite Hfl, Ht, length_app, Nat.add_1_r. exact Hf2.
Qed.

(** X14: a write followed by Close, on an open handle in write mode, when
    [fwrite], [fflush], [fsync] and [fclose] do not fail: Close returns 0,
    and the file holds, in the kernel and on stable storage alike, its
    former contents with the written bytes stored at the former position. *)
Theorem write_close_durable `{AvHeaders}
    (h : URLContext) (data : list byte) (size : Z) (w : World)
    (st : stream) (path : string) (ino : inode) :
  0 ≤ size ≤ INT_MAX →
  Z.of_nat (length data) = size →
  write_flags (priv_data h) ≠ 0 →
  w_streams w !! f (priv_data h) = Some st →
  s_fd st = fd (priv_data h) →
  s_wr st = true →
  file_of_fd (fd (priv_data h)) w = Some (path, ino) →
  w_fault w (length (w_trace w)) (EvFwrite (f (priv_data h)) 1 size) = None →
  w_fault w (S (length (w_trace w))) (EvFflush (f (priv_data h))) = None →
  w_fault w (S (S (length (w_trace w)))) (EvFsync (fd (priv_data h))) = None →
  w_fault w (S (S (S (length (w_trace w))))) (EvFclose (f (priv_data h)))
  = None →
  (cached_file_close h (cached_file_write h data size w).2).1 = 0
  ∧ w_fs (cached_file_close h (cached_file_write h data size w).2).2 !! path
    = Some (mkInode (i_mode ino)
              (write_at (contents st ino) (Z.to_nat (stream_pos st)) data)
              (write_at (contents st ino) (Z.to_nat (stream_pos st)) data)).
Proof.
  intros Hsize Hlen Hwf Hst Hfd Hwr Hfile Hf0 Hf1 Hf2 Hf3.
  destruct (cached_file_write_open h data size w st path ino
              Hsize Hlen Hst Hfd Hwr Hfile Hf0)
    as (st' & ino' & Hst' & Hfd' & Hfile' & Hc & Hm & Ht & Hfl).
  rewrite <- Hc, <- Hm.
  apply (cached_file_close_commits h _ st' path ino' Hwf Hst' Hfd' Hfile');
    rewrite Hfl, Ht, length_app, Nat.add_1_r; assumption.
Qed.

Lemma write_then_size_witness :
  (cached_file_seek (written_handle no_fault) 0 AVSEEK_SIZE
     (cached_file_write (written_handle no_fault) [x04; x05] 2
        (written_world no_fault)).2).1 = 5.
Proof.
  rewrite (write_then_size (written_handle no_fault) [x04; x05] 2 0
             (written_world no_fault) written_stream "test.bin"
             (mkInode 420 [] [])).
  all: first [ reflexivity | vm_compute; split; discriminate ].
Defined.

Lemma write_close_durable_witness :
  (cached_file_close (written_handle no_fault)
     (cached_file_write (written_handle no_fault) [x04; x05] 2
        (written_world no_fault)).2).1 = 0
  ∧ on_disk (cached_file_close (written_handle no_fault)
               (cached_file_write (written_handle no_fault) [x04; x05] 2
                  (written_world no_fault)).2).2 "test.bin"
    = Some [x01; x02; x03; x04; x05].
Proof.
  destruct (write_close_durable (written_handle no_fault) [x04; x05] 2
              (written_world no_fault) written_stream "test.bin"
              (mkInode 420 [] []))
    as [Hret Hfs].
  1-11: first [ reflexivity | discriminate | vm_compute; split; discriminate ].
  split; [exact Hret|]. unfold on_disk. rewrite Hfs. reflexivity.
Defined.

(** ** What Open does to the file *)

Lemma fopen_mode_spec path mode w rd wr trunc :
  open_mode mode = Some (rd, wr, trunc) →
  (fopen path mode w).1 ≠ NULL →
  ∃ d ino,
    w_streams (fopen path mode w).2 !! (fopen path mode w).1
    = Some (mkStream d rd wr 0 [] NULL IOFBF BUFSIZ false false)
    ∧ file_of_fd d (fopen path mode w).2 = Some (path, ino)
    ∧ (if trunc then i_data ino = [] else w_fs w !! path = Some ino)
    ∧ on_disk (fopen path mode w).2 path
      = (if trunc then Some (default [] (on_disk w path)) else on_disk w path).
Proof.
  intros Hm. unfold fopen, install, file_of_fd, on_disk. unfold_M. cbn.
  rewrite Hm. cbn.
  repeat (case_match; simplify_eq/=); try done; intros _;
    eexists _, _; (split; [rewrite lookup_insert_eq; reflexivity|]); cbn;
    rewrite !lookup_insert_eq; repeat split; try reflexivity; try assumption.
Qed.

Lemma setvbuf_set_vbuf fp p m n w st :
  w_streams w !! fp = Some st →
  ∃ vb m' cap,
    w_streams (setvbuf fp p m n w).2 = <[fp := set_vbuf vb m' cap st]> (w_streams w).
Proof.
  intros Hst. unfold setvbuf. unfold_M. cbn. rewrite Hst. cbn.
  repeat case_match; eauto.
Qed.

Lemma open_choice_mode `{AvHeaders} flags :
  open_mode (open_choice flags).1
  = Some (if Z.land flags AVIO_FLAG_WRITE =? 0 then (true, false, false)
          else (negb (Z.land flags AVIO_FLAG_READ =? 0), true, true)).
Proof.
  unfold open_choice.
  destruct (Z.land flags AVIO_FLAG_WRITE =? 0),
    (Z.land flags AVIO_FLAG_READ =? 0); reflexivity.
Qed.

(** The stream and the file after an Open that returned 0, by the mode
    passed to [fopen]. *)
Lemma cached_file_open_stream `{AvHeaders} h filename flags w rd wr trunc :
  open_mode (open_choice flags).1 = Some (rd, wr, trunc) →
  (cached_file_open h filename flags w).1.1 = 0 →
  ∃ st ino,
    w_streams (cached_file_open h filename flags w).2
      !! f (priv_data (cached_file_open h filename flags w).1.2) = Some st
    ∧ s_fd st = fd (priv_data (cached_file_open h filename flags w).1.2)
    ∧ file_of_fd (fd (priv_data (cached_file_open h filename flags w).1.2))
        (cached_file_open h filename flags w).2
      = Some ((av_strstart filename "cf:").2, ino)
    ∧ stream_pos st = 0
    ∧ s_pending st = []
    ∧ s_rd st = rd
    ∧ s_wr st = wr
    ∧ (if trunc then i_data ino = []
       else w_fs w !! (av_strstart filename "cf:").2 = Some ino)
    ∧ on_disk (cached_file_open h filename flags w).2
        (av_strstart filename "cf:").2
      = (if trunc then Some (default [] (on_disk w (av_strstart filename "cf:").2))
         else on_disk w (av_strstart filename "cf:").2).
Proof.
  intros Hmode Hret.
  apply (proj2 (proj2 (cached_file_open_spec h filename flags w))) in Hret.
  unfold cached_file_open. unfold mbind, mret, M_bind, M_ret.
  set (path := (av_strstart filename "cf:").2) in *.
  set (mode := (open_choice flags).1) in *.
  destruct (fopen_mode_spec path mode w rd wr trunc Hmode Hret)
    as (d & ino & Hst & Hfile & Hdata & Hdisk).
  destruct (fopen path mode w) as [fp w1].
  cbn in Hret, Hst, Hfile, Hdisk |- *.
  destruct (Z.eqb_spec fp NULL) as [E|_]; [done|].
  change (buf_size (set_write_flags (open_choice flags).2 (priv_data h)))
    with (buf_size (priv_data h)).
  set (n := to_size_t (buf_size (priv_data h))).
  assert (∀ w4 vb m cap d4,
            w_streams w4 !! fp
            = Some (set_vbuf vb m cap
                      (mkStream d rd wr 0 [] NULL IOFBF BUFSIZ false false)) →
            d4 = d →
            same_files w1 w4 →
            ∃ st ino0,
              w_streams w4 !! fp = Some st
              ∧ s_fd st = d4
              ∧ file_of_fd d4 w4 = Some (path, ino0)
              ∧ stream_pos st = 0
              ∧ s_pending st = []
              ∧ s_rd st = rd
              ∧ s_wr st = wr
              ∧ (if trunc then i_data ino0 = []
                 else w_fs w !! path = Some ino0)
              ∧ on_disk w4 path
                = (if trunc then Some (default [] (on_disk w path))
                   else on_disk w path)) as Hfinish.
  { intros w4 vb m cap d4 Hst4 -> [Hd4 Hf4].
    eexists _, ino. split; [exact Hst4|]. split; [reflexivity|].
    split; [by rewrite (file_of_fd_ext _ w1 w4)|].
    repeat split; try reflexivity; try assumption.
    unfold on_disk in *. by rewrite Hf4. }
  destruct (buf_size (priv_data h) =? 0); cbn.
  - destruct (fileno_spec fp w1 _ Hst) as (Hd4 & Hfiles4).
    pose proof (fileno_streams fp w1) as Hs4.
    destruct (fileno fp w1) as [d4 w4]. cbn in Hd4, Hfiles4, Hs4 |- *.
    apply (Hfinish w4 NULL IOFBF BUFSIZ d4); try done.
    by rewrite Hs4.
  - destruct (av_malloc_files n w1) as [Hd2 Hf2].
    pose proof (proj1 (av_malloc_spec n w1)) as Hs2.
    destruct (av_malloc n w1) as [p w2]. cbn in Hd2, Hf2, Hs2 |- *.
    rewrite <- Hs2 in Hst.
    destruct (setvbuf_files fp p IOFBF n w2) as [Hd3 Hf3].
    destruct (setvbuf_set_vbuf fp p IOFBF n w2 _ Hst) as (vb & m & cap & Hs3).
    destruct (setvbuf fp p IOFBF n w2) as [r3 w3]. cbn in Hd3, Hf3, Hs3 |- *.
    assert (w_streams w3 !! fp
            = Some (set_vbuf vb m cap
                      (mkStream d rd wr 0 [] NULL IOFBF BUFSIZ false false)))
      as Hst3 by (rewrite Hs3; apply lookup_insert_eq).
    destruct (fileno_spec fp w3 _ Hst3) as (Hd4 & Hd4' & Hf4').
    pose proof (fileno_streams fp w3) as Hs4.
    destruct (fileno fp w3) as [d4 w4]. cbn in Hd4, Hd4', Hf4', Hs4 |- *.
    apply (Hfinish w4 vb m cap d4); try done.
    + by rewrite Hs4.
    + split; congruence.
Qed.

(** X15: what an Open that returned 0 does to the file.  The stream is at
    position 0 with nothing pending.  Without the write flag the stream is
    read-only and the file is the one that was there, unchanged; with the
    write flag the stream is writable (and readable when the read flag is set
    too) and the file is empty, created or truncated.  Stable storage still
    holds what it held ([] for a new file). *)
Theorem open_effect `{AvHeaders}
    (h : URLContext) (filename : string) (flags : Z) (w : World) :
  (cached_file_open h filename flags w).1.1 = 0 →
  ∃ st ino,
    w_streams (cached_file_open h filename flags w).2
      !! f (priv_data (cached_file_open h filename flags w).1.2) = Some st
    ∧ s_fd st = fd (priv_data (cached_file_open h filename flags w).1.2)
    ∧ file_of_fd (fd (priv_data (cached_file_open h filename flags w).1.2))
        (cached_file_open h filename flags w).2
      = Some ((av_strstart filename "cf:").2, ino)
    ∧ stream_pos st = 0
    ∧ s_pending st = []
    ∧ (if Z.land flags AVIO_FLAG_WRITE =? 0
       then s_rd st = true ∧ s_wr st = false
            ∧ w_fs w !! (av_strstart filename "cf:").2 = Some ino
            ∧ on_disk (cached_file_open h filename flags w).2
                (av_strstart filename "cf:").2
              = on_disk w (av_strstart filename "cf:").2
       else s_rd st = negb (Z.land flags AVIO_FLAG_READ =? 0)
            ∧ s_wr st = true
            ∧ i_data ino = []
            ∧ on_disk (cached_file_open h filename flags w).2
                (av_strstart filename "cf:").2
              = Some (default [] (on_disk w (av_strstart filename "cf:").2))).
Proof.
  intros Hret. pose proof (open_choice_mode flags) as Hmode.
  destruct (Z.land flags AVIO_FLAG_WRITE =? 0);
    destruct (cached_file_open_stream h filename flags w _ _ _ Hmode Hret)
      as (st & ino & Hst & Hfd & Hfile & Hpos & Hpend & Hrd & Hwr & Hdata & Hdisk);
    exists st, ino; repeat split; assumption.
Qed.

Lemma open_effect_witness :
  ∃ st ino,
    w_streams (opened 0 AVIO_FLAG_WRITE (world1 420 no_fault)).2 !! 1 = Some st
    ∧ file_of_fd 0 (opened 0 AVIO_FLAG_WRITE (world1 420 no_fault)).2
      = Some ("test.bin", ino)
    ∧ s_wr st = true
    ∧ i_data ino = []
    ∧ on_disk (opened 0 AVIO_FLAG_WRITE (world1 420 no_fault)).2 "test.bin"
      = Some [x0a; x0b; x0c].
Proof.
  destruct (open_effect (handle0 0 "cf:test.bin") "cf:test.bin"
              AVIO_FLAG_WRITE (world1 420 no_fault))
    as (st & ino & Hst & _ & Hfile & _ & _ & Hmode).
  - reflexivity.
  - assert (s_rd st = false ∧ s_wr st = true ∧ i_data ino = []
            ∧ on_disk (opened 0 AVIO_FLAG_WRITE (world1 420 no_fault)).2
                "test.bin" = Some [x0a; x0b; x0c])
      as (_ & Hwr & Hdata & Hdisk) by exact Hmode.
    exists st, ino. repeat split; assumption.
Defined.
